(** * Self-healing supply chain: the risk-analysis core

    A shallow embedding of the risk-analysis module of the repository
    (models/supplier.py, models/risk.py, engines/risk_scorer.py,
    engines/impact_analyzer.py, engines/geo_correlator.py and
    core/alert_generator.py), followed by the properties of its
    specification.

    Python objects are records, enumerations are inductive types, dictionaries
    whose key set matters are [gmap string _], and functions that can raise
    return [option].  Python's [float] is an interface ([PyNum]) with two
    implementations: exact rationals ([Q]), on which the general statements
    are proved, and IEEE binary64 (primitive floats), on which the concrete
    scenarios are evaluated once more and on which the estimated delay, an
    integer read off a rounded product, is stated.  Strings are byte strings
    and case folding is that of the ASCII letters.  Logging, the only side
    effect of the embedded functions, is left out. *)

From Stdlib Require Import ZArith QArith Qround Lqa Lia Bool Ascii String List.
From Stdlib Require Import Floats.PrimFloat Floats.FloatOps Floats.SpecFloat.
From Stdlib Require Import Uint63.
From Stdlib Require Import Sorted.
From stdpp Require Import gmap strings list fin_maps.

Local Open Scope string_scope.

(** ** Python numbers *)

(** The operations the source applies to numbers.  [lit] reads a decimal
    literal, [of_int] is the int-to-float conversion of mixed arithmetic,
    [round_nd n x] is [round(x, n)] and [int_of] is [int(x)]. *)
Class PyNum (R : Type) := {
  lit : Q -> R;
  of_int : Z -> R;
  add : R -> R -> R;
  mul : R -> R -> R;
  div : R -> R -> R;
  ltb : R -> R -> bool;
  leb : R -> R -> bool;
  eqb : R -> R -> bool;
  round_nd : Z -> R -> R;
  int_of : R -> Z
}.

Declare Scope py_scope.
Delimit Scope py_scope with py.
Notation "x + y" := (add x y) : py_scope.
Notation "x * y" := (mul x y) : py_scope.
Notation "x / y" := (div x y) : py_scope.
Notation "x <? y" := (ltb x y) : py_scope.
Notation "x >? y" := (ltb y x) : py_scope.
Notation "x >=? y" := (leb y x) : py_scope.
Notation "x =? y" := (eqb x y) : py_scope.

(** Round half to even, the rule of Python's [round]. *)
Definition round_half_even (q : Q) : Z :=
  let f := Qfloor q in
  match Qcompare (q - inject_Z f) (1 # 2) with
  | Lt => f
  | Gt => (f + 1)%Z
  | Eq => if Z.even f then f else (f + 1)%Z
  end.

(** [int(x)]: truncation toward zero. *)
Definition Qtrunc (q : Q) : Z := Z.quot (Qnum q) (Zpos (Qden q)).

Definition pow10 (n : Z) : positive := Z.to_pos (10 ^ n).

Definition Qround_nd (n : Z) (q : Q) : Q :=
  round_half_even (q * inject_Z (Zpos (pow10 n))) # pow10 n.

#[export] Instance PyNum_Q : PyNum Q := {
  lit := fun q => q;
  of_int := inject_Z;
  add := Qplus;
  mul := Qmult;
  div := Qdiv;
  ltb := fun x y => negb (Qle_bool y x);
  leb := Qle_bool;
  eqb := Qeq_bool;
  round_nd := Qround_nd;
  int_of := Qtrunc
}.

(** *** IEEE binary64 *)

Module Binary64.

Definition of_Z (z : Z) : float :=
  match z with
  | Z0 => PrimFloat.zero
  | Zpos _ => PrimFloat.of_uint63 (Uint63.of_Z z)
  | Zneg p => PrimFloat.opp (PrimFloat.of_uint63 (Uint63.of_Z (Zpos p)))
  end.

(** A decimal literal [n/10^k] is the double nearest to it: numerator and
    denominator are exact doubles and the division rounds correctly. *)
Definition of_Q (q : Q) : float :=
  PrimFloat.div (of_Z (Qnum q)) (of_Z (Zpos (Qden q))).

(** The exact value of a finite double (0 for infinities and NaN, on which
    [round] and [int] raise in Python). *)
Definition to_Q (x : float) : Q :=
  match Prim2SF x with
  | S754_finite s m e =>
      let v := (inject_Z (Zpos m) * (2 ^ e))%Q in
      if s then Qopp v else v
  | _ => 0%Q
  end.

(** [round(x, n)]: the decimal nearest to the exact value, read back as a
    double. *)
Definition round_nd (n : Z) (x : float) : float :=
  of_Q (Qround_nd n (to_Q x)).

Definition int_of (x : float) : Z := Qtrunc (to_Q x).

End Binary64.

#[export] Instance PyNum_float : PyNum float := {
  lit := Binary64.of_Q;
  of_int := Binary64.of_Z;
  add := PrimFloat.add;
  mul := PrimFloat.mul;
  div := PrimFloat.div;
  ltb := PrimFloat.ltb;
  leb := PrimFloat.leb;
  eqb := PrimFloat.eqb;
  round_nd := Binary64.round_nd;
  int_of := Binary64.int_of
}.

#[global] Instance PyNum_inhabited {R} `{PyNum R} : Inhabited R :=
  populate (of_int 0).

(** ** Python builtins *)

Section Builtins.
Context {R : Type} `{PyNum R}.
Local Open Scope py_scope.

(** [min(a, b)] and [max(a, b)] keep the first argument unless the second
    is strictly smaller (larger). *)
Definition py_min (a b : R) : R := if b <? a then b else a.
Definition py_max (a b : R) : R := if b >? a then b else a.

(** [max(iterable)] on the non-empty iterable [x :: l]. *)
Definition py_max_of (x : R) (l : list R) : R := fold_left py_max l x.

(** [sum(iterable)] starts from the integer 0. *)
Definition py_sum (l : list R) : R := fold_left add l (of_int 0).

End Builtins.

(** [x or d] on strings and lists: the empty value is falsy. *)
Definition str_or (x : option string) (d : string) : string :=
  match x with
  | Some (String c s) => String c s
  | _ => d
  end.

Definition list_or {A} (x : option (list A)) (d : list A) : list A :=
  match x with
  | Some (a :: l) => a :: l
  | _ => d
  end.

(** Truthiness of an optional string: [None] and [""] are falsy. *)
Definition str_truthy (x : option string) : bool :=
  match x with
  | Some (String _ _) => true
  | _ => false
  end.

(** ** Strings *)

(** [str.lower()] on ASCII text: the letters A-Z are mapped to a-z, every
    other byte is kept. *)
Definition lower_ascii (c : ascii) : ascii :=
  let n := nat_of_ascii c in
  if (Nat.leb 65 n && Nat.leb n 90)%bool then ascii_of_nat (n + 32) else c.

Fixpoint lower (s : string) : string :=
  match s with
  | EmptyString => EmptyString
  | String c s' => String (lower_ascii c) (lower s')
  end.

(** [str.upper()] and [str.capitalize()], on ASCII text as well. *)
Definition upper_ascii (c : ascii) : ascii :=
  let n := nat_of_ascii c in
  if (Nat.leb 97 n && Nat.leb n 122)%bool then ascii_of_nat (n - 32) else c.

Fixpoint upper (s : string) : string :=
  match s with
  | EmptyString => EmptyString
  | String c s' => String (upper_ascii c) (upper s')
  end.

Definition capitalize (s : string) : string :=
  match s with
  | EmptyString => EmptyString
  | String c s' => String (upper_ascii c) (lower s')
  end.

(** [sub in s] on strings: substring containment. *)
Fixpoint str_contains (sub s : string) : bool :=
  String.prefix sub s ||
  match s with
  | EmptyString => false
  | String _ s' => str_contains sub s'
  end.

(** [x in l] on a list of strings. *)
Definition str_in (x : string) (l : list string) : bool :=
  existsb (String.eqb x) l.

(** ** uuid and time *)

(** [str(uuid.uuid4())]: the 128 random bits are an input, the text is their
    32 hexadecimal digits in groups of 8-4-4-4-12. *)
Definition hex_digit (n : N) : ascii :=
  match n with
  | 0 => "0" | 1 => "1" | 2 => "2" | 3 => "3" | 4 => "4" | 5 => "5"
  | 6 => "6" | 7 => "7" | 8 => "8" | 9 => "9" | 10 => "a" | 11 => "b"
  | 12 => "c" | 13 => "d" | 14 => "e" | _ => "f"
  end%N%char.

Fixpoint hex_digits (k : nat) (n : N) (acc : string) : string :=
  match k with
  | O => acc
  | S k' => hex_digits k' (N.div n 16) (String (hex_digit (N.modulo n 16)) acc)
  end.

Definition uuid4_str (bits : N) : string :=
  let h := hex_digits 32 bits "" in
  String.substring 0 8 h ++ "-" ++ String.substring 8 4 h ++ "-" ++
  String.substring 12 4 h ++ "-" ++ String.substring 16 4 h ++ "-" ++
  String.substring 20 12 h.

(** A [datetime] is the instant it denotes, in microseconds. *)
Definition datetime := Z.

(** ** Dictionaries

    The values found in the dictionaries exchanged between stages.  A
    [PTime t] is the ISO-8601 text of the instant [t]. *)
#[warnings="-register-all"]
Inductive pyval {R : Type} :=
  | PNone
  | PBool (b : bool)
  | PInt (z : Z)
  | PFloat (x : R)
  | PStr (s : string)
  | PTime (t : datetime)
  | PList (l : list pyval)
  | PDict (d : gmap string pyval).

Arguments pyval R : clear implicits.

Section Readers.
Context {R : Type} `{PyNum R}.

Definition PStr_opt (s : option string) : pyval R :=
  match s with Some s => PStr s | None => PNone end.

Definition PFloat_opt (x : option R) : pyval R :=
  match x with Some x => PFloat x | None => PNone end.

(** Typed views of [d[k]] and [d.get(k)].  The outer [None] is a raised
    exception: a missing key for [d[k]], a value the typed record cannot
    hold otherwise. *)
Definition as_str (v : option (pyval R)) : option string :=
  match v with Some (PStr s) => Some s | _ => None end.

Definition as_opt_str (v : option (pyval R)) : option (option string) :=
  match v with
  | None | Some PNone => Some None
  | Some (PStr s) => Some (Some s)
  | _ => None
  end.

Definition as_num (v : option (pyval R)) : option R :=
  match v with
  | Some (PFloat x) => Some x
  | Some (PInt z) => Some (of_int z)
  | _ => None
  end.

Definition as_opt_num (v : option (pyval R)) : option (option R) :=
  match v with
  | None | Some PNone => Some None
  | Some (PFloat x) => Some (Some x)
  | Some (PInt z) => Some (Some (of_int z))
  | _ => None
  end.

Definition as_int (v : option (pyval R)) : option Z :=
  match v with Some (PInt z) => Some z | _ => None end.

Definition as_str_list (v : pyval R) : option (list string) :=
  match v with
  | PList l => mapM (fun x => as_str (Some x)) l
  | PNone => Some []
  | _ => None
  end.

End Readers.

(** ** models/supplier.py *)

Module SupplierCriticality.

Inductive t := LOW | MEDIUM | HIGH | CRITICAL.

#[global] Instance eq_dec : EqDecision t.
Proof. solve_decision. Defined.

#[global] Instance countable : Countable t :=
  inj_countable'
    (fun c => match c with LOW => 0 | MEDIUM => 1 | HIGH => 2 | CRITICAL => 3 end%nat)
    (fun n => match n with 0 => LOW | 1 => MEDIUM | 2 => HIGH | _ => CRITICAL end%nat)
    (fun c => match c with
              | LOW | MEDIUM | HIGH | CRITICAL => eq_refl
              end).

(** The member's [value], and the lookup by value, which raises on a
    string that is no member's value. *)
Definition value (c : t) : string :=
  match c with
  | LOW => "low" | MEDIUM => "medium" | HIGH => "high" | CRITICAL => "critical"
  end.

Definition of_value (s : string) : option t :=
  if String.eqb s "low" then Some LOW
  else if String.eqb s "medium" then Some MEDIUM
  else if String.eqb s "high" then Some HIGH
  else if String.eqb s "critical" then Some CRITICAL
  else None.

Definition from_score {R} `{PyNum R} (score : R) : t :=
  if (score >=? lit 0.9)%py then CRITICAL
  else if (score >=? lit 0.7)%py then HIGH
  else if (score >=? lit 0.4)%py then MEDIUM
  else LOW.

End SupplierCriticality.

Module SupplierTier.

Inductive t := TIER_1 | TIER_2 | TIER_3.

#[global] Instance eq_dec : EqDecision t.
Proof. solve_decision. Defined.

Definition value (x : t) : string :=
  match x with
  | TIER_1 => "tier_1" | TIER_2 => "tier_2" | TIER_3 => "tier_3"
  end.

Definition of_value (s : string) : option t :=
  if String.eqb s "tier_1" then Some TIER_1
  else if String.eqb s "tier_2" then Some TIER_2
  else if String.eqb s "tier_3" then Some TIER_3
  else None.

End SupplierTier.

Section SupplierModel.
Context {R : Type} `{PyNum R}.

Record Supplier := {
  supplier_id : string;
  name : string;
  country : string;
  city : option string;
  region : option string;
  latitude : option R;
  longitude : option R;
  criticality : SupplierCriticality.t;
  tier : SupplierTier.t;
  categories : list string;
  lead_time_days : Z;
  annual_spend : R
}.

(** [Supplier.__init__]; [uuid_bits] is the draw of [uuid.uuid4()], used
    when no (or an empty) [supplier_id] is given. *)
Definition Supplier_init (uuid_bits : N)
    (name country : string) (city region : option string)
    (latitude longitude : option R) (criticality : SupplierCriticality.t)
    (tier : SupplierTier.t) (categories : option (list string))
    (lead_time_days : Z) (annual_spend : R)
    (supplier_id : option string) : Supplier :=
  {| supplier_id := str_or supplier_id (uuid4_str uuid_bits);
     name := name;
     country := country;
     city := city;
     region := region;
     latitude := latitude;
     longitude := longitude;
     criticality := criticality;
     tier := tier;
     categories := list_or categories [];
     lead_time_days := lead_time_days;
     annual_spend := annual_spend |}.

Definition is_in_country (s : Supplier) (c : option string) : bool :=
  match c with
  | Some (String a c') => String.eqb (lower (country s)) (lower (String a c'))
  | _ => false
  end.

Definition is_in_region (s : Supplier) (r : option string) : bool :=
  match r, region s with
  | Some (String a r'), Some (String b sr) =>
      String.eqb (lower (String b sr)) (lower (String a r'))
  | _, _ => false
  end.

Definition is_in_city (s : Supplier) (c : option string) : bool :=
  match c, city s with
  | Some (String a c'), Some (String b sc) =>
      String.eqb (lower (String b sc)) (lower (String a c'))
  | _, _ => false
  end.

(** [Supplier.to_dict] *)
Definition Supplier_to_dict (s : Supplier) : gmap string (pyval R) :=
  list_to_map [
    ("supplier_id", PStr (supplier_id s));
    ("name", PStr (name s));
    ("country", PStr (country s));
    ("city", PStr_opt (city s));
    ("region", PStr_opt (region s));
    ("latitude", PFloat_opt (latitude s));
    ("longitude", PFloat_opt (longitude s));
    ("criticality", PStr (SupplierCriticality.value (criticality s)));
    ("tier", PStr (SupplierTier.value (tier s)));
    ("categories", PList (PStr <$> categories s));
    ("lead_time_days", PInt (lead_time_days s));
    ("annual_spend", PFloat (annual_spend s))
  ].

(** [Supplier.from_dict]; [None] when it raises. *)
Definition Supplier_from_dict (uuid_bits : N) (data : gmap string (pyval R))
    : option Supplier :=
  sid ← as_opt_str (data !! "supplier_id");
  nm ← as_str (data !! "name");
  ctry ← as_str (data !! "country");
  cty ← as_opt_str (data !! "city");
  reg ← as_opt_str (data !! "region");
  lat ← as_opt_num (data !! "latitude");
  lon ← as_opt_num (data !! "longitude");
  crit ← as_str (Some (default (PStr "medium") (data !! "criticality")))
         ≫= SupplierCriticality.of_value;
  tr ← as_str (Some (default (PStr "tier_1") (data !! "tier")))
       ≫= SupplierTier.of_value;
  cats ← as_str_list (default (PList []) (data !! "categories"));
  lead ← as_int (Some (default (PInt 14) (data !! "lead_time_days")));
  spend ← as_num (Some (default (PInt 0) (data !! "annual_spend")));
  Some (Supplier_init uuid_bits nm ctry cty reg lat lon crit tr (Some cats)
          lead spend sid).

End SupplierModel.

Arguments Supplier R : clear implicits.

(** ** models/risk.py *)

Module RiskLevel.

Inductive t := LOW | MEDIUM | HIGH | CRITICAL.

#[global] Instance eq_dec : EqDecision t.
Proof. solve_decision. Defined.

Definition value (l : t) : string :=
  match l with
  | LOW => "low" | MEDIUM => "medium" | HIGH => "high" | CRITICAL => "critical"
  end.

Definition of_value (s : string) : option t :=
  if String.eqb s "low" then Some LOW
  else if String.eqb s "medium" then Some MEDIUM
  else if String.eqb s "high" then Some HIGH
  else if String.eqb s "critical" then Some CRITICAL
  else None.

Definition from_score {R} `{PyNum R} (score : R) : t :=
  if (score >=? lit 0.8)%py then CRITICAL
  else if (score >=? lit 0.6)%py then HIGH
  else if (score >=? lit 0.4)%py then MEDIUM
  else LOW.

End RiskLevel.

Module RiskType.

Inductive t :=
  SUPPLY | LOGISTICS | FINANCIAL | OPERATIONAL | QUALITY | GEOPOLITICAL.

#[global] Instance eq_dec : EqDecision t.
Proof. solve_decision. Defined.

Definition value (x : t) : string :=
  match x with
  | SUPPLY => "supply" | LOGISTICS => "logistics" | FINANCIAL => "financial"
  | OPERATIONAL => "operational" | QUALITY => "quality"
  | GEOPOLITICAL => "geopolitical"
  end.

Definition of_value (s : string) : option t :=
  if String.eqb s "supply" then Some SUPPLY
  else if String.eqb s "logistics" then Some LOGISTICS
  else if String.eqb s "financial" then Some FINANCIAL
  else if String.eqb s "operational" then Some OPERATIONAL
  else if String.eqb s "quality" then Some QUALITY
  else if String.eqb s "geopolitical" then Some GEOPOLITICAL
  else None.

End RiskType.

Module MitigationUrgency.

Inductive t := IMMEDIATE | SHORT_TERM | MEDIUM_TERM | LONG_TERM.

#[global] Instance eq_dec : EqDecision t.
Proof. solve_decision. Defined.

Definition value (x : t) : string :=
  match x with
  | IMMEDIATE => "immediate" | SHORT_TERM => "short_term"
  | MEDIUM_TERM => "medium_term" | LONG_TERM => "long_term"
  end.

Definition of_value (s : string) : option t :=
  if String.eqb s "immediate" then Some IMMEDIATE
  else if String.eqb s "short_term" then Some SHORT_TERM
  else if String.eqb s "medium_term" then Some MEDIUM_TERM
  else if String.eqb s "long_term" then Some LONG_TERM
  else None.

End MitigationUrgency.

Section RiskModel.
Context {R : Type} `{PyNum R}.

Record Risk := {
  risk_id : string;
  source_event_id : string;
  title : string;
  description : string;
  risk_score : R;
  risk_level : RiskLevel.t;
  risk_type : RiskType.t;
  affected_suppliers : list (Supplier R);
  geographic_scope : option string;
  mitigation_urgency : MitigationUrgency.t;
  estimated_financial_impact : R;
  estimated_delay_days : Z;
  confidence : R;
  created_at : datetime
}.

(** [Risk.__init__]; [uuid_bits] is the draw of [uuid.uuid4()] and [now]
    the reading of [datetime.now()]. *)
Definition Risk_init (uuid_bits : N) (now : datetime)
    (source_event_id title description : string) (risk_score : R)
    (risk_level : RiskLevel.t) (risk_type : RiskType.t)
    (affected_suppliers : option (list (Supplier R)))
    (geographic_scope : option string)
    (mitigation_urgency : MitigationUrgency.t)
    (estimated_financial_impact : R) (estimated_delay_days : Z)
    (confidence : R) (risk_id : option string)
    (created_at : option datetime) : Risk :=
  {| risk_id := str_or risk_id (uuid4_str uuid_bits);
     source_event_id := source_event_id;
     title := title;
     description := description;
     risk_score := py_min (py_max risk_score (lit 0.0)) (lit 1.0);
     risk_level := risk_level;
     risk_type := risk_type;
     affected_suppliers := list_or affected_suppliers [];
     geographic_scope := geographic_scope;
     mitigation_urgency := mitigation_urgency;
     estimated_financial_impact := estimated_financial_impact;
     estimated_delay_days := estimated_delay_days;
     confidence := py_min (py_max confidence (lit 0.0)) (lit 1.0);
     created_at := default now created_at |}.

Definition affected_supplier_count (r : Risk) : Z :=
  Z.of_nat (length (affected_suppliers r)).

Definition has_critical_suppliers (r : Risk) : bool :=
  existsb (fun s => bool_decide (criticality s = SupplierCriticality.CRITICAL))
          (affected_suppliers r).

Definition total_affected_spend (r : Risk) : R :=
  py_sum (annual_spend <$> affected_suppliers r).

Definition get_affected_supplier_names (r : Risk) : list string :=
  name <$> affected_suppliers r.

(** [Risk.to_dict] *)
Definition Risk_to_dict (r : Risk) : gmap string (pyval R) :=
  list_to_map [
    ("risk_id", PStr (risk_id r));
    ("source_event_id", PStr (source_event_id r));
    ("title", PStr (title r));
    ("description", PStr (description r));
    ("risk_score", PFloat (round_nd 3 (risk_score r)));
    ("risk_level", PStr (RiskLevel.value (risk_level r)));
    ("risk_type", PStr (RiskType.value (risk_type r)));
    ("affected_suppliers",
       PList ((fun s => PDict (Supplier_to_dict s)) <$> affected_suppliers r));
    ("affected_supplier_count", PInt (affected_supplier_count r));
    ("geographic_scope", PStr_opt (geographic_scope r));
    ("mitigation_urgency",
       PStr (MitigationUrgency.value (mitigation_urgency r)));
    ("estimated_financial_impact", PFloat (estimated_financial_impact r));
    ("estimated_delay_days", PInt (estimated_delay_days r));
    ("confidence", PFloat (round_nd 3 (confidence r)));
    ("has_critical_suppliers", PBool (has_critical_suppliers r));
    ("total_affected_spend", PFloat (total_affected_spend r));
    ("created_at", PTime (created_at r))
  ].

(** The suppliers of [data.get("affected_suppliers", [])], each read by
    [Supplier.from_dict] with its own uuid draw. *)
Fixpoint suppliers_from_dicts (draw : nat -> N) (i : nat) (l : list (pyval R))
    : option (list (Supplier R)) :=
  match l with
  | [] => Some []
  | PDict d :: l' =>
      s ← Supplier_from_dict (draw i) d;
      ss ← suppliers_from_dicts draw (S i) l';
      Some (s :: ss)
  | _ :: _ => None
  end.

(** [datetime.fromisoformat(data["created_at"]) if data.get("created_at")
    else None]: text that is no ISO-8601 time raises. *)
Definition created_at_from (v : option (pyval R)) : option (option datetime) :=
  match v with
  | None | Some PNone | Some (PStr "") => Some None
  | Some (PTime t) => Some (Some t)
  | _ => None
  end.

(** [Risk.from_dict]; [None] when it raises.  [draw 0] is the uuid draw of
    the risk, [draw (S i)] that of its [i]-th supplier. *)
Definition Risk_from_dict (draw : nat -> N) (now : datetime)
    (data : gmap string (pyval R)) : option Risk :=
  suppliers ←
    match default (PList []) (data !! "affected_suppliers") with
    | PList l => suppliers_from_dicts draw 1 l
    | _ => None
    end;
  rid ← as_opt_str (data !! "risk_id");
  src ← as_str (data !! "source_event_id");
  ttl ← as_str (data !! "title");
  descr ← as_str (data !! "description");
  score ← as_num (data !! "risk_score");
  level ← as_str (data !! "risk_level") ≫= RiskLevel.of_value;
  rtype ← as_str (data !! "risk_type") ≫= RiskType.of_value;
  scope ← as_opt_str (data !! "geographic_scope");
  urgency ← as_str (Some (default (PStr "medium_term")
                                      (data !! "mitigation_urgency")))
            ≫= MitigationUrgency.of_value;
  impact ← as_num (Some (default (PInt 0)
                                  (data !! "estimated_financial_impact")));
  delay ← as_int (Some (default (PInt 0) (data !! "estimated_delay_days")));
  conf ← as_num (Some (default (PFloat (lit 1.0)) (data !! "confidence")));
  created ← created_at_from (data !! "created_at");
  Some (Risk_init (draw 0%nat) now src ttl descr score level rtype
          (Some suppliers) scope urgency impact delay conf rid created).

End RiskModel.

Arguments Risk R : clear implicits.

(** ** The normalized event of the sensing stage

    The event is a dictionary read with [.get]: a field is [None] when its
    key is absent. *)

Module Location.
Record t := {
  country : option string;
  region : option string;
  city : option string
}.
(** The empty dictionary [{}]. *)
Definition empty : t := {| country := None; region := None; city := None |}.
End Location.

Module Event.
Record t {R : Type} := {
  title : option string;
  category : option string;
  severity : option string;
  confidence : option R;
  impact_score : option R;
  location : option Location.t;
  keywords : option (list string)
}.
Arguments t R : clear implicits.
End Event.

(** ** engines/risk_scorer.py *)

Section RiskScorer.
Context {R : Type} `{PyNum R}.
Local Open Scope py_scope.

Definition _weights : gmap string R :=
  list_to_map [
    ("event_severity", lit 0.30);
    ("supplier_criticality", lit 0.30);
    ("financial_exposure", lit 0.20);
    ("geographic_risk", lit 0.20)
  ].

Definition _severity_values : gmap string R :=
  list_to_map [
    ("critical", lit 1.0);
    ("high", lit 0.75);
    ("medium", lit 0.5);
    ("low", lit 0.25)
  ].

Definition _criticality_values : gmap SupplierCriticality.t R :=
  list_to_map [
    (SupplierCriticality.CRITICAL, lit 1.0);
    (SupplierCriticality.HIGH, lit 0.75);
    (SupplierCriticality.MEDIUM, lit 0.5);
    (SupplierCriticality.LOW, lit 0.25)
  ].

Definition _calculate_severity_score (event : Event.t R) : R :=
  let severity := default "medium" (Event.severity event) in
  let confidence := default (lit 1.0) (Event.confidence event) in
  let impact_score := default (lit 0.5) (Event.impact_score event) in
  let severity_value := default (lit 0.5) (_severity_values !! severity) in
  let score :=
    (severity_value * lit 0.5 + impact_score * lit 0.5) * confidence in
  py_min (lit 1.0) score.

Definition _calculate_criticality_score (suppliers : list (Supplier R)) : R :=
  match suppliers with
  | [] => lit 0.0
  | s :: rest =>
      let value_of s :=
        default (lit 0.5) (_criticality_values !! criticality s) in
      let max_criticality := py_max_of (value_of s) (value_of <$> rest) in
      let count_bonus :=
        py_min (lit 0.2) (of_int (Z.of_nat (length suppliers)) * lit 0.05) in
      py_min (lit 1.0) (max_criticality + count_bonus)
  end.

Definition _calculate_financial_score (suppliers : list (Supplier R)) : R :=
  match suppliers with
  | [] => lit 0.0
  | _ :: _ =>
      let total_spend := py_sum (annual_spend <$> suppliers) in
      if total_spend >=? of_int 10000000 then lit 1.0
      else if total_spend >=? of_int 5000000 then lit 0.7
      else if total_spend >=? of_int 1000000 then lit 0.4
      else lit 0.2
  end.

Definition _determine_urgency (composite_score criticality_score : R)
    : MitigationUrgency.t :=
  if (composite_score >=? lit 0.8) || (criticality_score >=? lit 0.9)
  then MitigationUrgency.IMMEDIATE
  else if composite_score >=? lit 0.6 then MitigationUrgency.SHORT_TERM
  else if composite_score >=? lit 0.4 then MitigationUrgency.MEDIUM_TERM
  else MitigationUrgency.LONG_TERM.

Definition _estimate_financial_impact (suppliers : list (Supplier R))
    (risk_score : R) : R :=
  match suppliers with
  | [] => of_int 0
  | _ :: _ =>
      let total_spend := py_sum (annual_spend <$> suppliers) in
      let weeks_affected := of_int 1 + (risk_score * of_int 3) in
      let weekly_spend := total_spend / of_int 52 in
      round_nd 2 (weekly_spend * weeks_affected)
  end.

Definition severity_delays : gmap string Z :=
  list_to_map [
    ("critical", 14%Z);
    ("high", 7%Z);
    ("medium", 3%Z);
    ("low", 1%Z)
  ].

Definition _estimate_delay_days (event : Event.t R) (risk_score : R) : Z :=
  let severity := default "medium" (Event.severity event) in
  let base_delay := default 3%Z (severity_delays !! severity) in
  let adjusted_delay := int_of (of_int base_delay * (of_int 1 + risk_score)) in
  adjusted_delay.

(** The dictionaries returned by [calculate_risk_score]: their keys are
    fixed, so they are records. *)
Record ComponentScores := {
  cs_severity : R;
  cs_supplier_criticality : R;
  cs_financial_exposure : R;
  cs_geographic : R
}.

Record RiskScore := {
  composite_score : R;
  rs_risk_level : RiskLevel.t;
  rs_mitigation_urgency : MitigationUrgency.t;
  component_scores : ComponentScores;
  rs_estimated_financial_impact : R;
  rs_estimated_delay_days : Z
}.

Definition calculate_risk_score (event : Event.t R)
    (affected_suppliers : list (Supplier R)) (geographic_risk_factor : R)
    : RiskScore :=
  let severity_score := _calculate_severity_score event in
  let criticality_score := _calculate_criticality_score affected_suppliers in
  let financial_score := _calculate_financial_score affected_suppliers in
  let geo_score := geographic_risk_factor in
  let composite :=
    (_weights !!! "event_severity") * severity_score +
    (_weights !!! "supplier_criticality") * criticality_score +
    (_weights !!! "financial_exposure") * financial_score +
    (_weights !!! "geographic_risk") * geo_score in
  let risk_level := RiskLevel.from_score composite in
  let urgency := _determine_urgency composite criticality_score in
  let financial_impact :=
    _estimate_financial_impact affected_suppliers composite in
  let delay_days := _estimate_delay_days event composite in
  {| composite_score := round_nd 3 composite;
     rs_risk_level := risk_level;
     rs_mitigation_urgency := urgency;
     component_scores :=
       {| cs_severity := round_nd 3 severity_score;
          cs_supplier_criticality := round_nd 3 criticality_score;
          cs_financial_exposure := round_nd 3 financial_score;
          cs_geographic := round_nd 3 geo_score |};
     rs_estimated_financial_impact := financial_impact;
     rs_estimated_delay_days := delay_days |}.

Definition category_mapping : gmap string RiskType.t :=
  list_to_map [
    ("logistics", RiskType.LOGISTICS);
    ("natural_disaster", RiskType.SUPPLY);
    ("labor", RiskType.OPERATIONAL);
    ("infrastructure", RiskType.LOGISTICS);
    ("geopolitical", RiskType.GEOPOLITICAL);
    ("economic", RiskType.FINANCIAL)
  ].

Definition get_risk_type (event : Event.t R) : RiskType.t :=
  let category := default "other" (Event.category event) in
  default RiskType.OPERATIONAL (category_mapping !! category).

End RiskScorer.

(** ** The simulated supplier catalog of models/supplier.py

    Every entry leaves [supplier_id] out, so each one draws a uuid when the
    module is loaded: [draw i] is the draw of the [i]-th entry. *)

Section Catalog.
Context {R : Type} `{PyNum R}.

Definition SIMULATED_SUPPLIERS (draw : nat -> N) : list (Supplier R) := [
  Supplier_init (draw 0%nat) "TechParts Asia" "China" (Some "Shenzhen")
    (Some "Guangdong") (Some (lit 22.54)) (Some (lit 114.06))
    SupplierCriticality.HIGH SupplierTier.TIER_1
    (Some ["electronics"; "semiconductors"; "components"]) 21
    (of_int 5000000) None;
  Supplier_init (draw 1%nat) "Rotterdam Logistics BV" "Netherlands"
    (Some "Rotterdam") None (Some (lit 51.92)) (Some (lit 4.48))
    SupplierCriticality.CRITICAL SupplierTier.TIER_1
    (Some ["freight"; "logistics"; "warehousing"]) 7
    (of_int 3000000) None;
  Supplier_init (draw 2%nat) "Singapore Shipping Corp" "Singapore"
    (Some "Singapore") None (Some (lit 1.29)) (Some (lit 103.85))
    SupplierCriticality.HIGH SupplierTier.TIER_1
    (Some ["maritime"; "shipping"; "freight"]) 14
    (of_int 4000000) None;
  Supplier_init (draw 3%nat) "Mumbai Components Ltd" "India" (Some "Mumbai")
    (Some "Maharashtra") (Some (lit 18.95)) (Some (lit 72.95))
    SupplierCriticality.MEDIUM SupplierTier.TIER_2
    (Some ["manufacturing"; "components"; "assembly"]) 28
    (of_int 1500000) None;
  Supplier_init (draw 4%nat) "Texas Energy Solutions" "USA" (Some "Houston")
    (Some "Texas") (Some (lit 29.76)) (Some (lit (-95.37)))
    SupplierCriticality.HIGH SupplierTier.TIER_1
    (Some ["energy"; "petrochemicals"; "raw materials"]) 10
    (of_int 6000000) None;
  Supplier_init (draw 5%nat) "Japan Precision Industries" "Japan"
    (Some "Osaka") (Some "Kansai") (Some (lit 34.69)) (Some (lit 135.50))
    SupplierCriticality.CRITICAL SupplierTier.TIER_1
    (Some ["precision components"; "machinery"; "electronics"]) 18
    (of_int 8000000) None;
  Supplier_init (draw 6%nat) "Bangkok Manufacturing" "Thailand"
    (Some "Bangkok") None (Some (lit 13.75)) (Some (lit 100.52))
    SupplierCriticality.MEDIUM SupplierTier.TIER_2
    (Some ["manufacturing"; "assembly"; "textiles"]) 25
    (of_int 1200000) None;
  Supplier_init (draw 7%nat) "Taiwan Semiconductor" "Taiwan" (Some "Taipei")
    None (Some (lit 25.03)) (Some (lit 121.57))
    SupplierCriticality.CRITICAL SupplierTier.TIER_1
    (Some ["semiconductors"; "chips"; "electronics"]) 30
    (of_int 12000000) None;
  Supplier_init (draw 8%nat) "Kolkata Port Services" "India" (Some "Kolkata")
    (Some "West Bengal") (Some (lit 22.57)) (Some (lit 88.36))
    SupplierCriticality.MEDIUM SupplierTier.TIER_2
    (Some ["port services"; "freight"; "logistics"]) 14
    (of_int 800000) None;
  Supplier_init (draw 9%nat) "Dubai Logistics Hub" "UAE" (Some "Dubai") None
    (Some (lit 25.01)) (Some (lit 55.07))
    SupplierCriticality.HIGH SupplierTier.TIER_1
    (Some ["logistics"; "freight"; "distribution"]) 12
    (of_int 2500000) None
].

Definition get_simulated_suppliers (draw : nat -> N) : list (Supplier R) :=
  SIMULATED_SUPPLIERS draw.

End Catalog.

(** ** engines/impact_analyzer.py *)

Section ImpactAnalyzer.
Context {R : Type} `{PyNum R}.

(** [SupplierImpactAnalyzer.__init__]: the analyzer is its supplier list. *)
Definition SupplierImpactAnalyzer_init (draw : nat -> N)
    (suppliers : option (list (Supplier R))) : list (Supplier R) :=
  list_or suppliers (get_simulated_suppliers draw).

Definition _check_geographic_match (supplier : Supplier R)
    (country region city : option string) : bool :=
  if str_truthy city && is_in_city supplier city then true
  else if str_truthy region && is_in_region supplier region then true
  else if str_truthy country && is_in_country supplier country then true
  else false.

Definition keyword_category_map : gmap string (list string) :=
  list_to_map [
    ("port", ["logistics"; "freight"; "shipping"; "maritime"]);
    ("shipping", ["logistics"; "freight"; "maritime"]);
    ("freight", ["logistics"; "shipping"]);
    ("manufacturing", ["components"; "assembly"]);
    ("semiconductor", ["electronics"; "chips"]);
    ("energy", ["petrochemicals"; "raw materials"]);
    ("cyclone", ["port services"; "logistics"; "shipping"]);
    ("flood", ["manufacturing"; "logistics"]);
    ("earthquake", ["manufacturing"; "components"])
  ].

(** The two loops that return [True] at their first hit are [existsb]. *)
Definition _check_category_match (supplier : Supplier R)
    (event_keywords : list string) : bool :=
  match event_keywords, categories supplier with
  | [], _ | _, [] => false
  | _, _ =>
      let event_keywords_lower := lower <$> event_keywords in
      existsb (fun category =>
                 let category_lower := lower category in
                 str_in category_lower event_keywords_lower ||
                 existsb (fun keyword =>
                            str_contains category_lower keyword ||
                            str_contains keyword category_lower)
                         event_keywords_lower)
              (categories supplier)
      ||
      existsb (fun keyword =>
                 match keyword_category_map !! keyword with
                 | Some mapped =>
                     existsb (fun mapped_category =>
                                str_in mapped_category
                                       (lower <$> categories supplier))
                             mapped
                 | None => false
                 end)
              event_keywords_lower
  end.

(** The loop that appends the matching suppliers is a [filter]. *)
Definition find_affected_suppliers (suppliers : list (Supplier R))
    (event : Event.t R) : list (Supplier R) :=
  let location := default Location.empty (Event.location event) in
  let country := Location.country location in
  let region := Location.region location in
  let city := Location.city location in
  let keywords := default [] (Event.keywords event) in
  List.filter (fun supplier =>
            let geo_match :=
              _check_geographic_match supplier country region city in
            let category_match := _check_category_match supplier keywords in
            geo_match || category_match)
         suppliers.

End ImpactAnalyzer.

(** ** engines/geo_correlator.py *)

(** An entry of [_country_distribution]. *)
Module CountryData.
Record t {R : Type} := {
  supplier_count : Z;
  total_spend : R;
  suppliers : list string
}.
Arguments t R : clear implicits.
End CountryData.

Section GeographicCorrelator.
Context {R : Type} `{PyNum R}.
Local Open Scope py_scope.

Definition _calculate_country_distribution (suppliers : list (Supplier R))
    : gmap string (CountryData.t R) :=
  fold_left
    (fun distribution supplier =>
       let country := country supplier in
       let entry :=
         default {| CountryData.supplier_count := 0;
                    CountryData.total_spend := of_int 0;
                    CountryData.suppliers := [] |}
                 (distribution !! country) in
       <[country :=
           {| CountryData.supplier_count :=
                (CountryData.supplier_count entry + 1)%Z;
              CountryData.total_spend :=
                CountryData.total_spend entry + annual_spend supplier;
              CountryData.suppliers :=
                CountryData.suppliers entry ++ [name supplier] |}]>
         distribution)
    suppliers ∅.

(** [GeographicCorrelator.__init__] *)
Record GeographicCorrelator := {
  gc_suppliers : list (Supplier R);
  _country_distribution : gmap string (CountryData.t R)
}.

Definition GeographicCorrelator_init (draw : nat -> N)
    (suppliers : option (list (Supplier R))) : GeographicCorrelator :=
  let suppliers := list_or suppliers (get_simulated_suppliers draw) in
  {| gc_suppliers := suppliers;
     _country_distribution := _calculate_country_distribution suppliers |}.

Definition _format_region (country region city : option string) : string :=
  let parts :=
    omap (fun p => match p with
                   | Some (String c s) => Some (String c s)
                   | _ => None
                   end)
         [city; region; country] in
  match parts with
  | [] => "Unknown"
  | _ :: _ => String.concat ", " parts
  end.

Definition severity_multipliers : gmap string R :=
  list_to_map [
    ("critical", lit 1.3);
    ("high", lit 1.15);
    ("medium", lit 1.0);
    ("low", lit 0.8)
  ].

Definition calculate_geographic_risk (self : GeographicCorrelator)
    (event : Event.t R) : gmap string (pyval R) :=
  let location := default Location.empty (Event.location event) in
  let country := Location.country location in
  let region := Location.region location in
  let city := Location.city location in
  match country with
  | None | Some "" =>
      list_to_map [
        ("risk_factor", PFloat (lit 0.3));
        ("affected_region", PStr "Unknown");
        ("concentration_risk", PStr "unknown");
        ("suppliers_in_region", PInt 0);
        ("spend_at_risk", PInt 0)
      ]
  | Some country_name =>
      let country_data := _country_distribution self !! country_name in
      let suppliers_in_country :=
        default 0%Z (CountryData.supplier_count <$> country_data) in
      let spend_in_country :=
        default (of_int 0) (CountryData.total_spend <$> country_data) in
      let total_suppliers := Z.of_nat (length (gc_suppliers self)) in
      let total_spend := py_sum (annual_spend <$> gc_suppliers self) in
      let concentration :=
        if Z.eqb total_suppliers 0 then of_int 0
        else of_int suppliers_in_country / of_int total_suppliers in
      let spend_concentration :=
        if total_spend =? of_int 0 then of_int 0
        else spend_in_country / total_spend in
      let risk_factor :=
        concentration * lit 0.4 + spend_concentration * lit 0.6 in
      let severity := default "medium" (Event.severity event) in
      let risk_factor :=
        risk_factor * default (lit 1.0) (severity_multipliers !! severity) in
      let risk_factor := py_min (lit 1.0) risk_factor in
      let concentration_level :=
        if concentration >=? lit 0.3 then "high"
        else if concentration >=? lit 0.15 then "medium"
        else "low" in
      list_to_map [
        ("risk_factor", PFloat (round_nd 3 risk_factor));
        ("affected_region", PStr (_format_region country region city));
        ("affected_country", PStr country_name);
        ("concentration_risk", PStr concentration_level);
        ("suppliers_in_region", PInt suppliers_in_country);
        ("spend_at_risk", PFloat spend_in_country);
        ("supplier_concentration",
           PFloat (round_nd 1 (concentration * of_int 100)));
        ("spend_concentration",
           PFloat (round_nd 1 (spend_concentration * of_int 100)))
      ]
  end.

End GeographicCorrelator.

(** ** core/alert_generator.py *)

Module AlertPriority.

Inductive t := P1 | P2 | P3 | P4.

#[global] Instance eq_dec : EqDecision t.
Proof. solve_decision. Defined.

#[global] Instance countable : Countable t :=
  inj_countable'
    (fun p => match p with P1 => 0 | P2 => 1 | P3 => 2 | P4 => 3 end%nat)
    (fun n => match n with 0 => P1 | 1 => P2 | 2 => P3 | _ => P4 end%nat)
    (fun p => match p with P1 | P2 | P3 | P4 => eq_refl end).

Definition value (p : t) : string :=
  match p with P1 => "P1" | P2 => "P2" | P3 => "P3" | P4 => "P4" end.

End AlertPriority.

Module AlertChannel.

Inductive t := DASHBOARD | EMAIL | SMS | SLACK.

Definition value (c : t) : string :=
  match c with
  | DASHBOARD => "dashboard" | EMAIL => "email" | SMS => "sms" | SLACK => "slack"
  end.

End AlertChannel.

Section AlertGenerator.
Context {R : Type} `{PyNum R}.
Local Open Scope py_scope.

(** Python's number formatting in the message text: [f"{x:.2f}"],
    [f"{x:,.0f}"] and [str(n)]. *)
Variable format_2f : R -> string.
Variable format_money : R -> string.
Variable str_of_int : Z -> string.

Record Alert := {
  alert_id : string;
  alert_risk_id : string;
  priority : AlertPriority.t;
  alert_title : string;
  message : string;
  channels : list AlertChannel.t;
  recipients : list string;
  action_required : option string;
  expires_at : option datetime;
  alert_created_at : datetime;
  acknowledged : bool;
  acknowledged_by : option string;
  acknowledged_at : option datetime;
  _risk : Risk R
}.

(** [Alert.__init__] *)
Definition Alert_init (uuid_bits : N) (now : datetime) (risk : Risk R)
    (priority : AlertPriority.t) (title message : string)
    (channels : option (list AlertChannel.t))
    (recipients : option (list string)) (action_required : option string)
    (expires_at : option datetime) (alert_id : option string) : Alert :=
  {| alert_id := str_or alert_id (uuid4_str uuid_bits);
     alert_risk_id := risk_id risk;
     priority := priority;
     alert_title := title;
     message := message;
     channels := list_or channels [AlertChannel.DASHBOARD];
     recipients := list_or recipients [];
     action_required := action_required;
     expires_at := expires_at;
     alert_created_at := now;
     acknowledged := false;
     acknowledged_by := None;
     acknowledged_at := None;
     _risk := risk |}.

(** [Alert.acknowledge] *)
Definition acknowledge (now : datetime) (a : Alert) (user : string) : Alert :=
  {| alert_id := alert_id a;
     alert_risk_id := alert_risk_id a;
     priority := priority a;
     alert_title := alert_title a;
     message := message a;
     channels := channels a;
     recipients := recipients a;
     action_required := action_required a;
     expires_at := expires_at a;
     alert_created_at := alert_created_at a;
     acknowledged := true;
     acknowledged_by := Some user;
     acknowledged_at := Some now;
     _risk := _risk a |}.

(** [AlertGenerator.__init__] *)
Record AlertGenerator := {
  critical_threshold : R;
  high_threshold : R;
  medium_threshold : R
}.

Definition AlertGenerator_init (critical_threshold high_threshold
    medium_threshold : option R) : AlertGenerator :=
  {| critical_threshold := default (lit 0.8) critical_threshold;
     high_threshold := default (lit 0.6) high_threshold;
     medium_threshold := default (lit 0.4) medium_threshold |}.

Definition _recipient_map : gmap AlertPriority.t (list string) :=
  list_to_map [
    (AlertPriority.P1, ["exec-team"; "supply-chain-vp"; "risk-management"]);
    (AlertPriority.P2, ["supply-chain-director"; "procurement-lead"]);
    (AlertPriority.P3, ["supply-chain-manager"; "category-manager"]);
    (AlertPriority.P4, ["supply-chain-analyst"])
  ].

Definition _channel_map : gmap AlertPriority.t (list AlertChannel.t) :=
  list_to_map [
    (AlertPriority.P1,
       [AlertChannel.DASHBOARD; AlertChannel.EMAIL; AlertChannel.SMS]);
    (AlertPriority.P2, [AlertChannel.DASHBOARD; AlertChannel.EMAIL]);
    (AlertPriority.P3, [AlertChannel.DASHBOARD; AlertChannel.EMAIL]);
    (AlertPriority.P4, [AlertChannel.DASHBOARD])
  ].

Definition _determine_priority (self : AlertGenerator) (risk : Risk R)
    : option AlertPriority.t :=
  if bool_decide (risk_level risk = RiskLevel.CRITICAL) ||
     (risk_score risk >=? critical_threshold self)
  then Some AlertPriority.P1
  else if bool_decide (risk_level risk = RiskLevel.HIGH) ||
          (risk_score risk >=? high_threshold self)
  then (if has_critical_suppliers risk
        then Some AlertPriority.P1
        else Some AlertPriority.P2)
  else if bool_decide (risk_level risk = RiskLevel.MEDIUM) ||
          (risk_score risk >=? medium_threshold self)
  then Some AlertPriority.P3
  else if bool_decide (risk_level risk = RiskLevel.LOW)
  then Some AlertPriority.P4
  else None.

Definition title_prefix : gmap AlertPriority.t string :=
  list_to_map [
    (AlertPriority.P1, "ðŸ”´ CRITICAL");
    (AlertPriority.P2, "ðŸŸ  HIGH");
    (AlertPriority.P3, "ðŸŸ¡ MEDIUM");
    (AlertPriority.P4, "ðŸŸ¢ LOW")
  ].

Definition _generate_title (risk : Risk R) (priority : AlertPriority.t)
    : string :=
  default "" (title_prefix !! priority) ++ " | " ++ title risk.

Definition _generate_message (risk : Risk R) : string :=
  let lines := [
    "Risk Score: " ++ format_2f (risk_score risk) ++ " (" ++
      upper (RiskLevel.value (risk_level risk)) ++ ")";
    "Type: " ++ capitalize (RiskType.value (risk_type risk));
    "";
    "Description: " ++ description risk;
    "";
    "Geographic Scope: " ++ str_or (geographic_scope risk) "Not specified";
    "Affected Suppliers: " ++ str_of_int (affected_supplier_count risk)
  ] in
  let lines :=
    match affected_suppliers risk with
    | [] => lines
    | _ :: _ =>
        let supplier_names :=
          String.concat ", " (take 3 (get_affected_supplier_names risk)) in
        let supplier_names :=
          if (3 <? affected_supplier_count risk)%Z
          then supplier_names ++ " (+" ++
               str_of_int (affected_supplier_count risk - 3) ++ " more)"
          else supplier_names in
        (lines ++ ["Suppliers: " +:+ supplier_names])%list
    end in
  let lines :=
    if estimated_financial_impact risk >? of_int 0
    then (lines ++ ["Est. Financial Impact: $" +:+
                   format_money (estimated_financial_impact risk)])%list
    else lines in
  let lines :=
    if (0 <? estimated_delay_days risk)%Z
    then (lines ++ ["Est. Delay: " +:+
                   str_of_int (estimated_delay_days risk) +:+ " days"])%list
    else lines in
  String.concat (String "010"%char "") lines.

Definition _generate_action_required (risk : Risk R) : string :=
  match mitigation_urgency risk with
  | MitigationUrgency.IMMEDIATE => "Immediate action required within 24 hours"
  | MitigationUrgency.SHORT_TERM => "Action required within 1 week"
  | MitigationUrgency.MEDIUM_TERM => "Plan mitigation within 1 month"
  | MitigationUrgency.LONG_TERM => "Add to risk register for monitoring"
  end.

(** [AlertGenerator.generate_alert]; [None] is Python's [None]. *)
Definition generate_alert (self : AlertGenerator) (uuid_bits : N)
    (now : datetime) (risk : Risk R) : option Alert :=
  match _determine_priority self risk with
  | None => None
  | Some priority =>
      let title := _generate_title risk priority in
      let message := _generate_message risk in
      let action := _generate_action_required risk in
      let channels :=
        default [AlertChannel.DASHBOARD] (_channel_map !! priority) in
      let recipients := default [] (_recipient_map !! priority) in
      Some (Alert_init uuid_bits now risk priority title message
              (Some channels) (Some recipients) (Some action) None None)
  end.

End AlertGenerator.

Arguments Alert R : clear implicits.
Arguments AlertGenerator R : clear implicits.

(** * The rest of the module *)

(** ** [list.sort(key=...)]

    Python's sort is stable and compares keys with [<] alone; its result is
    that of the stable insertion sort. *)
Section Sorting.
Context {A K : Type} (key_ltb : K -> K -> bool) (key : A -> K).

Fixpoint py_insert_by (x : A) (l : list A) : list A :=
  match l with
  | [] => [x]
  | y :: l' =>
      if key_ltb (key x) (key y) then x :: y :: l'
      else y :: py_insert_by x l'
  end.

Definition py_sort_by (l : list A) : list A :=
  fold_left (fun sorted x => py_insert_by x sorted) l [].

End Sorting.

(** The enumerations that key the dictionaries of the classifier. *)
#[global] Instance RiskLevel_countable : Countable RiskLevel.t :=
  inj_countable'
    (fun l => match l with
              | RiskLevel.LOW => 0 | RiskLevel.MEDIUM => 1
              | RiskLevel.HIGH => 2 | RiskLevel.CRITICAL => 3
              end%nat)
    (fun n => match n with
              | 0 => RiskLevel.LOW | 1 => RiskLevel.MEDIUM
              | 2 => RiskLevel.HIGH | _ => RiskLevel.CRITICAL
              end%nat)
    (fun l => match l with
              | RiskLevel.LOW | RiskLevel.MEDIUM
              | RiskLevel.HIGH | RiskLevel.CRITICAL => eq_refl
              end).

#[global] Instance RiskType_countable : Countable RiskType.t :=
  inj_countable'
    (fun t => match t with
              | RiskType.SUPPLY => 0 | RiskType.LOGISTICS => 1
              | RiskType.FINANCIAL => 2 | RiskType.OPERATIONAL => 3
              | RiskType.QUALITY => 4 | RiskType.GEOPOLITICAL => 5
              end%nat)
    (fun n => match n with
              | 0 => RiskType.SUPPLY | 1 => RiskType.LOGISTICS
              | 2 => RiskType.FINANCIAL | 3 => RiskType.OPERATIONAL
              | 4 => RiskType.QUALITY | _ => RiskType.GEOPOLITICAL
              end%nat)
    (fun t => match t with
              | RiskType.SUPPLY | RiskType.LOGISTICS | RiskType.FINANCIAL
              | RiskType.OPERATIONAL | RiskType.QUALITY
              | RiskType.GEOPOLITICAL => eq_refl
              end).

#[global] Instance MitigationUrgency_countable : Countable MitigationUrgency.t :=
  inj_countable'
    (fun u => match u with
              | MitigationUrgency.IMMEDIATE => 0
              | MitigationUrgency.SHORT_TERM => 1
              | MitigationUrgency.MEDIUM_TERM => 2
              | MitigationUrgency.LONG_TERM => 3
              end%nat)
    (fun n => match n with
              | 0 => MitigationUrgency.IMMEDIATE
              | 1 => MitigationUrgency.SHORT_TERM
              | 2 => MitigationUrgency.MEDIUM_TERM
              | _ => MitigationUrgency.LONG_TERM
              end%nat)
    (fun u => match u with
              | MitigationUrgency.IMMEDIATE | MitigationUrgency.SHORT_TERM
              | MitigationUrgency.MEDIUM_TERM
              | MitigationUrgency.LONG_TERM => eq_refl
              end).

(** ** models/supplier.py, continued *)

Section SupplierMethods.
Context {R : Type} `{PyNum R}.

(** The non-empty members of [[city, region, country]], joined. *)
Definition get_location_string (s : Supplier R) : string :=
  let parts :=
    omap (fun p => match p with
                   | Some (String c p') => Some (String c p')
                   | _ => None
                   end)
         [city s; region s; Some (country s)] in
  match parts with
  | [] => "Unknown"
  | _ :: _ => String.concat ", " parts
  end.

Definition matches_location (s : Supplier R)
    (country region city : option string) : bool :=
  if str_truthy city && is_in_city s city then true
  else if str_truthy region && is_in_region s region then true
  else if str_truthy country && is_in_country s country then true
  else false.

End SupplierMethods.

(** ** models/risk.py, continued: [RiskAssessment] *)

(** The dictionary returned by [RiskAssessment.get_summary]; the two count
    tables have the levels and the types met as their keys, and [created_at]
    stands for its ISO-8601 text, as [PTime] does. *)
Module Summary.
Record t {R : Type} := {
  assessment_id : string;
  total_risks : Z;
  risks_by_level : gmap string Z;
  risks_by_type : gmap string Z;
  critical_count : Z;
  immediate_action_count : Z;
  total_estimated_impact : R;
  max_delay_days : Z;
  created_at : datetime
}.
Arguments t R : clear implicits.
End Summary.

Module RiskAssessment.
Section Defs.
Context {R : Type} `{PyNum R}.

Record t := {
  risks : list (Risk R);
  assessment_id : string;
  created_at : datetime
}.

(** [RiskAssessment.__init__] *)
Definition init (uuid_bits : N) (now : datetime)
    (risks : option (list (Risk R))) : t :=
  {| risks := list_or risks [];
     assessment_id := uuid4_str uuid_bits;
     created_at := now |}.

(** [RiskAssessment.add] *)
Definition add (self : t) (risk : Risk R) : t :=
  {| risks := risks self ++ [risk];
     assessment_id := assessment_id self;
     created_at := created_at self |}.

Definition total_risks (self : t) : Z := Z.of_nat (length (risks self)).

Definition critical_risks (self : t) : list (Risk R) :=
  List.filter (fun r => bool_decide (risk_level r = RiskLevel.CRITICAL))
              (risks self).

Definition high_risks (self : t) : list (Risk R) :=
  List.filter (fun r => bool_decide (risk_level r = RiskLevel.HIGH))
              (risks self).

Definition immediate_action_required (self : t) : list (Risk R) :=
  List.filter
    (fun r => bool_decide (mitigation_urgency r = MitigationUrgency.IMMEDIATE))
    (risks self).

(** [counts[k] = counts.get(k, 0) + 1] *)
Definition count_up (k : string) (counts : gmap string Z) : gmap string Z :=
  <[k := (default 0 (counts !! k) + 1)%Z]> counts.

(** The state of the loop of [get_summary]. *)
Record acc := {
  level_counts : gmap string Z;
  type_counts : gmap string Z;
  total_impact : R;
  total_delay : Z
}.

Definition summary_step (a : acc) (risk : Risk R) : acc :=
  {| level_counts :=
       count_up (RiskLevel.value (risk_level risk)) (level_counts a);
     type_counts := count_up (RiskType.value (risk_type risk)) (type_counts a);
     total_impact := (total_impact a + estimated_financial_impact risk)%py;
     total_delay := Z.max (total_delay a) (estimated_delay_days risk) |}.

Definition summary_loop (rs : list (Risk R)) : acc :=
  fold_left summary_step rs
    {| level_counts := ∅; type_counts := ∅; total_impact := of_int 0;
       total_delay := 0 |}.

(** [RiskAssessment.get_summary] *)
Definition get_summary (self : t) : Summary.t R :=
  let a := summary_loop (risks self) in
  {| Summary.assessment_id := assessment_id self;
     Summary.total_risks := total_risks self;
     Summary.risks_by_level := level_counts a;
     Summary.risks_by_type := type_counts a;
     Summary.critical_count := Z.of_nat (length (critical_risks self));
     Summary.immediate_action_count :=
       Z.of_nat (length (immediate_action_required self));
     Summary.total_estimated_impact := total_impact a;
     Summary.max_delay_days := total_delay a;
     Summary.created_at := created_at self |}.

End Defs.
Arguments t R : clear implicits.
End RiskAssessment.

(** ** engines/impact_analyzer.py, continued *)

(** The dictionary returned by [analyze_impact_severity]. *)
Module Impact.
Record t {R : Type} := {
  supplier_id : string;
  supplier_name : string;
  impact_severity : R;
  impact_level : string;
  estimated_recovery_days : Z;
  financial_exposure : R;
  is_critical : bool;
  recommendations : list string
}.
Arguments t R : clear implicits.
End Impact.

Section ImpactSeverity.
Context {R : Type} `{PyNum R}.
Local Open Scope py_scope.



Definition _generate_recommendations (supplier : Supplier R)
    (impact_severity : R) : list string :=
  let recommendations := [] in
  let recommendations :=
    if impact_severity >=? lit 0.8
    then (recommendations ++ ["Activate backup supplier immediately";
                              "Expedite existing orders if possible"])%list
    else recommendations in
  let recommendations :=
    if bool_decide (criticality supplier = SupplierCriticality.CRITICAL)
    then (recommendations ++ ["Escalate to executive leadership";
                              "Review business continuity plan"])%list
    else recommendations in
  let recommendations :=
    if impact_severity >=? lit 0.5
    then (recommendations ++ ["Contact supplier for status update";
                              "Assess inventory buffer levels"])%list
    else recommendations in
  let recommendations :=
    if (20 <? lead_time_days supplier)%Z
    then (recommendations ++ ["Consider air freight alternatives"])%list
    else recommendations in
  recommendations.


(** The loop returns the first supplier with the id. *)
Definition get_supplier_by_id (suppliers : list (Supplier R))
    (id : string) : option (Supplier R) :=
  List.find (fun supplier => String.eqb (supplier_id supplier) id) suppliers.

Definition get_suppliers_by_country (suppliers : list (Supplier R))
    (country : option string) : list (Supplier R) :=
  List.filter (fun s => is_in_country s country) suppliers.

Definition get_critical_suppliers (suppliers : list (Supplier R))
    : list (Supplier R) :=
  List.filter
    (fun s => bool_decide (criticality s = SupplierCriticality.CRITICAL))
    suppliers.

End ImpactSeverity.

(** ** core/alert_generator.py, continued *)

Section AlertLists.
Context {R : Type} `{PyNum R}.
Variable format_2f : R -> string.
Variable format_money : R -> string.
Variable str_of_int : Z -> string.

(** The loop of [generate_alerts]: [draw i] and [now i] are the uuid draw and
    the clock reading of the alert of the [i]-th risk.  An [Alert] object is
    always truthy, so only [None] is left out. *)
Fixpoint collect_alerts (self : AlertGenerator R) (draw : nat -> N)
    (now : nat -> datetime) (i : nat) (risks : list (Risk R))
    : list (Alert R) :=
  match risks with
  | [] => []
  | risk :: rest =>
      match generate_alert format_2f format_money str_of_int self (draw i)
              (now i) risk with
      | Some alert => alert :: collect_alerts self draw now (S i) rest
      | None => collect_alerts self draw now (S i) rest
      end
  end.

(** [AlertGenerator.generate_alerts] *)
Definition generate_alerts (self : AlertGenerator R) (draw : nat -> N)
    (now : nat -> datetime) (risks : list (Risk R)) : list (Alert R) :=
  let alerts := collect_alerts self draw now 0 risks in
  py_sort_by String.ltb (fun a => AlertPriority.value (priority a)) alerts.

End AlertLists.

(** The dictionary returned by [get_alert_summary]. *)
Module AlertSummary.
Record t := {
  total_alerts : Z;
  by_priority : gmap string Z;
  p1_count : Z;
  p2_count : Z;
  requiring_immediate_action : Z
}.
End AlertSummary.

Section AlertSummaries.
Context {R : Type} `{PyNum R}.

Definition priority_counts (alerts : list (Alert R)) : gmap string Z :=
  fold_left
    (fun counts alert =>
       let p := AlertPriority.value (priority alert) in
       <[p := (default 0 (counts !! p) + 1)%Z]> counts)
    alerts ∅.

(** [AlertGenerator.get_alert_summary] *)
Definition get_alert_summary (alerts : list (Alert R)) : AlertSummary.t :=
  let priority_counts := priority_counts alerts in
  {| AlertSummary.total_alerts := Z.of_nat (length alerts);
     AlertSummary.by_priority := priority_counts;
     AlertSummary.p1_count := default 0%Z (priority_counts !! "P1");
     AlertSummary.p2_count := default 0%Z (priority_counts !! "P2");
     AlertSummary.requiring_immediate_action :=
       Z.of_nat (length (List.filter
                           (fun a =>
                              bool_decide (priority a = AlertPriority.P1) ||
                              bool_decide (priority a = AlertPriority.P2))
                           alerts)) |}.

End AlertSummaries.

(** ** core/classifier.py *)

Module ActionItem.
Record t := {
  action : string;
  owner : string;
  priority : Z
}.
End ActionItem.

(** The dictionary returned by [classify_risk], with its three nested
    dictionaries. *)
Module Classification.
Record classification := {
  level : string;
  type : string;
  urgency : string;
  priority : Z;
  priority_label : string
}.
Record response := {
  deadline : string;
  strategies : list string;
  action_items : list ActionItem.t
}.
Record escalation := {
  required : bool;
  escalation_level : string
}.
Record t := {
  risk_id : string;
  cls : classification;
  resp : response;
  esc : escalation
}.
End Classification.

(** An entry of the risk matrix. *)
Module MatrixEntry.
Record t {R : Type} := {
  risk_id : string;
  title : string;
  type : string;
  score : R;
  priority : Z;
  affected_suppliers : Z;
  deadline : string
}.
Arguments t R : clear implicits.
End MatrixEntry.

Section RiskClassifier.
Context {R : Type} `{PyNum R}.
Local Open Scope py_scope.

Definition _mitigation_strategies : gmap RiskType.t (list string) :=
  list_to_map [
    (RiskType.SUPPLY,
       ["Activate backup suppliers";
        "Increase safety stock levels";
        "Expedite existing orders";
        "Source from alternative regions"]);
    (RiskType.LOGISTICS,
       ["Reroute shipments via alternative routes";
        "Switch transportation modes";
        "Pre-position inventory at alternative hubs";
        "Coordinate with logistics partners"]);
    (RiskType.FINANCIAL,
       ["Review hedging positions";
        "Assess cost pass-through options";
        "Negotiate payment terms";
        "Evaluate pricing adjustments"]);
    (RiskType.OPERATIONAL,
       ["Implement contingency procedures";
        "Cross-train staff for critical functions";
        "Review BCP documentation";
        "Coordinate with operations teams"]);
    (RiskType.GEOPOLITICAL,
       ["Monitor regulatory developments";
        "Diversify supplier base";
        "Review compliance requirements";
        "Engage government affairs team"])
  ].

Definition level_base : gmap RiskLevel.t Z :=
  list_to_map [
    (RiskLevel.CRITICAL, 1%Z);
    (RiskLevel.HIGH, 4%Z);
    (RiskLevel.MEDIUM, 7%Z);
    (RiskLevel.LOW, 10%Z)
  ].

Definition urgency_adjust : gmap MitigationUrgency.t Z :=
  list_to_map [
    (MitigationUrgency.IMMEDIATE, (-1)%Z);
    (MitigationUrgency.SHORT_TERM, 0%Z);
    (MitigationUrgency.MEDIUM_TERM, 1%Z);
    (MitigationUrgency.LONG_TERM, 2%Z)
  ].

Definition _calculate_priority (risk : Risk R) : Z :=
  let base := default 7%Z (level_base !! risk_level risk) in
  let adjust := default 0%Z (urgency_adjust !! mitigation_urgency risk) in
  let adjust :=
    if has_critical_suppliers risk then (adjust - 1)%Z else adjust in
  let adjust :=
    if estimated_financial_impact risk >? of_int 1000000
    then (adjust - 1)%Z else adjust in
  Z.max 1 (base + adjust).

Definition _get_priority_label (priority : Z) : string :=
  if (priority <=? 3)%Z then "IMMEDIATE"
  else if (priority <=? 6)%Z then "HIGH"
  else if (priority <=? 9)%Z then "MEDIUM"
  else "LOW".

Definition _get_strategies (risk : Risk R) : list string :=
  let strategies := default [] (_mitigation_strategies !! risk_type risk) in
  take 3 strategies.

Definition _generate_action_items (risk : Risk R) (strategies : list string)
    : list ActionItem.t :=
  let action_items :=
    imap (fun i supplier =>
            {| ActionItem.action :=
                 "Contact " +:+ name supplier +:+ " for status update";
               ActionItem.owner := "Procurement";
               ActionItem.priority := (Z.of_nat i + 1)%Z |})
         (take 3 (affected_suppliers risk)) in
  let action_items :=
    fold_left
      (fun action_items strategy =>
         (action_items ++
          [{| ActionItem.action := strategy;
              ActionItem.owner := "Supply Chain";
              ActionItem.priority :=
                (Z.of_nat (length action_items) + 1)%Z |}])%list)
      strategies action_items in
  (action_items ++
   [{| ActionItem.action := "Monitor situation for updates";
       ActionItem.owner := "Risk Management";
       ActionItem.priority := (Z.of_nat (length action_items) + 1)%Z |}])%list.

Definition deadlines : gmap MitigationUrgency.t string :=
  list_to_map [
    (MitigationUrgency.IMMEDIATE, "Within 24 hours");
    (MitigationUrgency.SHORT_TERM, "Within 1 week");
    (MitigationUrgency.MEDIUM_TERM, "Within 1 month");
    (MitigationUrgency.LONG_TERM, "Within 3 months")
  ].

Definition _calculate_deadline (urgency : MitigationUrgency.t) : string :=
  default "To be determined" (deadlines !! urgency).

Definition _get_escalation_level (risk : Risk R) : string :=
  if bool_decide (risk_level risk = RiskLevel.CRITICAL)
  then "Executive Leadership"
  else if bool_decide (risk_level risk = RiskLevel.HIGH) &&
          has_critical_suppliers risk
  then "VP Supply Chain"
  else if bool_decide (risk_level risk = RiskLevel.HIGH)
  then "Director Level"
  else if bool_decide (risk_level risk = RiskLevel.MEDIUM)
  then "Manager Level"
  else "Team Lead".

Definition classify_risk (risk : Risk R) : Classification.t :=
  let priority := _calculate_priority risk in
  let strategies := _get_strategies risk in
  let action_items := _generate_action_items risk strategies in
  let deadline := _calculate_deadline (mitigation_urgency risk) in
  {| Classification.risk_id := risk_id risk;
     Classification.cls :=
       {| Classification.level := RiskLevel.value (risk_level risk);
          Classification.type := RiskType.value (risk_type risk);
          Classification.urgency :=
            MitigationUrgency.value (mitigation_urgency risk);
          Classification.priority := priority;
          Classification.priority_label := _get_priority_label priority |};
     Classification.resp :=
       {| Classification.deadline := deadline;
          Classification.strategies := strategies;
          Classification.action_items := action_items |};
     Classification.esc :=
       {| Classification.required :=
            bool_decide (risk_level risk = RiskLevel.CRITICAL) ||
            bool_decide (risk_level risk = RiskLevel.HIGH);
          Classification.escalation_level := _get_escalation_level risk |} |}.

Definition matrix_entry (risk : Risk R) : MatrixEntry.t R :=
  let classification := classify_risk risk in
  {| MatrixEntry.risk_id := risk_id risk;
     MatrixEntry.title := title risk;
     MatrixEntry.type := RiskType.value (risk_type risk);
     MatrixEntry.score := risk_score risk;
     MatrixEntry.priority :=
       Classification.priority (Classification.cls classification);
     MatrixEntry.affected_suppliers := affected_supplier_count risk;
     MatrixEntry.deadline :=
       Classification.deadline (Classification.resp classification) |}.

(** [create_risk_matrix]: [matrix[k].append(entry)] on a key that is present,
    then every list sorted by priority. *)
Definition create_risk_matrix (assessment : RiskAssessment.t R)
    : gmap string (list (MatrixEntry.t R)) :=
  let matrix : gmap string (list (MatrixEntry.t R)) :=
    list_to_map [("critical", []); ("high", []); ("medium", []); ("low", [])] in
  let matrix :=
    fold_left
      (fun matrix risk =>
         alter (fun entries => (entries ++ [matrix_entry risk])%list)
               (RiskLevel.value (risk_level risk)) matrix)
      (RiskAssessment.risks assessment) matrix in
  py_sort_by Z.ltb MatrixEntry.priority <$> matrix.

End RiskClassifier.

(** * The specification's words and sample inputs *)

Local Open Scope Q_scope.

(** An event carrying nothing but a severity. *)
Definition event_of_severity {R} (sev : option string) : Event.t R :=
  {| Event.title := None; Event.category := None; Event.severity := sev;
     Event.confidence := None; Event.impact_score := None;
     Event.location := None; Event.keywords := None |}.

(** The event and the supplier of the scoring scenario. *)
Definition scenario_event {R} `{PyNum R} : Event.t R :=
  {| Event.title := None; Event.category := None;
     Event.severity := Some "critical";
     Event.confidence := Some (lit 0.9);
     Event.impact_score := Some (lit 0.8);
     Event.location :=
       Some {| Location.country := Some "China"; Location.region := None;
               Location.city := None |};
     Event.keywords := None |}.

Definition scenario_supplier {R} `{PyNum R} : Supplier R :=
  Supplier_init 1 "Taiwan Semiconductor" "Taiwan" None None None None
    SupplierCriticality.CRITICAL SupplierTier.TIER_1 None 30
    (of_int 12000000) None.

(** The delay table in the words of the specification; a severity outside
    the table counts as medium. *)
Definition severity_base_delay (severity : option string) : Z :=
  match severity with
  | None => 3
  | Some s =>
      if String.eqb s "critical" then 14
      else if String.eqb s "high" then 7
      else if String.eqb s "medium" then 3
      else if String.eqb s "low" then 1
      else 3
  end.

(** The estimate in the words of the specification: rounded to the nearest
    integer. *)
Definition estimated_delay_days_rounded (event : Event.t Q) (composite : Q)
    : Z :=
  round_half_even
    (inject_Z (severity_base_delay (Event.severity event)) * (1 + composite)).

(** The keys of the result in the words of the specification. *)
Definition contract_keys : list string :=
  ["risk_factor"; "affected_region"; "concentration_risk";
   "suppliers_in_region"; "spend_at_risk"; "supplier_concentration";
   "spend_concentration"].

(** The keys of the result for an unknown location. *)
Definition default_keys : list string :=
  ["risk_factor"; "affected_region"; "concentration_risk";
   "suppliers_in_region"; "spend_at_risk"].

(** [event.get("location", {}).get("country")] *)
Definition event_country {R} (event : Event.t R) : option string :=
  Location.country (default Location.empty (Event.location event)).

(** An event whose only keyword is "earthquake", and a supplier whose
    category matches it through the synonym table alone. *)
Definition earthquake_event {R} : Event.t R :=
  {| Event.title := Some "Earthquake";
     Event.category := Some "natural_disaster";
     Event.severity := Some "high"; Event.confidence := None;
     Event.impact_score := None; Event.location := None;
     Event.keywords := Some ["earthquake"] |}.

Definition foundry {R} `{PyNum R} : Supplier R :=
  Supplier_init 5 "Lima Foundry" "Peru" None None None None
    SupplierCriticality.MEDIUM SupplierTier.TIER_2
    (Some ["Manufacturing"; "castings"]) 20 (of_int 900000) None.

(** A supplier built by [Supplier.__init__] has a non-empty id. *)
Definition supplier_wf {R} (s : Supplier R) : Prop := supplier_id s <> "".

(** A risk built by [Risk.__init__] from suppliers built by
    [Supplier.__init__]: the ids are non-empty and the scores are clamped. *)
Definition risk_wf (r : Risk Q) : Prop :=
  risk_id r <> "" /\
  (0 <= risk_score r /\ risk_score r <= 1) /\
  (0 <= confidence r /\ confidence r <= 1) /\
  Forall supplier_wf (affected_suppliers r).

(** A risk whose score has four decimals. *)
Definition sample_risk {R} `{PyNum R} : Risk R :=
  Risk_init 2 1700000000000000%Z "evt-1" "Port closure"
    "Port of Kaohsiung closed"
    (lit 0.6547) RiskLevel.HIGH RiskType.LOGISTICS
    (Some [scenario_supplier; foundry]) (Some "Taiwan")
    MitigationUrgency.SHORT_TERM (lit 250000) 9%Z (lit 0.9) None None.

(** * Further notions and sample inputs *)

(** The items at index [i] carry priority [i + 1]. *)
Definition numbered (items : list ActionItem.t) : Prop :=
  forall i item, items !! i = Some item ->
                 ActionItem.priority item = (Z.of_nat i + 1)%Z.

(** [a] may stand before [b] in a list sorted by [key]: the key of [b] is
    not smaller than that of [a]. *)
Definition key_ordered {A K : Type} (key_ltb : K -> K -> bool) (key : A -> K)
    (a b : A) : Prop :=
  key_ltb (key b) (key a) = false.

(** The rank of a priority: P1 comes first. *)
Definition priority_rank (p : AlertPriority.t) : Z :=
  match p with
  | AlertPriority.P1 => 1
  | AlertPriority.P2 => 2
  | AlertPriority.P3 => 3
  | AlertPriority.P4 => 4
  end.

(** A dictionary that holds a name and a country and nothing else. *)
Definition minimal_supplier_dict {R} (name country : string)
    : gmap string (pyval R) :=
  list_to_map [("name", PStr name); ("country", PStr country)].

(** The event names no place: its country, region and city are missing or
    empty. *)
Definition event_without_place {R} (event : Event.t R) : Prop :=
  let location := default Location.empty (Event.location event) in
  str_truthy (Location.country location) = false /\
  str_truthy (Location.region location) = false /\
  str_truthy (Location.city location) = false.

(** A supplier of Peru, an event located in "PERU", and an event whose
    keyword list holds an empty keyword. *)
Definition peru_event {R} : Event.t R :=
  {| Event.title := None; Event.category := None; Event.severity := None;
     Event.confidence := None; Event.impact_score := None;
     Event.location :=
       Some {| Location.country := Some "PERU"; Location.region := None;
               Location.city := None |};
     Event.keywords := Some ["strike"] |}.

Definition blank_keyword_event {R} : Event.t R :=
  {| Event.title := None; Event.category := None; Event.severity := None;
     Event.confidence := None; Event.impact_score := None;
     Event.location := None;
     Event.keywords := Some ["strike"; ""] |}.

(** An event that only names a country. *)
Definition country_event {R} (c : string) : Event.t R :=
  {| Event.title := None; Event.category := None; Event.severity := None;
     Event.confidence := None; Event.impact_score := None;
     Event.location :=
       Some {| Location.country := Some c; Location.region := None;
               Location.city := None |};
     Event.keywords := None |}.

(** The suppliers whose country is exactly [c], in catalog order. *)
Definition suppliers_of_country {R} (c : string)
    (suppliers : list (Supplier R)) : list (Supplier R) :=
  List.filter (fun s => String.eqb (country s) c) suppliers.

(** A correlator over two suppliers, as the constructor builds it. *)
Definition two_supplier_correlator : GeographicCorrelator (R:=Q) :=
  GeographicCorrelator_init (fun i => N.of_nat i)
    (Some [scenario_supplier; foundry]).

(** An event of the logistics category. *)
Definition logistics_event {R} : Event.t R :=
  {| Event.title := None; Event.category := Some "logistics";
     Event.severity := None; Event.confidence := None;
     Event.impact_score := None; Event.location := None;
     Event.keywords := None |}.

(** * Properties *)

(** ** Exact arithmetic: the comparisons and the clamp *)

Lemma Q_geb_iff (x y : Q) : (x >=? y)%py = true <-> y <= x.
Proof. cbn. apply Qle_bool_iff. Qed.

Lemma Q_geb_false (x y : Q) : (x >=? y)%py = false <-> x < y.
Proof.
  cbn. split; intros Hxy.
  - apply Qnot_le_lt. intros Hle. apply Qle_bool_iff in Hle. congruence.
  - destruct (Qle_bool y x) eqn:E; [|reflexivity].
    apply Qle_bool_iff in E. exfalso. apply (Qlt_not_le _ _ Hxy E).
Qed.

Lemma Q_ltb_iff (x y : Q) : (x <? y)%py = true <-> x < y.
Proof.
  cbn. rewrite negb_true_iff. apply (Q_geb_false x y).
Qed.

(** Case analysis on the comparisons of the goal, innermost first. *)
Ltac q_cases :=
  repeat match goal with
  | |- context [Qle_bool ?a ?b] =>
      lazymatch a with context [Qle_bool _ _] => fail | _ => idtac end;
      lazymatch b with context [Qle_bool _ _] => fail | _ => idtac end;
      let E := fresh "E" in
      destruct (Qle_bool a b) eqn:E;
      [apply Qle_bool_iff in E | apply (Q_geb_false b a) in E];
      cbn [negb]
  end.

(** C4: for every score [s], [RiskLevel.from_score s] is CRITICAL iff
    [s >= 0.8], HIGH iff [0.6 <= s < 0.8], MEDIUM iff [0.4 <= s < 0.6] and LOW
    iff [s < 0.4]; each boundary belongs to the higher tier. *)
Theorem from_score_thresholds (s : Q) :
  (RiskLevel.from_score s = RiskLevel.CRITICAL <-> 0.8 <= s) /\
  (RiskLevel.from_score s = RiskLevel.HIGH <-> 0.6 <= s /\ s < 0.8) /\
  (RiskLevel.from_score s = RiskLevel.MEDIUM <-> 0.4 <= s /\ s < 0.6) /\
  (RiskLevel.from_score s = RiskLevel.LOW <-> s < 0.4).
Proof.
  unfold RiskLevel.from_score. cbn.
  q_cases; repeat split; intros; try discriminate; try reflexivity; try lra.
Qed.

(** C1 as stated fails: with no affected supplier the financial-exposure
    component is not 0.2. *)
Lemma no_suppliers_financial_floor_refuted :
  ~ (let r := calculate_risk_score (R:=Q) (event_of_severity None) [] 0.5 in
     cs_supplier_criticality (component_scores r) == 0 /\
     cs_financial_exposure (component_scores r) == 0.2).
Proof. vm_compute. intros [_ Hfin]. discriminate Hfin. Qed.

(** The 0.2 of the financial score is the floor of a non-empty list. *)
Lemma financial_floor (suppliers : list (Supplier Q)) :
  suppliers <> [] ->
  py_sum (annual_spend <$> suppliers) < 1000000 ->
  _calculate_financial_score suppliers == 0.2.
Proof.
  intros Hne Hlow. unfold _calculate_financial_score.
  destruct suppliers as [|s rest]; [congruence|].
  set (total := py_sum (annual_spend <$> s :: rest)) in *. clearbody total.
  cbn [leb PyNum_Q of_int lit]. q_cases; unfold inject_Z in *;
    try reflexivity; lra.
Qed.

(** C1, amended: for every call of [calculate_risk_score] with an empty list
    of affected suppliers, the supplier-criticality component and the
    financial-exposure component are both 0; the financial score 0.2 is that
    of a non-empty list whose total spend is below 1,000,000. *)
Theorem no_suppliers_zero_components (event : Event.t Q) (geo : Q) :
  let r := calculate_risk_score event [] geo in
  _calculate_criticality_score (R:=Q) [] == 0 /\
  _calculate_financial_score (R:=Q) [] == 0 /\
  cs_supplier_criticality (component_scores r) == 0 /\
  cs_financial_exposure (component_scores r) == 0 /\
  (forall suppliers : list (Supplier Q),
     suppliers <> [] ->
     py_sum (annual_spend <$> suppliers) < 1000000 ->
     _calculate_financial_score suppliers == 0.2).
Proof.
  cbn zeta. repeat split; try reflexivity. apply financial_floor.
Qed.

Example binary64_no_suppliers :
  _calculate_criticality_score (R:=float) [] = 0%float /\
  _calculate_financial_score (R:=float) [] = 0%float.
Proof. vm_compute. split; reflexivity. Qed.

(** C2 as stated fails: the scenario does not give composite score 0.773 and
    level HIGH. *)
Lemma scenario_composite_refuted :
  ~ (let r := calculate_risk_score (R:=Q) scenario_event
                [scenario_supplier] 0.5 in
     cs_severity (component_scores r) == 0.81 /\
     cs_supplier_criticality (component_scores r) == 1 /\
     cs_financial_exposure (component_scores r) == 1 /\
     composite_score r == 0.773 /\
     rs_risk_level r = RiskLevel.HIGH /\
     rs_mitigation_urgency r = MitigationUrgency.IMMEDIATE).
Proof. vm_compute. intros (_ & _ & _ & Hc & _). discriminate Hc. Qed.

(** C2, amended: for an event of severity "critical", confidence 0.9 and
    impact score 0.8, one affected supplier of CRITICAL criticality with an
    annual spend of 12,000,000 and geographic risk factor 0.5,
    [calculate_risk_score] yields severity score 0.81, criticality score 1.0,
    financial score 1.0, composite score 0.843, level CRITICAL and urgency
    IMMEDIATE. *)
Theorem scenario_scores (event : Event.t Q) (s : Supplier Q) :
  Event.severity event = Some "critical" ->
  Event.confidence event = Some 0.9 ->
  Event.impact_score event = Some 0.8 ->
  criticality s = SupplierCriticality.CRITICAL ->
  annual_spend s = 12000000 ->
  let r := calculate_risk_score event [s] 0.5 in
  cs_severity (component_scores r) == 0.81 /\
  cs_supplier_criticality (component_scores r) == 1 /\
  cs_financial_exposure (component_scores r) == 1 /\
  composite_score r == 0.843 /\
  rs_risk_level r = RiskLevel.CRITICAL /\
  rs_mitigation_urgency r = MitigationUrgency.IMMEDIATE.
Proof.
  intros Hsev Hconf Himp Hcrit Hspend.
  unfold calculate_risk_score, _calculate_severity_score,
    _calculate_criticality_score, _calculate_financial_score.
  rewrite Hsev, Hconf, Himp. cbn [fmap list_fmap]. rewrite Hcrit, Hspend.
  vm_compute. repeat split.
Qed.

Lemma scenario_scores_witness :
  let r := calculate_risk_score (R:=Q) scenario_event [scenario_supplier] 0.5 in
  cs_severity (component_scores r) == 0.81 /\
  cs_supplier_criticality (component_scores r) == 1 /\
  cs_financial_exposure (component_scores r) == 1 /\
  composite_score r == 0.843 /\
  rs_risk_level r = RiskLevel.CRITICAL /\
  rs_mitigation_urgency r = MitigationUrgency.IMMEDIATE.
Proof.
  apply (scenario_scores scenario_event scenario_supplier); reflexivity.
Defined.

Example binary64_scenario :
  let r := calculate_risk_score (R:=float) scenario_event [scenario_supplier]
             (lit 0.5) in
  cs_severity (component_scores r) = lit 0.81 /\
  cs_supplier_criticality (component_scores r) = lit 1 /\
  cs_financial_exposure (component_scores r) = lit 1 /\
  composite_score r = lit 0.843 /\
  rs_risk_level r = RiskLevel.CRITICAL /\
  rs_mitigation_urgency r = MitigationUrgency.IMMEDIATE.
Proof. vm_compute. repeat split. Qed.

(** ** The delay estimate *)

Lemma severity_delays_lookup (severity : option string) :
  default 3%Z (severity_delays !! default "medium" severity)
  = severity_base_delay severity.
Proof.
  destruct severity as [s|]; [|reflexivity].
  cbn [default from_option id severity_base_delay].
  unfold severity_delays.
  rewrite !list_to_map_cons, list_to_map_nil, !lookup_insert, lookup_empty.
  repeat case_decide; subst; try reflexivity.
  repeat match goal with
  | H : ?k <> s |- _ =>
      let E := fresh "E" in
      destruct (String.eqb s k) eqn:E;
      [apply String.eqb_eq in E; congruence | clear H]
  end.
  reflexivity.
Qed.

(** [int(x)] is the floor of a non-negative [x] and the ceiling of a
    non-positive one. *)
Lemma Qtrunc_floor (x : Q) : 0 <= x -> Qtrunc x = Qfloor x.
Proof.
  destruct x as [n d]. unfold Qle, Qtrunc, Qfloor. cbn. intros Hn.
  apply Z.quot_div_nonneg; lia.
Qed.

Lemma Qtrunc_ceiling (x : Q) : x <= 0 -> Qtrunc x = Qceiling x.
Proof.
  destruct x as [n d]. unfold Qle, Qtrunc, Qceiling, Qfloor. cbn. intros Hn.
  replace n with (- (- n))%Z at 1 by lia.
  rewrite Z.quot_opp_l by lia. f_equal.
  apply Z.quot_div_nonneg; lia.
Qed.

(** C3 as stated fails: the estimated delay is not the product rounded to
    the nearest integer. *)
Lemma delay_rounding_refuted :
  _estimate_delay_days (R:=Q) (event_of_severity (Some "medium")) 0.3
  <> estimated_delay_days_rounded (event_of_severity (Some "medium")) 0.3.
Proof. vm_compute. discriminate. Qed.

Example delay_values_medium :
  _estimate_delay_days (R:=Q) (event_of_severity (Some "medium")) 0.3 = 3%Z /\
  _estimate_delay_days (R:=float) (event_of_severity (Some "medium")) (lit 0.3)
  = 3%Z /\
  estimated_delay_days_rounded (event_of_severity (Some "medium")) 0.3 = 4%Z.
Proof. vm_compute. repeat split. Qed.

(** The doubles nearest to 1/3, 2/3, 1/7 and 1/14: the computed product is
    the integer just above the exact one, and the estimate follows it. *)
Example binary64_delay_computed_product :
  _estimate_delay_days (R:=float) (event_of_severity (Some "medium"))
    (lit 0.3333333333333333) = 4%Z /\
  _estimate_delay_days (R:=float) (event_of_severity (Some "medium"))
    (lit 0.6666666666666666) = 5%Z /\
  _estimate_delay_days (R:=float) (event_of_severity (Some "high"))
    (lit 0.14285714285714285) = 8%Z /\
  _estimate_delay_days (R:=float) (event_of_severity (Some "critical"))
    (lit 0.07142857142857142) = 15%Z.
Proof. vm_compute. repeat split. Qed.

(** C3, amended: for every event and every composite score, a double, for
    which the product [severity_base_delay * (1 + composite)] computed in
    binary64 (the sum, then the product, each rounded to the nearest double)
    is finite, the estimated delay is the value of that computed product
    truncated toward zero: its floor when it is non-negative, its ceiling
    when it is non-positive.  It is not the product rounded to the nearest
    integer.  The base delay is 14, 7, 3, 1 for critical, high, medium, low,
    and 3 otherwise. *)
Theorem delay_truncates (event : Event.t float) (composite : float)
    (Hfinite :
       PrimFloat.is_finite
         (of_int (severity_base_delay (Event.severity event))
          * (of_int 1 + composite))%py = true) :
  let p :=
    (of_int (severity_base_delay (Event.severity event))
     * (of_int 1 + composite))%py in
  let x := Binary64.to_Q p in
  let d := _estimate_delay_days event composite in
  d = Qtrunc x /\
  (0 <= x -> inject_Z d <= x /\ x < inject_Z d + 1) /\
  (x <= 0 -> inject_Z d - 1 < x /\ x <= inject_Z d).
Proof.
  intros p x d.
  assert (Hd : d = Qtrunc x).
  { subst d x p. unfold _estimate_delay_days.
    rewrite severity_delays_lookup. reflexivity. }
  split; [exact Hd|]. rewrite Hd. split; intros Hx.
  - rewrite (Qtrunc_floor x Hx). split.
    + apply Qfloor_le.
    + pose proof (Qlt_floor x) as Hlt. rewrite inject_Z_plus in Hlt. exact Hlt.
  - rewrite (Qtrunc_ceiling x Hx). split.
    + pose proof (Qceiling_lt x) as Hlt.
      unfold Z.sub in Hlt. rewrite inject_Z_plus in Hlt. exact Hlt.
    + apply Qle_ceiling.
Qed.

Lemma delay_truncates_witness :
  _estimate_delay_days (R:=float) (event_of_severity (Some "medium"))
    (lit 0.3333333333333333)
  = Qtrunc (Binary64.to_Q
              (of_int 3 * (of_int 1 + lit 0.3333333333333333))%py).
Proof.
  destruct (delay_truncates (event_of_severity (Some "medium"))
              (lit 0.3333333333333333)) as [Hd _].
  - vm_compute. reflexivity.
  - exact Hd.
Defined.

(** ** Construction of a risk *)

Lemma clamp_range (x : Q) :
  0 <= py_min (py_max x (lit 0.0)) (lit 1.0) /\
  py_min (py_max x (lit 0.0)) (lit 1.0) <= 1.
Proof. unfold py_min, py_max. cbn. q_cases; cbn; lra. Qed.

Lemma clamp_below (x : Q) : x < 0 -> py_min (py_max x (lit 0.0)) (lit 1.0) == 0.
Proof. intros Hx. unfold py_min, py_max. cbn. q_cases; cbn; lra. Qed.

Lemma clamp_above (x : Q) : 1 < x -> py_min (py_max x (lit 0.0)) (lit 1.0) == 1.
Proof. intros Hx. unfold py_min, py_max. cbn. q_cases; cbn; lra. Qed.

Lemma clamp_inside (x : Q) :
  0 <= x -> x <= 1 -> py_min (py_max x (lit 0.0)) (lit 1.0) = x.
Proof.
  intros H0 H1. unfold py_min, py_max. cbn. q_cases; cbn; try reflexivity; lra.
Qed.

(** C9: for every risk built by [Risk.__init__], whatever score and
    confidence are passed, the stored [risk_score] and [confidence] lie in
    [0,1]; an argument below 0 is stored as 0 and one above 1 as 1. *)
Theorem risk_init_clamps (uuid_bits : N) (now : datetime)
    (source_event_id title description : string) (score : Q)
    (level : RiskLevel.t) (type : RiskType.t)
    (suppliers : option (list (Supplier Q))) (scope : option string)
    (urgency : MitigationUrgency.t) (impact : Q) (delay : Z) (conf : Q)
    (id : option string) (created : option datetime) :
  let r := Risk_init uuid_bits now source_event_id title description score
             level type suppliers scope urgency impact delay conf id created in
  (0 <= risk_score r /\ risk_score r <= 1) /\
  (0 <= confidence r /\ confidence r <= 1) /\
  (score < 0 -> risk_score r == 0) /\ (1 < score -> risk_score r == 1) /\
  (conf < 0 -> confidence r == 0) /\ (1 < conf -> confidence r == 1).
Proof.
  cbn. repeat split;
    first [ apply clamp_range | apply clamp_below | apply clamp_above ].
Qed.

(** ** Alerts *)

(** C6: [_determine_priority] never returns [None], so [generate_alert]
    returns an alert for every risk and its [None] result is unreachable.
    This holds in every number model and for every threshold table, since a
    risk's level is one of LOW, MEDIUM, HIGH and CRITICAL. *)
Theorem generate_alert_never_none {R : Type} `{PyNum R}
    (format_2f format_money : R -> string) (str_of_int : Z -> string)
    (self : AlertGenerator R) (uuid_bits : N) (now : datetime) (risk : Risk R) :
  (exists p, _determine_priority self risk = Some p) /\
  (exists a, generate_alert format_2f format_money str_of_int self uuid_bits
               now risk = Some a /\
             _determine_priority self risk = Some (priority a) /\
             alert_risk_id a = risk_id risk) /\
  generate_alert format_2f format_money str_of_int self uuid_bits now risk
    <> None.
Proof.
  assert (Hp : exists p, _determine_priority self risk = Some p).
  { unfold _determine_priority.
    repeat case_bool_decide; cbn [orb];
      repeat match goal with
      | |- context [if ?b then _ else _] => destruct b; cbn [orb]
      end; eauto.
    destruct (risk_level risk); congruence. }
  destruct Hp as [p Hp]. unfold generate_alert. rewrite Hp.
  split; [eauto|]. split; [|discriminate].
  eexists. split; [reflexivity|]. split; reflexivity.
Qed.

Lemma has_critical_suppliers_iff {R : Type} `{PyNum R} (risk : Risk R) :
  has_critical_suppliers risk = true <->
  exists s, s ∈ affected_suppliers risk /\
            criticality s = SupplierCriticality.CRITICAL.
Proof.
  unfold has_critical_suppliers. rewrite existsb_exists. split.
  - intros (s & Hin & Hc). exists s. split.
    + apply list_elem_of_In, Hin.
    + apply bool_decide_eq_true in Hc. exact Hc.
  - intros (s & Hin & Hc). exists s. split.
    + apply list_elem_of_In, Hin.
    + apply bool_decide_eq_true. exact Hc.
Qed.

(** C5: with the default thresholds the priority of a risk is given by the
    first rule that matches: level CRITICAL or score >= 0.8 gives P1; level
    HIGH or score >= 0.6 gives P2, raised to P1 when an affected supplier is
    of CRITICAL criticality; level MEDIUM or score >= 0.4 gives P3; level LOW
    gives P4.  In particular a HIGH risk of score 0.65 with one CRITICAL
    supplier gets an alert of priority P1. *)
Theorem determine_priority_rules
    (format_2f format_money : Q -> string) (str_of_int : Z -> string)
    (uuid_bits : N) (now : datetime) (risk : Risk Q) :
  let self := AlertGenerator_init None None None in
  let p := _determine_priority self risk in
  let critical_rule :=
    risk_level risk = RiskLevel.CRITICAL \/ 0.8 <= risk_score risk in
  let high_rule :=
    risk_level risk = RiskLevel.HIGH \/ 0.6 <= risk_score risk in
  let medium_rule :=
    risk_level risk = RiskLevel.MEDIUM \/ 0.4 <= risk_score risk in
  let critical_supplier :=
    exists s, s ∈ affected_suppliers risk /\
              criticality s = SupplierCriticality.CRITICAL in
  (critical_rule -> p = Some AlertPriority.P1) /\
  (~ critical_rule -> high_rule -> critical_supplier ->
   p = Some AlertPriority.P1) /\
  (~ critical_rule -> high_rule -> ~ critical_supplier ->
   p = Some AlertPriority.P2) /\
  (~ critical_rule -> ~ high_rule -> medium_rule ->
   p = Some AlertPriority.P3) /\
  (~ critical_rule -> ~ high_rule -> ~ medium_rule ->
   risk_level risk = RiskLevel.LOW -> p = Some AlertPriority.P4) /\
  (forall s, risk_level risk = RiskLevel.HIGH -> risk_score risk == 0.65 ->
             affected_suppliers risk = [s] ->
             criticality s = SupplierCriticality.CRITICAL ->
             priority <$> generate_alert format_2f format_money str_of_int
                            self uuid_bits now risk
             = Some AlertPriority.P1).
Proof.
  intros self p critical_rule high_rule medium_rule critical_supplier.
  assert (Hcases :
    p = if bool_decide (risk_level risk = RiskLevel.CRITICAL) ||
           Qle_bool 0.8 (risk_score risk)
        then Some AlertPriority.P1
        else if bool_decide (risk_level risk = RiskLevel.HIGH) ||
                Qle_bool 0.6 (risk_score risk)
        then (if has_critical_suppliers risk
              then Some AlertPriority.P1 else Some AlertPriority.P2)
        else if bool_decide (risk_level risk = RiskLevel.MEDIUM) ||
                Qle_bool 0.4 (risk_score risk)
        then Some AlertPriority.P3
        else if bool_decide (risk_level risk = RiskLevel.LOW)
        then Some AlertPriority.P4 else None) by reflexivity.
  assert (H1 : bool_decide (risk_level risk = RiskLevel.CRITICAL) ||
               Qle_bool 0.8 (risk_score risk) = true <-> critical_rule).
  { rewrite orb_true_iff, bool_decide_eq_true, Qle_bool_iff. reflexivity. }
  assert (H2 : bool_decide (risk_level risk = RiskLevel.HIGH) ||
               Qle_bool 0.6 (risk_score risk) = true <-> high_rule).
  { rewrite orb_true_iff, bool_decide_eq_true, Qle_bool_iff. reflexivity. }
  assert (H3 : bool_decide (risk_level risk = RiskLevel.MEDIUM) ||
               Qle_bool 0.4 (risk_score risk) = true <-> medium_rule).
  { rewrite orb_true_iff, bool_decide_eq_true, Qle_bool_iff. reflexivity. }
  pose proof (has_critical_suppliers_iff risk) as H4.
  fold critical_supplier in H4.
  assert (N1 : ~ critical_rule ->
               bool_decide (risk_level risk = RiskLevel.CRITICAL) ||
               Qle_bool 0.8 (risk_score risk) = false).
  { intros Hn. apply not_true_is_false. rewrite H1. exact Hn. }
  assert (N2 : ~ high_rule ->
               bool_decide (risk_level risk = RiskLevel.HIGH) ||
               Qle_bool 0.6 (risk_score risk) = false).
  { intros Hn. apply not_true_is_false. rewrite H2. exact Hn. }
  assert (N3 : ~ medium_rule ->
               bool_decide (risk_level risk = RiskLevel.MEDIUM) ||
               Qle_bool 0.4 (risk_score risk) = false).
  { intros Hn. apply not_true_is_false. rewrite H3. exact Hn. }
  assert (N4 : ~ critical_supplier -> has_critical_suppliers risk = false).
  { intros Hn. apply not_true_is_false. rewrite H4. exact Hn. }
  assert (Hescalate : ~ critical_rule -> high_rule -> critical_supplier ->
                      p = Some AlertPriority.P1).
  { intros Hc Hh Hs. rewrite Hcases, (N1 Hc).
    apply H2 in Hh. apply H4 in Hs. rewrite Hh, Hs. reflexivity. }
  repeat apply conj.
  - intros Hc. apply H1 in Hc. rewrite Hcases, Hc. reflexivity.
  - exact Hescalate.
  - intros Hc Hh Hs. rewrite Hcases, (N1 Hc), (N4 Hs).
    apply H2 in Hh. rewrite Hh. reflexivity.
  - intros Hc Hh Hm. rewrite Hcases, (N1 Hc), (N2 Hh).
    apply H3 in Hm. rewrite Hm. reflexivity.
  - intros Hc Hh Hm Hlow. rewrite Hcases, (N1 Hc), (N2 Hh), (N3 Hm).
    rewrite bool_decide_eq_true_2 by exact Hlow. reflexivity.
  - intros s Hlevel Hscore Hsup Hcrit.
    assert (Hp : p = Some AlertPriority.P1).
    { apply Hescalate.
      - intros [Hl | Hs]; [congruence | lra].
      - left. exact Hlevel.
      - exists s. split; [rewrite Hsup; apply list_elem_of_here | exact Hcrit]. }
    unfold generate_alert. fold self. fold p. rewrite Hp. reflexivity.
Qed.

Example escalation_example :
  let s := scenario_supplier (R:=Q) in
  let risk := Risk_init 2 0%Z "evt-1" "Port closure" "Port closed" 0.65
                RiskLevel.HIGH RiskType.LOGISTICS (Some [s]) None
                MitigationUrgency.SHORT_TERM 0 0%Z 1 None None in
  _determine_priority (AlertGenerator_init None None None) risk
  = Some AlertPriority.P1.
Proof. vm_compute. reflexivity. Qed.

Example binary64_escalation :
  let s := scenario_supplier (R:=float) in
  let risk := Risk_init 2 0%Z "evt-1" "Port closure" "Port closed" (lit 0.65)
                RiskLevel.HIGH RiskType.LOGISTICS (Some [s]) None
                MitigationUrgency.SHORT_TERM (lit 0) 0%Z (lit 1) None None in
  _determine_priority (AlertGenerator_init None None None) risk
  = Some AlertPriority.P1.
Proof. vm_compute. reflexivity. Qed.

(** ** Geographic risk *)

(** C7 as stated fails: for an event without a country the result does not
    contain all seven keys of the contract. *)
Lemma no_country_contract_keys_refuted :
  ~ (let result :=
       calculate_geographic_risk (R:=Q)
         (GeographicCorrelator_init (fun i => N.of_nat i) None)
         (event_of_severity None) in
     result !! "risk_factor" = Some (PFloat 0.3) /\
     result !! "affected_region" = Some (PStr "Unknown") /\
     Forall (fun k => is_Some (result !! k)) contract_keys).
Proof.
  intros (_ & _ & Hkeys).
  rewrite Forall_forall in Hkeys.
  assert (Hin : "supplier_concentration" ∈ contract_keys).
  { unfold contract_keys. set_solver. }
  apply Hkeys in Hin. destruct Hin as [v Hv]. vm_compute in Hv. discriminate Hv.
Qed.

(** C7, amended: for every event whose location has no country,
    [calculate_geographic_risk] returns risk factor 0.3, region "Unknown",
    concentration risk "unknown", 0 suppliers in the region and 0 spend at
    risk; for every event with a country the result contains all seven keys
    of the contract. *)
Theorem geographic_risk_keys {R : Type} `{PyNum R}
    (self : GeographicCorrelator) (event : Event.t R) :
  let result := calculate_geographic_risk self event in
  (str_truthy (event_country event) = false ->
   result !! "risk_factor" = Some (PFloat (lit 0.3)) /\
   result !! "affected_region" = Some (PStr "Unknown") /\
   result !! "concentration_risk" = Some (PStr "unknown") /\
   result !! "suppliers_in_region" = Some (PInt 0) /\
   result !! "spend_at_risk" = Some (PInt 0)) /\
  (str_truthy (event_country event) = true ->
   Forall (fun k => is_Some (result !! k)) contract_keys).
Proof.
  intros result. subst result. unfold calculate_geographic_risk, event_country.
  destruct (Location.country (default Location.empty (Event.location event)))
    as [[|c country]|]; cbn [str_truthy]; split; intros Htruthy;
    try discriminate Htruthy.
  - repeat split; reflexivity.
  - unfold contract_keys. repeat constructor; eexists; reflexivity.
  - repeat split; reflexivity.
Qed.

(** The default result has the five keys above and no other. *)
Lemma geographic_risk_default_keys {R : Type} `{PyNum R}
    (self : GeographicCorrelator) (event : Event.t R) :
  str_truthy (event_country event) = false ->
  dom (calculate_geographic_risk self event) = list_to_set default_keys.
Proof.
  unfold calculate_geographic_risk, event_country.
  destruct (Location.country (default Location.empty (Event.location event)))
    as [[|c country]|]; cbn [str_truthy]; intros Htruthy;
    try discriminate Htruthy; reflexivity.
Qed.

Example binary64_geographic_default :
  (calculate_geographic_risk (R:=float)
     (GeographicCorrelator_init (fun i => N.of_nat i) None)
     (event_of_severity (Some "critical"))) !! "risk_factor"
  = Some (PFloat (lit 0.3)).
Proof. vm_compute. reflexivity. Qed.

Example geographic_risk_india :
  let result :=
    calculate_geographic_risk (R:=Q)
      (GeographicCorrelator_init (fun i => N.of_nat i) None)
      {| Event.title := None; Event.category := None;
         Event.severity := Some "critical"; Event.confidence := None;
         Event.impact_score := None;
         Event.location :=
           Some {| Location.country := Some "India"; Location.region := None;
                   Location.city := Some "Mumbai" |};
         Event.keywords := None |} in
  result !! "affected_region" = Some (PStr "Mumbai, India") /\
  result !! "suppliers_in_region" = Some (PInt 2) /\
  result !! "concentration_risk" = Some (PStr "medium") /\
  size result = 8%nat.
Proof. vm_compute. repeat split. Qed.


(** ** Affected suppliers *)

Lemma str_in_iff (x : string) (l : list string) : str_in x l = true <-> x ∈ l.
Proof.
  unfold str_in. rewrite existsb_exists, list_elem_of_In. split.
  - intros (y & Hin & Heq). apply String.eqb_eq in Heq. subst y. exact Hin.
  - intros Hin. exists x. split; [exact Hin | apply String.eqb_refl].
Qed.

Lemma earthquake_category_match {R : Type} `{PyNum R} (s : Supplier R) :
  (exists c, c ∈ categories s /\
             (lower c = "manufacturing" \/ lower c = "components")) ->
  _check_category_match s ["earthquake"] = true.
Proof.
  intros (c & Hin & Hc). unfold _check_category_match.
  destruct (categories s) as [|c0 cats] eqn:Hcats.
  { apply elem_of_nil in Hin. contradiction. }
  apply orb_true_iff. right.
  change (lower <$> ["earthquake"]) with ["earthquake"].
  cbn [existsb].
  change (keyword_category_map !! "earthquake")
    with (Some ["manufacturing"; "components"]).
  cbn [existsb]. rewrite !orb_false_r. apply orb_true_iff.
  destruct Hc as [Hc | Hc]; [left | right]; apply str_in_iff; rewrite <- Hc;
    apply list_elem_of_fmap_2; exact Hin.
Qed.

(** C8: for an event whose keywords are ["earthquake"],
    [find_affected_suppliers] returns every supplier of the catalog with a
    category equal, up to case, to "manufacturing" or "components". *)
Theorem earthquake_finds_manufacturers {R : Type} `{PyNum R}
    (suppliers : list (Supplier R)) (event : Event.t R) (s : Supplier R) :
  s ∈ suppliers ->
  Event.keywords event = Some ["earthquake"] ->
  (exists c, c ∈ categories s /\
             (lower c = "manufacturing" \/ lower c = "components")) ->
  s ∈ find_affected_suppliers suppliers event.
Proof.
  intros Hin Hkw Hcat. unfold find_affected_suppliers.
  apply list_elem_of_In, filter_In. split.
  - apply list_elem_of_In, Hin.
  - rewrite Hkw. cbn [default from_option id].
    rewrite (earthquake_category_match s Hcat). apply orb_true_r.
Qed.

Lemma earthquake_finds_manufacturers_witness :
  foundry ∈ find_affected_suppliers (R:=Q) [scenario_supplier; foundry]
              earthquake_event.
Proof.
  apply earthquake_finds_manufacturers.
  - apply list_elem_of_further, list_elem_of_here.
  - reflexivity.
  - exists "Manufacturing". split.
    + apply list_elem_of_here.
    + left. reflexivity.
Defined.

Example earthquake_on_catalog :
  name <$> find_affected_suppliers (R:=Q)
             (SupplierImpactAnalyzer_init (fun i => N.of_nat i) None)
             earthquake_event
  = ["TechParts Asia"; "Mumbai Components Ltd"; "Bangkok Manufacturing"].
Proof. vm_compute. reflexivity. Qed.

(** ** The dictionary round trip *)

Lemma SupplierCriticality_of_value_value (c : SupplierCriticality.t) :
  SupplierCriticality.of_value (SupplierCriticality.value c) = Some c.
Proof. destruct c; reflexivity. Qed.

Lemma SupplierTier_of_value_value (t : SupplierTier.t) :
  SupplierTier.of_value (SupplierTier.value t) = Some t.
Proof. destruct t; reflexivity. Qed.

Lemma RiskLevel_of_value_value (l : RiskLevel.t) :
  RiskLevel.of_value (RiskLevel.value l) = Some l.
Proof. destruct l; reflexivity. Qed.

Lemma RiskType_of_value_value (t : RiskType.t) :
  RiskType.of_value (RiskType.value t) = Some t.
Proof. destruct t; reflexivity. Qed.

Lemma MitigationUrgency_of_value_value (u : MitigationUrgency.t) :
  MitigationUrgency.of_value (MitigationUrgency.value u) = Some u.
Proof. destruct u; reflexivity. Qed.

Lemma str_or_nonempty (s d : string) : s <> "" -> str_or (Some s) d = s.
Proof. destruct s; [congruence | reflexivity]. Qed.

Lemma list_or_some {A} (l : list A) : list_or (Some l) [] = l.
Proof. destruct l; reflexivity. Qed.

Lemma as_opt_str_PStr_opt {R} (s : option string) :
  as_opt_str (R:=R) (Some (PStr_opt s)) = Some s.
Proof. destruct s; reflexivity. Qed.

Lemma as_opt_num_PFloat_opt {R} `{PyNum R} (x : option R) :
  as_opt_num (Some (PFloat_opt x)) = Some x.
Proof. destruct x; reflexivity. Qed.

Lemma as_str_list_PStr {R} (l : list string) :
  as_str_list (R:=R) (PList (PStr <$> l)) = Some l.
Proof.
  cbn. induction l as [|x l IH]; [reflexivity|].
  cbn. cbn in IH. rewrite IH. reflexivity.
Qed.

Lemma uuid4_str_nonempty (bits : N) : uuid4_str bits <> "".
Proof.
  unfold uuid4_str. generalize (hex_digits 32 bits ""). intros h.
  destruct (String.substring 0 8 h); cbn; discriminate.
Qed.

Lemma Supplier_init_wf {R} `{PyNum R} (bits : N) (nm ctry : string)
    (cty reg : option string) (lat lon : option R)
    (crit : SupplierCriticality.t) (tr : SupplierTier.t)
    (cats : option (list string)) (lead : Z) (spend : R)
    (sid : option string) :
  supplier_wf (Supplier_init bits nm ctry cty reg lat lon crit tr cats lead
                 spend sid).
Proof.
  unfold supplier_wf. cbn. destruct sid as [[|c s]|]; cbn;
    first [ apply uuid4_str_nonempty | discriminate ].
Qed.

Lemma Supplier_round_trip {R} `{PyNum R} (bits : N) (s : Supplier R) :
  supplier_wf s -> Supplier_from_dict bits (Supplier_to_dict s) = Some s.
Proof.
  intros Hwf. unfold Supplier_from_dict.
  change (Supplier_to_dict s !! "supplier_id") with (Some (PStr (supplier_id s) : pyval R)).
  change (Supplier_to_dict s !! "name") with (Some (PStr (name s) : pyval R)).
  change (Supplier_to_dict s !! "country") with (Some (PStr (country s) : pyval R)).
  change (Supplier_to_dict s !! "city") with (Some (PStr_opt (city s) : pyval R)).
  change (Supplier_to_dict s !! "region") with (Some (PStr_opt (region s) : pyval R)).
  change (Supplier_to_dict s !! "latitude") with (Some (PFloat_opt (latitude s))).
  change (Supplier_to_dict s !! "longitude") with (Some (PFloat_opt (longitude s))).
  change (Supplier_to_dict s !! "criticality")
    with (Some (PStr (SupplierCriticality.value (criticality s)) : pyval R)).
  change (Supplier_to_dict s !! "tier")
    with (Some (PStr (SupplierTier.value (tier s)) : pyval R)).
  change (Supplier_to_dict s !! "categories")
    with (Some (PList (PStr <$> categories s) : pyval R)).
  change (Supplier_to_dict s !! "lead_time_days")
    with (Some (PInt (lead_time_days s) : pyval R)).
  change (Supplier_to_dict s !! "annual_spend")
    with (Some (PFloat (annual_spend s))).
  rewrite !as_opt_str_PStr_opt, !as_opt_num_PFloat_opt.
  cbn [as_str as_opt_str as_int as_num default from_option id mbind option_bind].
  rewrite SupplierCriticality_of_value_value, SupplierTier_of_value_value.
  cbn [mbind option_bind]. rewrite as_str_list_PStr. cbn [mbind option_bind].
  unfold Supplier_init. rewrite (str_or_nonempty _ _ Hwf), list_or_some.
  destruct s; reflexivity.
Qed.

Lemma suppliers_round_trip {R} `{PyNum R} (draw : nat -> N) (i : nat)
    (l : list (Supplier R)) :
  Forall supplier_wf l ->
  suppliers_from_dicts draw i ((fun s => PDict (Supplier_to_dict s)) <$> l)
  = Some l.
Proof.
  intros Hwf. revert i. induction Hwf as [|s l Hs Hl IH]; intros i.
  - reflexivity.
  - cbn [fmap list_fmap suppliers_from_dicts].
    rewrite (Supplier_round_trip _ s Hs). cbn [mbind option_bind].
    rewrite IH. reflexivity.
Qed.

(** *** Rounding to three decimals *)

Lemma round_half_even_nonneg (q : Q) : 0 <= q -> (0 <= round_half_even q)%Z.
Proof.
  intros Hq. unfold round_half_even.
  assert (Hf : (0 <= Qfloor q)%Z).
  { change 0%Z with (Qfloor 0). apply Qfloor_resp_le, Hq. }
  destruct (Qcompare _ _); [destruct (Z.even _)| |]; lia.
Qed.

Lemma round_half_even_le (q : Q) (n : Z) :
  q <= inject_Z n -> (round_half_even q <= n)%Z.
Proof.
  intros Hq. unfold round_half_even.
  pose proof (Qfloor_le q) as Hfl.
  assert (Hf : (Qfloor q <= n)%Z).
  { rewrite <- (Qfloor_Z n). apply Qfloor_resp_le, Hq. }
  assert (Hup : 0 < q - inject_Z (Qfloor q) -> (Qfloor q + 1 <= n)%Z).
  { intros Hpos.
    assert (Hlt : (Qfloor q < n)%Z) by (rewrite Zlt_Qlt; lra).
    lia. }
  destruct (Qcompare (q - inject_Z (Qfloor q)) (1 # 2)) eqn:E.
  - apply Qeq_alt in E. destruct (Z.even _); [exact Hf | apply Hup; lra].
  - exact Hf.
  - apply Qgt_alt in E. apply Hup. lra.
Qed.

Lemma round_half_even_Z (q : Q) (n : Z) :
  q == inject_Z n -> round_half_even q = n.
Proof.
  intros Hq. unfold round_half_even.
  assert (Hf : Qfloor q = n).
  { rewrite Hq. apply Qfloor_Z. }
  rewrite Hf.
  assert (E : Qcompare (q - inject_Z n) (1 # 2) = Lt).
  { apply Qlt_alt. rewrite Hq. unfold Qminus. rewrite Qplus_opp_r.
    reflexivity. }
  rewrite E. reflexivity.
Qed.

Lemma Q_thousandths (n : Z) : n # 1000 == inject_Z n * (1 # 1000).
Proof. unfold Qeq, Qmult, inject_Z. cbn. lia. Qed.

Lemma round3_range (x : Q) :
  0 <= x -> x <= 1 -> 0 <= round_nd 3 x /\ round_nd 3 x <= 1.
Proof.
  intros H0 H1. cbn. unfold Qround_nd. change (pow10 3) with 1000%positive.
  pose proof (round_half_even_nonneg (x * inject_Z 1000)) as Hlo.
  pose proof (round_half_even_le (x * inject_Z 1000) 1000) as Hhi.
  rewrite Q_thousandths.
  set (k := round_half_even (x * inject_Z 1000)) in *.
  assert (Hlo' : (0 <= k)%Z).
  { apply Hlo. change (inject_Z 1000) with 1000. lra. }
  assert (Hhi' : (k <= 1000)%Z).
  { apply Hhi. change (inject_Z 1000) with 1000. lra. }
  rewrite Zle_Qle in Hlo', Hhi'.
  change (inject_Z 0) with 0 in Hlo'. change (inject_Z 1000) with 1000 in Hhi'.
  clear Hlo Hhi. generalize dependent (inject_Z k). intros y Hy0 Hy1.
  split; lra.
Qed.

Lemma round3_fixed_iff (x : Q) :
  round_nd 3 x == x <-> exists n : Z, x == n # 1000.
Proof.
  cbn. unfold Qround_nd. change (pow10 3) with 1000%positive. split.
  - intros Hx. eexists. symmetry. exact Hx.
  - intros [n Hn].
    rewrite (round_half_even_Z (x * inject_Z 1000) n).
    + symmetry. exact Hn.
    + rewrite Hn, Q_thousandths. change (inject_Z 1000) with 1000. field.
Qed.

Lemma Risk_init_wf (uuid_bits : N) (now : datetime)
    (source_event_id title description : string) (score : Q)
    (level : RiskLevel.t) (type : RiskType.t)
    (suppliers : option (list (Supplier Q))) (scope : option string)
    (urgency : MitigationUrgency.t) (impact : Q) (delay : Z) (conf : Q)
    (id : option string) (created : option datetime) :
  Forall supplier_wf (list_or suppliers []) ->
  risk_wf (Risk_init uuid_bits now source_event_id title description score
             level type suppliers scope urgency impact delay conf id created).
Proof.
  intros Hs. unfold risk_wf. cbn [Risk_init risk_id risk_score confidence
                                   affected_suppliers].
  split; [|split; [apply clamp_range | split; [apply clamp_range | exact Hs]]].
  destruct id as [[|c s]|]; cbn; first [apply uuid4_str_nonempty | discriminate].
Qed.

(** C10: for every risk [r] built by the constructors,
    [Risk.from_dict (r.to_dict ())] returns a risk that agrees with [r] on
    [risk_id], [source_event_id], [title], [description], [risk_level],
    [risk_type], [mitigation_urgency], [geographic_scope],
    [estimated_financial_impact], [estimated_delay_days] and the ids of the
    affected suppliers; its [risk_score] and [confidence] are those of [r]
    rounded to three decimals, hence equal to them exactly when they have at
    most three decimals. *)
Theorem risk_dict_round_trip (draw : nat -> N) (now : datetime) (r : Risk Q) :
  risk_wf r ->
  exists r',
    Risk_from_dict draw now (Risk_to_dict r) = Some r' /\
    risk_id r' = risk_id r /\
    source_event_id r' = source_event_id r /\
    title r' = title r /\
    description r' = description r /\
    risk_level r' = risk_level r /\
    risk_type r' = risk_type r /\
    mitigation_urgency r' = mitigation_urgency r /\
    geographic_scope r' = geographic_scope r /\
    estimated_financial_impact r' = estimated_financial_impact r /\
    estimated_delay_days r' = estimated_delay_days r /\
    supplier_id <$> affected_suppliers r'
    = supplier_id <$> affected_suppliers r /\
    risk_score r' = round_nd 3 (risk_score r) /\
    confidence r' = round_nd 3 (confidence r) /\
    (risk_score r' == risk_score r <-> exists n : Z, risk_score r == n # 1000) /\
    (confidence r' == confidence r <-> exists n : Z, confidence r == n # 1000).
Proof.
  intros (Hid & [Hs0 Hs1] & [Hc0 Hc1] & Hsup).
  unfold Risk_from_dict.
  change (Risk_to_dict r !! "affected_suppliers")
    with (Some (PList ((fun s => PDict (Supplier_to_dict s))
                         <$> affected_suppliers r))).
  change (Risk_to_dict r !! "risk_id") with (Some (PStr (risk_id r) : pyval Q)).
  change (Risk_to_dict r !! "source_event_id")
    with (Some (PStr (source_event_id r) : pyval Q)).
  change (Risk_to_dict r !! "title") with (Some (PStr (title r) : pyval Q)).
  change (Risk_to_dict r !! "description")
    with (Some (PStr (description r) : pyval Q)).
  change (Risk_to_dict r !! "risk_score")
    with (Some (PFloat (round_nd 3 (risk_score r)))).
  change (Risk_to_dict r !! "risk_level")
    with (Some (PStr (RiskLevel.value (risk_level r)) : pyval Q)).
  change (Risk_to_dict r !! "risk_type")
    with (Some (PStr (RiskType.value (risk_type r)) : pyval Q)).
  change (Risk_to_dict r !! "geographic_scope")
    with (Some (PStr_opt (geographic_scope r) : pyval Q)).
  change (Risk_to_dict r !! "mitigation_urgency")
    with (Some (PStr (MitigationUrgency.value (mitigation_urgency r)) : pyval Q)).
  change (Risk_to_dict r !! "estimated_financial_impact")
    with (Some (PFloat (estimated_financial_impact r))).
  change (Risk_to_dict r !! "estimated_delay_days")
    with (Some (PInt (estimated_delay_days r) : pyval Q)).
  change (Risk_to_dict r !! "confidence")
    with (Some (PFloat (round_nd 3 (confidence r)))).
  change (Risk_to_dict r !! "created_at")
    with (Some (PTime (created_at r) : pyval Q)).
  cbn [default from_option id].
  rewrite (suppliers_round_trip draw 1 _ Hsup), as_opt_str_PStr_opt.
  cbn [as_str as_opt_str as_int as_num created_at_from mbind option_bind].
  rewrite RiskLevel_of_value_value, RiskType_of_value_value,
    MitigationUrgency_of_value_value.
  cbn [mbind option_bind].
  destruct (round3_range _ Hs0 Hs1) as [Hrs0 Hrs1].
  destruct (round3_range _ Hc0 Hc1) as [Hrc0 Hrc1].
  eexists. split; [reflexivity|].
  cbn [Risk_init risk_id source_event_id title description risk_level
       risk_type mitigation_urgency geographic_scope
       estimated_financial_impact estimated_delay_days affected_suppliers
       risk_score confidence].
  rewrite (str_or_nonempty _ _ Hid), list_or_some.
  rewrite (clamp_inside _ Hrs0 Hrs1), (clamp_inside _ Hrc0 Hrc1).
  repeat split; try reflexivity; try apply round3_fixed_iff.
Qed.

Lemma risk_dict_round_trip_witness :
  exists r',
    Risk_from_dict (fun i => N.of_nat i) 0%Z (Risk_to_dict (R:=Q) sample_risk)
    = Some r' /\
    risk_id r' = risk_id (R:=Q) sample_risk /\
    supplier_id <$> affected_suppliers r'
    = supplier_id <$> affected_suppliers (R:=Q) sample_risk /\
    risk_score r' == 0.655 /\
    ~ risk_score r' == risk_score (R:=Q) sample_risk.
Proof.
  assert (Hwf : risk_wf sample_risk).
  { unfold risk_wf. split; [discriminate|].
    split; [split; vm_compute; intros Hc; discriminate Hc|].
    split; [split; vm_compute; intros Hc; discriminate Hc|].
    repeat constructor; discriminate. }
  destruct (risk_dict_round_trip (fun i => N.of_nat i) 0%Z sample_risk Hwf)
    as (r' & Hr & Hid & _ & _ & _ & _ & _ & _ & _ & _ & _ & Hsup & Hscore & _).
  exists r'. split; [exact Hr|]. split; [exact Hid|]. split; [exact Hsup|].
  rewrite Hscore. split; [vm_compute; reflexivity | vm_compute; discriminate].
Defined.

Example binary64_round_trip :
  risk_score <$> Risk_from_dict (fun i => N.of_nat i) 0%Z
                   (Risk_to_dict (R:=float) sample_risk)
  = Some (lit 0.655).
Proof. vm_compute. reflexivity. Qed.

Example from_score_boundaries :
  RiskLevel.from_score (R:=Q) 0.8 = RiskLevel.CRITICAL /\
  RiskLevel.from_score (R:=Q) 0.6 = RiskLevel.HIGH /\
  RiskLevel.from_score (R:=Q) 0.4 = RiskLevel.MEDIUM /\
  RiskLevel.from_score (R:=Q) 0.39 = RiskLevel.LOW.
Proof. vm_compute. repeat split. Qed.

Example binary64_from_score_boundaries :
  RiskLevel.from_score (R:=float) (lit 0.8) = RiskLevel.CRITICAL /\
  RiskLevel.from_score (R:=float) (lit 0.6) = RiskLevel.HIGH /\
  RiskLevel.from_score (R:=float) (lit 0.4) = RiskLevel.MEDIUM /\
  RiskLevel.from_score (R:=float) (lit 0.39) = RiskLevel.LOW /\
  RiskLevel.from_score (R:=float) (lit 0.79) = RiskLevel.HIGH.
Proof. vm_compute. repeat split. Qed.

Example binary64_clamps :
  let r (x : Q) :=
    Risk_init (R:=float) 2 0%Z "evt-1" "t" "d" (lit x) RiskLevel.LOW
      RiskType.SUPPLY None None MitigationUrgency.LONG_TERM (lit 0) 0%Z
      (lit x) None None in
  risk_score (r 1.5) = lit 1 /\ risk_score (r (-0.25)) = lit 0 /\
  confidence (r 1.5) = lit 1 /\ confidence (r (-0.25)) = lit 0 /\
  risk_score (r 0.37) = lit 0.37.
Proof. vm_compute. repeat split. Qed.

(** * Further properties *)

(** ** The component scores *)

Lemma severity_value_range (severity : string) :
  0.25 <= default (lit 0.5) (_severity_values (R:=Q) !! severity) /\
  default (lit 0.5) (_severity_values (R:=Q) !! severity) <= 1.
Proof.
  unfold _severity_values.
  rewrite !list_to_map_cons, list_to_map_nil, !lookup_insert, lookup_empty.
  repeat case_decide; cbn; lra.
Qed.

Lemma criticality_value_range (c : SupplierCriticality.t) :
  0.25 <= default (lit 0.5) (_criticality_values (R:=Q) !! c) /\
  default (lit 0.5) (_criticality_values (R:=Q) !! c) <= 1.
Proof. destruct c; vm_compute; split; discriminate. Qed.

Lemma py_min_Q (a b : Q) :
  (b < a -> py_min a b = b) /\ (a <= b -> py_min a b = a).
Proof. unfold py_min. cbn. q_cases; split; intros; try reflexivity; lra. Qed.

Lemma py_max_Q (a b : Q) :
  (a < b -> py_max a b = b) /\ (b <= a -> py_max a b = a).
Proof. unfold py_max. cbn. q_cases; split; intros; try reflexivity; lra. Qed.

Lemma py_min_le_l (a b : Q) : py_min a b <= a.
Proof. unfold py_min. cbn. q_cases; lra. Qed.

Lemma py_min_glb (a b c : Q) : c <= a -> c <= b -> c <= py_min a b.
Proof. intros Ha Hb. unfold py_min. cbn. q_cases; lra. Qed.

(** [max] over a non-empty iterable. *)
Lemma py_max_of_bounds (lo hi x : Q) (l : list Q) :
  lo <= x -> x <= hi -> Forall (fun y => lo <= y /\ y <= hi) l ->
  lo <= py_max_of x l /\ py_max_of x l <= hi.
Proof.
  unfold py_max_of. intros Hlo Hhi Hl. revert x Hlo Hhi.
  induction Hl as [|y l [Hy0 Hy1] _ IH]; intros x Hlo Hhi; cbn [fold_left].
  - split; assumption.
  - apply IH; unfold py_max; cbn; q_cases; lra.
Qed.

Lemma py_max_of_ge_init (x : Q) (l : list Q) : x <= py_max_of x l.
Proof.
  unfold py_max_of. revert x. induction l as [|y l IH]; intros x; cbn [fold_left].
  - lra.
  - eapply Qle_trans; [|apply IH]. unfold py_max. cbn. q_cases; lra.
Qed.

Lemma py_max_of_ge_elem (x y : Q) (l : list Q) :
  y ∈ l -> y <= py_max_of x l.
Proof.
  unfold py_max_of. intros Hin. revert x.
  induction Hin as [y l|y z l _ IH]; intros x; cbn [fold_left].
  - eapply Qle_trans; [|apply (py_max_of_ge_init _ l)].
    unfold py_max. cbn. q_cases; lra.
  - apply IH.
Qed.

Lemma severity_score_bounds (event : Event.t Q) :
  0 <= default 1 (Event.confidence event) ->
  0 <= default 0.5 (Event.impact_score event) ->
  0 <= _calculate_severity_score event /\ _calculate_severity_score event <= 1.
Proof.
  intros Hc Hi. unfold _calculate_severity_score.
  destruct (severity_value_range (default "medium" (Event.severity event)))
    as [Hv0 Hv1].
  set (v := default (lit 0.5) (_severity_values !! _)) in *. clearbody v.
  change (default (lit 1.0) (Event.confidence event))
    with (default 1.0 (Event.confidence event)).
  change (default (lit 0.5) (Event.impact_score event))
    with (default 0.5 (Event.impact_score event)).
  assert (Hc' : 0 <= default 1.0 (Event.confidence event)).
  { destruct (Event.confidence event); [exact Hc | cbn; lra]. }
  set (c := default 1.0 (Event.confidence event)) in *. clearbody c.
  set (i := default 0.5 (Event.impact_score event)) in *. clearbody i.
  split.
  - apply py_min_glb; cbn; [lra|].
    apply Qmult_le_0_compat; [lra | exact Hc'].
  - eapply Qle_trans; [apply py_min_le_l | cbn; lra].
Qed.

(** X1: the severity score never exceeds 1, whatever the event; and it is
    not negative when the event's confidence and impact score (or their
    defaults) are not. *)
Theorem severity_score_range (event : Event.t Q) :
  _calculate_severity_score event <= 1 /\
  (0 <= default 1 (Event.confidence event) ->
   0 <= default 0.5 (Event.impact_score event) ->
   0 <= _calculate_severity_score event).
Proof.
  split.
  - unfold _calculate_severity_score.
    eapply Qle_trans; [apply py_min_le_l | cbn; lra].
  - intros Hc Hi. apply (severity_score_bounds event Hc Hi).
Qed.

Lemma severity_score_range_witness :
  0 <= _calculate_severity_score (R:=Q) scenario_event.
Proof.
  destruct (severity_score_range scenario_event) as [_ Hlow].
  apply Hlow; vm_compute; discriminate.
Defined.

Lemma inject_Z_length_pos {A} (x : A) (l : list A) :
  1 <= inject_Z (Z.of_nat (length (x :: l))).
Proof.
  change 1 with (inject_Z 1). rewrite <- Zle_Qle. cbn [length]. lia.
Qed.

Lemma criticality_max_range (s : Supplier Q) (rest : list (Supplier Q)) :
  let value_of (s : Supplier Q) :=
    default (lit 0.5) (_criticality_values !! criticality s) in
  0.25 <= py_max_of (value_of s) (value_of <$> rest) /\
  py_max_of (value_of s) (value_of <$> rest) <= 1.
Proof.
  intros value_of. apply py_max_of_bounds.
  - apply criticality_value_range.
  - apply criticality_value_range.
  - apply Forall_fmap, Forall_forall. intros x _. apply criticality_value_range.
Qed.

Lemma criticality_max_critical (s : Supplier Q) (rest : list (Supplier Q)) :
  let value_of (s : Supplier Q) :=
    default (lit 0.5) (_criticality_values !! criticality s) in
  (exists x, x ∈ s :: rest /\ criticality x = SupplierCriticality.CRITICAL) ->
  1 <= py_max_of (value_of s) (value_of <$> rest).
Proof.
  intros value_of (x & Hin & Hx).
  assert (Hvx : value_of x == 1) by (unfold value_of; rewrite Hx; reflexivity).
  apply elem_of_cons in Hin as [-> | Hin].
  - rewrite <- Hvx. apply py_max_of_ge_init.
  - rewrite <- Hvx. apply py_max_of_ge_elem, list_elem_of_fmap_2, Hin.
Qed.

Lemma criticality_score_bounds (s : Supplier Q) (rest : list (Supplier Q)) :
  let score := _calculate_criticality_score (s :: rest) in
  (0.3 <= score /\ score <= 1) /\
  ((exists x, x ∈ s :: rest /\ criticality x = SupplierCriticality.CRITICAL) ->
   score == 1).
Proof.
  intros score. subst score. unfold _calculate_criticality_score.
  pose proof (criticality_max_range s rest) as [Hm0 Hm1].
  pose proof (criticality_max_critical s rest) as Hcrit.
  cbn zeta in Hm0, Hm1, Hcrit.
  set (m := py_max_of _ _) in *. clearbody m.
  pose proof (inject_Z_length_pos s rest) as Hn.
  change (of_int (Z.of_nat (length (s :: rest))))
    with (inject_Z (Z.of_nat (length (s :: rest)))).
  set (n := inject_Z _) in *. clearbody n.
  unfold py_min. cbn. q_cases; cbn; repeat split; intros; try lra;
    match goal with
    | Hx : exists _, _ |- _ => specialize (Hcrit Hx); lra
    end.
Qed.

(** X2: the criticality score of a non-empty list of suppliers lies between
    0.3 and 1, and it is 1 as soon as one supplier is CRITICAL. *)
Theorem criticality_score_range (s : Supplier Q) (rest : list (Supplier Q)) :
  let score := _calculate_criticality_score (s :: rest) in
  (0.3 <= score /\ score <= 1) /\
  ((exists x, x ∈ s :: rest /\ criticality x = SupplierCriticality.CRITICAL) ->
   score == 1).
Proof. apply criticality_score_bounds. Qed.

Lemma criticality_score_range_witness :
  _calculate_criticality_score (R:=Q) [foundry; scenario_supplier] == 1.
Proof.
  destruct (criticality_score_range foundry [scenario_supplier])
    as [_ Hcritical].
  apply Hcritical. exists scenario_supplier. split; [|reflexivity].
  apply list_elem_of_further, list_elem_of_here.
Defined.

Lemma financial_score_range (suppliers : list (Supplier Q)) :
  0 <= _calculate_financial_score suppliers /\
  _calculate_financial_score suppliers <= 1.
Proof.
  unfold _calculate_financial_score. destruct suppliers as [|s rest].
  - cbn. lra.
  - set (total := py_sum _). clearbody total.
    cbn [leb PyNum_Q of_int lit]. q_cases; lra.
Qed.

(** X3: on non-empty lists the financial score is a step function of the
    total annual spend that never decreases when the spend grows; it takes
    the values 0.2, 0.4, 0.7 and 1 only. *)
Theorem financial_score_monotone (s1 s2 : Supplier Q)
    (rest1 rest2 : list (Supplier Q)) :
  let score1 := _calculate_financial_score (s1 :: rest1) in
  let score2 := _calculate_financial_score (s2 :: rest2) in
  (score1 == 0.2 \/ score1 == 0.4 \/ score1 == 0.7 \/ score1 == 1) /\
  (py_sum (annual_spend <$> s1 :: rest1) <= py_sum (annual_spend <$> s2 :: rest2) ->
   score1 <= score2).
Proof.
  intros score1 score2. subst score1 score2. unfold _calculate_financial_score.
  set (t1 := py_sum (annual_spend <$> s1 :: rest1)). clearbody t1.
  set (t2 := py_sum (annual_spend <$> s2 :: rest2)). clearbody t2.
  cbn [leb PyNum_Q of_int lit].
  q_cases; unfold inject_Z in *; (split; [|intros Hle]);
    try lra; auto 6 using Qeq_refl;
    try solve [ left; reflexivity
              | right; left; reflexivity
              | right; right; left; reflexivity
              | right; right; right; reflexivity ].
Qed.

Lemma financial_score_monotone_witness :
  _calculate_financial_score (R:=Q) [foundry]
  <= _calculate_financial_score [scenario_supplier; foundry].
Proof.
  destruct (financial_score_monotone foundry scenario_supplier [] [foundry])
    as [_ Hmono].
  apply Hmono. vm_compute. discriminate.
Defined.

Lemma weights_lookup :
  _weights (R:=Q) !!! "event_severity" = 0.30 /\
  _weights (R:=Q) !!! "supplier_criticality" = 0.30 /\
  _weights (R:=Q) !!! "financial_exposure" = 0.20 /\
  _weights (R:=Q) !!! "geographic_risk" = 0.20.
Proof. repeat split; reflexivity. Qed.

(** The weighted sum of [calculate_risk_score], before it is rounded. *)
Lemma composite_range (sev crit fin geo : Q) :
  0 <= sev /\ sev <= 1 -> 0 <= crit /\ crit <= 1 -> 0 <= fin /\ fin <= 1 ->
  0 <= geo /\ geo <= 1 ->
  0 <= 0.30 * sev + 0.30 * crit + 0.20 * fin + 0.20 * geo /\
  0.30 * sev + 0.30 * crit + 0.20 * fin + 0.20 * geo <= 1.
Proof. intros. lra. Qed.

Lemma criticality_score_unit (suppliers : list (Supplier Q)) :
  0 <= _calculate_criticality_score suppliers /\
  _calculate_criticality_score suppliers <= 1.
Proof.
  destruct suppliers as [|s rest].
  - cbn. lra.
  - pose proof (criticality_score_bounds s rest) as [[H0 H1] _].
    cbn zeta in H0, H1. lra.
Qed.

(** X4: when the event's confidence and impact score are not negative and
    the geographic risk factor lies in [0,1], the composite score returned
    by [calculate_risk_score] and its four components lie in [0,1]. *)
Theorem composite_score_range (event : Event.t Q)
    (suppliers : list (Supplier Q)) (geo : Q) :
  0 <= default 1 (Event.confidence event) ->
  0 <= default 0.5 (Event.impact_score event) ->
  0 <= geo -> geo <= 1 ->
  let r := calculate_risk_score event suppliers geo in
  (0 <= composite_score r /\ composite_score r <= 1) /\
  (0 <= cs_severity (component_scores r) /\
   cs_severity (component_scores r) <= 1) /\
  (0 <= cs_supplier_criticality (component_scores r) /\
   cs_supplier_criticality (component_scores r) <= 1) /\
  (0 <= cs_financial_exposure (component_scores r) /\
   cs_financial_exposure (component_scores r) <= 1) /\
  (0 <= cs_geographic (component_scores r) /\
   cs_geographic (component_scores r) <= 1).
Proof.
  intros Hc Hi Hg0 Hg1 r. subst r. unfold calculate_risk_score.
  cbn [composite_score component_scores cs_severity cs_supplier_criticality
       cs_financial_exposure cs_geographic].
  destruct weights_lookup as (-> & -> & -> & ->).
  pose proof (severity_score_bounds event Hc Hi) as Hsev.
  pose proof (criticality_score_unit suppliers) as Hcrit.
  pose proof (financial_score_range suppliers) as Hfin.
  set (sev := _calculate_severity_score event) in *. clearbody sev.
  set (crit := _calculate_criticality_score suppliers) in *. clearbody crit.
  set (fin := _calculate_financial_score suppliers) in *. clearbody fin.
  pose proof (composite_range sev crit fin geo Hsev Hcrit Hfin (conj Hg0 Hg1))
    as [Hcomp0 Hcomp1].
  repeat split; apply round3_range; first [assumption | lra].
Qed.

Lemma composite_score_range_witness :
  let r := calculate_risk_score (R:=Q) scenario_event [scenario_supplier] 0.5 in
  0 <= composite_score r /\ composite_score r <= 1.
Proof.
  apply (composite_score_range scenario_event [scenario_supplier] 0.5);
    vm_compute; discriminate.
Defined.

(** ** Level and urgency *)

(** X5: the level and the urgency returned by [calculate_risk_score] agree:
    a CRITICAL level comes with IMMEDIATE urgency, and an urgency other than
    IMMEDIATE is SHORT_TERM, MEDIUM_TERM or LONG_TERM exactly when the level
    is HIGH, MEDIUM or LOW. *)
Theorem level_urgency_agree (event : Event.t Q)
    (suppliers : list (Supplier Q)) (geo : Q) :
  let r := calculate_risk_score event suppliers geo in
  (rs_risk_level r = RiskLevel.CRITICAL ->
   rs_mitigation_urgency r = MitigationUrgency.IMMEDIATE) /\
  (rs_mitigation_urgency r <> MitigationUrgency.IMMEDIATE ->
   (rs_risk_level r = RiskLevel.HIGH <->
    rs_mitigation_urgency r = MitigationUrgency.SHORT_TERM) /\
   (rs_risk_level r = RiskLevel.MEDIUM <->
    rs_mitigation_urgency r = MitigationUrgency.MEDIUM_TERM) /\
   (rs_risk_level r = RiskLevel.LOW <->
    rs_mitigation_urgency r = MitigationUrgency.LONG_TERM)).
Proof.
  intros r. subst r. unfold calculate_risk_score.
  cbn [rs_risk_level rs_mitigation_urgency].
  set (composite := (_ + _)%py). clearbody composite.
  set (crit := _calculate_criticality_score suppliers). clearbody crit.
  unfold RiskLevel.from_score, _determine_urgency. cbn [leb PyNum_Q lit].
  q_cases; cbn [orb]; repeat split; intros; try congruence; try lra.
Qed.

Lemma level_urgency_agree_witness :
  rs_mitigation_urgency
    (calculate_risk_score (R:=Q) scenario_event [scenario_supplier] 0.5)
  = MitigationUrgency.IMMEDIATE.
Proof.
  destruct (level_urgency_agree scenario_event [scenario_supplier] 0.5)
    as [Hcritical _].
  apply Hcritical. reflexivity.
Defined.

(** X6: when one of the affected suppliers is CRITICAL, the urgency returned
    by [calculate_risk_score] is IMMEDIATE, whatever the event and the
    composite score. *)
Theorem critical_supplier_immediate (event : Event.t Q)
    (suppliers : list (Supplier Q)) (geo : Q) :
  (exists x, x ∈ suppliers /\ criticality x = SupplierCriticality.CRITICAL) ->
  rs_mitigation_urgency (calculate_risk_score event suppliers geo)
  = MitigationUrgency.IMMEDIATE.
Proof.
  intros Hx. unfold calculate_risk_score. cbn [rs_mitigation_urgency].
  set (composite := (_ + _)%py). clearbody composite.
  destruct suppliers as [|s rest].
  { destruct Hx as (x & Hin & _). apply elem_of_nil in Hin. contradiction. }
  pose proof (criticality_score_bounds s rest) as [_ Hone].
  cbn zeta in Hone. specialize (Hone Hx).
  set (crit := _calculate_criticality_score (s :: rest)) in *. clearbody crit.
  unfold _determine_urgency. cbn [leb PyNum_Q lit].
  q_cases; cbn [orb]; try reflexivity; lra.
Qed.

Lemma critical_supplier_immediate_witness :
  rs_mitigation_urgency
    (calculate_risk_score (R:=Q) (event_of_severity (Some "low"))
       [foundry; scenario_supplier] 0)
  = MitigationUrgency.IMMEDIATE.
Proof.
  apply critical_supplier_immediate. exists scenario_supplier. split.
  - apply list_elem_of_further, list_elem_of_here.
  - reflexivity.
Defined.

(** ** The impact estimates *)

Lemma severity_base_delay_cases (severity : option string) :
  severity_base_delay severity = 14%Z \/ severity_base_delay severity = 7%Z \/
  severity_base_delay severity = 3%Z \/ severity_base_delay severity = 1%Z.
Proof.
  unfold severity_base_delay. destruct severity as [s|]; [|auto].
  repeat match goal with
  | |- context [String.eqb ?a ?b] => destruct (String.eqb a b)
  end; auto.
Qed.

(** X7: for a composite score in [0,1] the estimated delay lies between the
    base delay of the event's severity and twice that delay; it is at least
    one day. *)
Theorem delay_range (event : Event.t Q) (composite : Q) :
  0 <= composite -> composite <= 1 ->
  let base := severity_base_delay (Event.severity event) in
  let d := _estimate_delay_days event composite in
  (base <= d)%Z /\ (d <= 2 * base)%Z /\ (1 <= d)%Z.
Proof.
  intros H0 H1 base d.
  assert (Hd : d = Qtrunc (inject_Z base * (1 + composite))).
  { subst d base. unfold _estimate_delay_days.
    rewrite severity_delays_lookup. reflexivity. }
  assert (Hbase : (1 <= base)%Z).
  { subst base.
    destruct (severity_base_delay_cases (Event.severity event))
      as [-> | [-> | [-> | ->]]]; lia. }
  assert (Hx : inject_Z base <= inject_Z base * (1 + composite) /\
               inject_Z base * (1 + composite) <= inject_Z (2 * base)).
  { rewrite inject_Z_mult. subst base.
    destruct (severity_base_delay_cases (Event.severity event))
      as [-> | [-> | [-> | ->]]]; unfold inject_Z; lra. }
  destruct Hx as [Hlo Hhi].
  assert (Hpos : 0 <= inject_Z base * (1 + composite)).
  { eapply Qle_trans; [|exact Hlo]. change 0 with (inject_Z 0).
    rewrite <- Zle_Qle. lia. }
  rewrite Hd, (Qtrunc_floor _ Hpos).
  apply Qfloor_resp_le in Hlo, Hhi. rewrite Qfloor_Z in Hlo, Hhi. lia.
Qed.

Lemma delay_range_witness :
  let d := _estimate_delay_days (R:=Q) scenario_event 0.843 in
  (14 <= d)%Z /\ (d <= 2 * 14)%Z /\ (1 <= d)%Z.
Proof.
  apply (delay_range scenario_event 0.843); vm_compute; discriminate.
Defined.

(** Rounding to the nearest moves a number by one half at most. *)
Lemma round_half_even_near (q : Q) :
  q - (1 # 2) <= inject_Z (round_half_even q) /\
  inject_Z (round_half_even q) <= q + (1 # 2).
Proof.
  unfold round_half_even.
  pose proof (Qfloor_le q) as Hfl. pose proof (Qlt_floor q) as Hlt.
  rewrite inject_Z_plus in Hlt. change (inject_Z 1) with 1 in Hlt.
  destruct (Qcompare (q - inject_Z (Qfloor q)) (1 # 2)) eqn:E.
  - apply Qeq_alt in E. destruct (Z.even _).
    + lra.
    + rewrite inject_Z_plus. change (inject_Z 1) with 1. lra.
  - apply Qlt_alt in E. lra.
  - apply Qgt_alt in E. rewrite inject_Z_plus. change (inject_Z 1) with 1. lra.
Qed.

Lemma Q_hundredths (n : Z) : n # 100 == inject_Z n * (1 # 100).
Proof. unfold Qeq, Qmult, inject_Z. cbn. lia. Qed.

Lemma round2_near (x : Q) :
  x - (1 # 200) <= round_nd 2 x /\ round_nd 2 x <= x + (1 # 200).
Proof.
  cbn. unfold Qround_nd. change (pow10 2) with 100%positive.
  rewrite Q_hundredths.
  pose proof (round_half_even_near (x * inject_Z 100)) as [Hlo Hhi].
  set (k := inject_Z (round_half_even (x * inject_Z 100))) in *. clearbody k.
  change (inject_Z 100) with 100 in Hlo, Hhi. split; lra.
Qed.

Lemma Qmult_between (w k : Q) :
  0 <= w -> 1 <= k -> k <= 4 -> w <= w * k /\ w * k <= 4 * w.
Proof. intros Hw Hk1 Hk4. split; nra. Qed.

(** X8: without suppliers the estimated financial impact is 0; otherwise,
    for a risk score in [0,1] and a total annual spend that is not negative,
    it lies between one and four weeks of that spend (a week being one 52nd
    of the year), up to the half cent of the rounding. *)
Theorem financial_impact_range (s : Supplier Q) (rest : list (Supplier Q))
    (risk_score : Q) :
  0 <= risk_score -> risk_score <= 1 ->
  0 <= py_sum (annual_spend <$> s :: rest) ->
  let weekly := py_sum (annual_spend <$> s :: rest) / 52 in
  let impact := _estimate_financial_impact (s :: rest) risk_score in
  _estimate_financial_impact [] risk_score = 0 /\
  weekly - (1 # 200) <= impact /\ impact <= 4 * weekly + (1 # 200).
Proof.
  intros H0 H1 Ht weekly impact. split; [reflexivity|].
  subst impact weekly. unfold _estimate_financial_impact.
  set (total := py_sum (annual_spend <$> s :: rest)) in *. clearbody total.
  cbn [add mul div of_int PyNum_Q].
  change (inject_Z 52) with 52. change (inject_Z 1) with 1.
  change (inject_Z 3) with 3.
  assert (Hw : 0 <= total / 52).
  { unfold Qdiv. apply Qmult_le_0_compat; [exact Ht | vm_compute; discriminate]. }
  set (w := total / 52) in *. clearbody w.
  destruct (Qmult_between w (1 + risk_score * 3) Hw) as [Hlo Hhi]; [lra | lra |].
  destruct (round2_near (w * (1 + risk_score * 3))) as [Hr0 Hr1].
  set (x := w * (1 + risk_score * 3)) in *. clearbody x.
  split; lra.
Qed.

Lemma financial_impact_range_witness :
  let impact := _estimate_financial_impact (R:=Q) [scenario_supplier] 0.843 in
  12000000 / 52 - (1 # 200) <= impact /\
  impact <= 4 * (12000000 / 52) + (1 # 200).
Proof.
  destruct (financial_impact_range scenario_supplier [] 0.843) as [_ Hr];
    [vm_compute; discriminate ..|].
  exact Hr.
Defined.

(** ** The classifier *)

Lemma category_mapping_cases {R} `{PyNum R} (event : Event.t R) :
  get_risk_type event <> RiskType.QUALITY.
Proof.
  unfold get_risk_type, category_mapping.
  rewrite !list_to_map_cons, list_to_map_nil, !lookup_insert, lookup_empty.
  repeat case_decide; discriminate.
Qed.

Lemma strategies_of_type {R} `{PyNum R} (risk : Risk R) :
  (risk_type risk <> RiskType.QUALITY -> length (_get_strategies risk) = 3%nat) /\
  (risk_type risk = RiskType.QUALITY -> _get_strategies risk = []).
Proof.
  unfold _get_strategies. destruct (risk_type risk); split; intros Ht;
    first [congruence | reflexivity].
Qed.

(** X9: [get_risk_type] never yields QUALITY, the one type without
    mitigation templates: a risk typed by it always gets exactly three
    strategies from the classifier, a QUALITY risk gets none. *)
Theorem typed_risks_get_three_strategies {R} `{PyNum R} (event : Event.t R) :
  get_risk_type event <> RiskType.QUALITY /\
  (forall risk : Risk R,
     risk_type risk = get_risk_type event ->
     length (_get_strategies risk) = 3%nat) /\
  (forall risk : Risk R,
     risk_type risk = RiskType.QUALITY -> _get_strategies risk = []).
Proof.
  split; [apply category_mapping_cases|]. split.
  - intros risk Ht. apply strategies_of_type. rewrite Ht.
    apply category_mapping_cases.
  - intros risk. apply strategies_of_type.
Qed.

Lemma typed_risks_get_three_strategies_witness :
  length (_get_strategies (R:=Q) sample_risk) = 3%nat.
Proof.
  destruct (typed_risks_get_three_strategies (R:=Q) logistics_event)
    as (_ & Htyped & _).
  apply Htyped. reflexivity.
Defined.

Lemma level_base_lookup (l : RiskLevel.t) :
  default 7%Z (level_base !! l)
  = match l with
    | RiskLevel.CRITICAL => 1 | RiskLevel.HIGH => 4
    | RiskLevel.MEDIUM => 7 | RiskLevel.LOW => 10
    end%Z.
Proof. destruct l; reflexivity. Qed.

Lemma urgency_adjust_lookup (u : MitigationUrgency.t) :
  default 0%Z (urgency_adjust !! u)
  = match u with
    | MitigationUrgency.IMMEDIATE => -1 | MitigationUrgency.SHORT_TERM => 0
    | MitigationUrgency.MEDIUM_TERM => 1 | MitigationUrgency.LONG_TERM => 2
    end%Z.
Proof. destruct u; reflexivity. Qed.

Lemma priority_window {R} `{PyNum R} (risk : Risk R) :
  let base := match risk_level risk with
              | RiskLevel.CRITICAL => 1 | RiskLevel.HIGH => 4
              | RiskLevel.MEDIUM => 7 | RiskLevel.LOW => 10
              end%Z in
  (Z.max 1 (base - 3) <= _calculate_priority risk)%Z /\
  (_calculate_priority risk <= base + 2)%Z.
Proof.
  unfold _calculate_priority.
  rewrite level_base_lookup, urgency_adjust_lookup.
  destruct (risk_level risk), (mitigation_urgency risk),
    (has_critical_suppliers risk),
    (estimated_financial_impact risk >? of_int 1000000)%py; cbn; lia.
Qed.

(** X10: the priority number is at least 1 and stays within the band of the
    risk level: a CRITICAL risk gets 1 to 3 and is always labelled IMMEDIATE,
    a HIGH risk gets 1 to 6 (IMMEDIATE or HIGH), a MEDIUM risk 4 to 9 (HIGH
    or MEDIUM), a LOW risk 7 to 12 (MEDIUM or LOW). *)
Theorem priority_bands {R} `{PyNum R} (risk : Risk R) :
  let p := _calculate_priority risk in
  let label := _get_priority_label p in
  (1 <= p)%Z /\
  (risk_level risk = RiskLevel.CRITICAL ->
   (p <= 3)%Z /\ label = "IMMEDIATE") /\
  (risk_level risk = RiskLevel.HIGH ->
   (p <= 6)%Z /\ (label = "IMMEDIATE" \/ label = "HIGH")) /\
  (risk_level risk = RiskLevel.MEDIUM ->
   (4 <= p)%Z /\ (p <= 9)%Z /\ (label = "HIGH" \/ label = "MEDIUM")) /\
  (risk_level risk = RiskLevel.LOW ->
   (7 <= p)%Z /\ (p <= 12)%Z /\ (label = "MEDIUM" \/ label = "LOW")).
Proof.
  intros p label. pose proof (priority_window risk) as [Hlo Hhi].
  cbn zeta in Hlo, Hhi. fold p in Hlo, Hhi. subst label.
  unfold _get_priority_label. clearbody p.
  destruct (risk_level risk); repeat split; intros; try discriminate; try lia;
    repeat match goal with
    | |- context [(?a <=? ?b)%Z] => destruct (Z.leb_spec a b)
    end; try lia; auto.
Qed.

Lemma priority_bands_witness :
  (_calculate_priority (R:=Q) sample_risk <= 6)%Z.
Proof.
  destruct (priority_bands (R:=Q) sample_risk) as (_ & _ & Hhigh & _).
  apply Hhigh. reflexivity.
Defined.

Lemma numbered_snoc (items : list ActionItem.t) (a o : string) :
  numbered items ->
  numbered (items ++ [{| ActionItem.action := a; ActionItem.owner := o;
                         ActionItem.priority :=
                           (Z.of_nat (length items) + 1)%Z |}])%list.
Proof.
  intros Hn i item Hi. apply lookup_app_Some in Hi as [Hi | [Hge Hi]].
  - apply Hn, Hi.
  - apply list_lookup_singleton_Some in Hi as [Hi <-]. cbn.
    replace i with (length items) by lia. reflexivity.
Qed.

Lemma strategy_items (strategies : list string) (items : list ActionItem.t) :
  let result :=
    fold_left
      (fun (action_items : list ActionItem.t) strategy =>
         (action_items ++
          [{| ActionItem.action := strategy;
              ActionItem.owner := "Supply Chain";
              ActionItem.priority :=
                (Z.of_nat (length action_items) + 1)%Z |}])%list)
      strategies items in
  (numbered items -> numbered result) /\
  length result = (length items + length strategies)%nat.
Proof.
  revert items. induction strategies as [|s strategies IH]; intros items.
  - cbn. split; [auto | lia].
  - cbn [fold_left]. destruct (IH (items ++ [
      {| ActionItem.action := s; ActionItem.owner := "Supply Chain";
         ActionItem.priority := (Z.of_nat (length items) + 1)%Z |}])%list)
      as [IHn IHl].
    split.
    + intros Hn. apply IHn, numbered_snoc, Hn.
    + rewrite IHl, length_app. cbn [length]. lia.
Qed.

(** X11: the action items of a risk are numbered 1, 2, 3, ... in their
    order; there is one per affected supplier (three at most), one per
    strategy, and the monitoring action comes last. *)
Theorem action_items_numbered {R} `{PyNum R} (risk : Risk R)
    (strategies : list string) :
  let items := _generate_action_items risk strategies in
  numbered items /\
  length items
  = (min 3 (length (affected_suppliers risk)) + length strategies + 1)%nat /\
  last items
  = Some {| ActionItem.action := "Monitor situation for updates";
            ActionItem.owner := "Risk Management";
            ActionItem.priority := Z.of_nat (length items) |}.
Proof.
  intros items. subst items. unfold _generate_action_items.
  set (contacts := imap _ (take 3 (affected_suppliers risk))).
  assert (Hcontacts : numbered contacts).
  { intros i item Hi. subst contacts. rewrite list_lookup_imap in Hi.
    destruct (take 3 (affected_suppliers risk) !! i); [|discriminate].
    cbn in Hi. injection Hi as <-. reflexivity. }
  assert (Hlen : length contacts = min 3 (length (affected_suppliers risk))).
  { subst contacts. rewrite length_imap, length_take. reflexivity. }
  destruct (strategy_items strategies contacts) as [Hn Hl].
  cbn zeta in Hn, Hl.
  set (body := fold_left _ strategies contacts) in *.
  split; [apply numbered_snoc, Hn, Hcontacts|]. split.
  - rewrite length_app, Hl, Hlen. cbn [length]. lia.
  - rewrite last_snoc, length_app. cbn [length]. do 2 f_equal. lia.
Qed.

(** X12: in a classification, escalation is required exactly when the
    escalation level is "Director Level", "VP Supply Chain" or "Executive
    Leadership"; "VP Supply Chain" is named only when a CRITICAL supplier is
    affected. *)
Theorem escalation_consistent {R} `{PyNum R} (risk : Risk R) :
  let c := classify_risk risk in
  let level := Classification.escalation_level (Classification.esc c) in
  (Classification.required (Classification.esc c) = true <->
   level = "Executive Leadership" \/ level = "VP Supply Chain" \/
   level = "Director Level") /\
  (Classification.required (Classification.esc c) = false <->
   level = "Manager Level" \/ level = "Team Lead") /\
  (level = "VP Supply Chain" -> has_critical_suppliers risk = true).
Proof.
  cbn. unfold _get_escalation_level.
  destruct (risk_level risk), (has_critical_suppliers risk); cbn;
    repeat split; intros; try discriminate; try reflexivity; auto;
    repeat match goal with
    | Hx : _ \/ _ |- _ => destruct Hx
    end; discriminate.
Qed.

Lemma escalation_consistent_witness :
  has_critical_suppliers (R:=Q) sample_risk = true.
Proof.
  destruct (escalation_consistent (R:=Q) sample_risk) as (_ & _ & Hvp).
  apply Hvp. reflexivity.
Defined.

(** ** Sorting *)

Section SortingFacts.
Context {A K : Type} (key_ltb : K -> K -> bool) (key : A -> K).
Hypothesis key_ltb_asym :
  forall a b, key_ltb a b = true -> key_ltb b a = false.

Lemma py_insert_by_perm (x : A) (l : list A) :
  py_insert_by key_ltb key x l ≡ₚ x :: l.
Proof.
  induction l as [|y l IH]; cbn; [reflexivity|].
  destruct (key_ltb (key x) (key y)); [reflexivity|].
  rewrite IH. apply Permutation_swap.
Qed.

Lemma py_sort_by_perm_acc (l acc : list A) :
  fold_left (fun sorted x => py_insert_by key_ltb key x sorted) l acc
  ≡ₚ acc ++ l.
Proof.
  revert acc. induction l as [|x l IH]; intros acc; cbn [fold_left].
  - rewrite app_nil_r. reflexivity.
  - rewrite IH, py_insert_by_perm. apply Permutation_middle.
Qed.

Lemma py_sort_by_perm (l : list A) : py_sort_by key_ltb key l ≡ₚ l.
Proof. unfold py_sort_by. rewrite py_sort_by_perm_acc. reflexivity. Qed.

Lemma py_insert_by_hd (x y : A) (l : list A) :
  (key_ordered key_ltb key) y x -> HdRel (key_ordered key_ltb key) y l ->
  HdRel (key_ordered key_ltb key) y (py_insert_by key_ltb key x l).
Proof.
  intros Hyx Hl. destruct l as [|z l]; cbn.
  - constructor. exact Hyx.
  - destruct (key_ltb (key x) (key z)); constructor.
    + exact Hyx.
    + inversion Hl; assumption.
Qed.

Lemma py_insert_by_sorted (x : A) (l : list A) :
  Sorted (key_ordered key_ltb key) l ->
  Sorted (key_ordered key_ltb key) (py_insert_by key_ltb key x l).
Proof.
  induction 1 as [|y l Hs IH Hhd]; cbn.
  - repeat constructor.
  - destruct (key_ltb (key x) (key y)) eqn:E.
    + constructor; [constructor; assumption|]. constructor.
      apply key_ltb_asym, E.
    + constructor; [exact IH|]. apply py_insert_by_hd; [exact E | exact Hhd].
Qed.

Lemma py_sort_by_sorted (l : list A) :
  Sorted (key_ordered key_ltb key) (py_sort_by key_ltb key l).
Proof.
  unfold py_sort_by.
  assert (Hacc : forall acc, Sorted (key_ordered key_ltb key) acc ->
            Sorted (key_ordered key_ltb key)
              (fold_left (fun sorted x => py_insert_by key_ltb key x sorted)
                         l acc)).
  { induction l as [|x l IH]; intros acc Hs; cbn [fold_left]; [exact Hs|].
    apply IH, py_insert_by_sorted, Hs. }
  apply Hacc. constructor.
Qed.

End SortingFacts.

Lemma Sorted_weaken {A} (P Q : A -> A -> Prop) (l : list A) :
  (forall a b, P a b -> Q a b) -> Sorted P l -> Sorted Q l.
Proof.
  intros HPQ. induction 1 as [|x l Hs IH Hhd]; constructor; [exact IH|].
  destruct Hhd; constructor. apply HPQ. assumption.
Qed.

Lemma RiskLevel_value_inj (a b : RiskLevel.t) :
  RiskLevel.value a = RiskLevel.value b -> a = b.
Proof. destruct a, b; cbn; intros Hv; first [reflexivity | discriminate Hv]. Qed.

(** Appending to the list under a key leaves the other keys alone. *)
Lemma bucket_fold_lookup {A B} (key : A -> string) (g : A -> B)
    (rs : list A) (m : gmap string (list B)) (k : string) :
  fold_left (fun m r => alter (fun entries => entries ++ [g r])%list (key r) m)
            rs m !! k
  = (fun entries =>
       (entries ++ (g <$> List.filter (fun r => bool_decide (key r = k)) rs))%list)
    <$> m !! k.
Proof.
  revert m. induction rs as [|r rs IH]; intros m; cbn [fold_left List.filter].
  - destruct (m !! k); cbn; [rewrite app_nil_r|]; reflexivity.
  - rewrite IH, lookup_alter.
    case_bool_decide as Hk; case_decide; try congruence.
    subst k. destruct (m !! key r); cbn; [|reflexivity].
    rewrite <- app_assoc. reflexivity.
Qed.

Lemma risk_matrix_lookup {R} `{PyNum R} (a : RiskAssessment.t R)
    (l : RiskLevel.t) :
  create_risk_matrix a !! RiskLevel.value l
  = Some (py_sort_by Z.ltb MatrixEntry.priority
            (matrix_entry <$>
             List.filter (fun r => bool_decide (risk_level r = l))
                         (RiskAssessment.risks a))).
Proof.
  unfold create_risk_matrix. rewrite lookup_fmap, bucket_fold_lookup.
  assert (Hinit : (list_to_map [("critical", []); ("high", []); ("medium", []);
                                ("low", [])]
                   : gmap string (list (MatrixEntry.t R)))
                  !! RiskLevel.value l = Some []).
  { destruct l; reflexivity. }
  rewrite Hinit. cbn [fmap option_fmap option_map app]. do 3 f_equal.
  induction (RiskAssessment.risks a) as [|r rs IH]; cbn [List.filter];
    [reflexivity|].
  rewrite IH. repeat case_bool_decide; try reflexivity.
  - exfalso. eauto using RiskLevel_value_inj.
  - exfalso. congruence.
Qed.

(** X13: in the risk matrix, the list under a level holds one entry for each
    risk of that level in the assessment and no other, sorted by priority
    number; the matrix has the four levels as its keys. *)
Theorem risk_matrix_buckets {R} `{PyNum R} (a : RiskAssessment.t R)
    (l : RiskLevel.t) :
  dom (create_risk_matrix a)
  = list_to_set ["critical"; "high"; "medium"; "low"] /\
  exists entries,
    create_risk_matrix a !! RiskLevel.value l = Some entries /\
    entries ≡ₚ matrix_entry <$>
               List.filter (fun r => bool_decide (risk_level r = l))
                           (RiskAssessment.risks a) /\
    Sorted (fun e1 e2 => (MatrixEntry.priority e1 <= MatrixEntry.priority e2)%Z)
           entries.
Proof.
  split.
  - unfold create_risk_matrix. rewrite dom_fmap_L.
    induction (RiskAssessment.risks a) as [|r rs IH] using rev_ind.
    + reflexivity.
    + rewrite fold_left_app. cbn [fold_left]. rewrite dom_alter_L. exact IH.
  - eexists. split; [apply risk_matrix_lookup|]. split.
    + apply py_sort_by_perm.
    + eapply Sorted_weaken; [|apply py_sort_by_sorted].
      * unfold key_ordered. intros e1 e2 Hlt. apply Z.ltb_ge in Hlt. exact Hlt.
      * intros x y Hxy. apply Z.ltb_lt in Hxy. apply Z.ltb_ge. lia.
Qed.

(** ** Lists of alerts *)

Lemma determine_priority_is_some {R} `{PyNum R} (self : AlertGenerator R)
    (risk : Risk R) :
  exists p, _determine_priority self risk = Some p.
Proof.
  unfold _determine_priority.
  repeat case_bool_decide; cbn [orb];
    repeat match goal with
    | |- context [if ?b then _ else _] => destruct b; cbn [orb]
    end; eauto.
  destruct (risk_level risk); congruence.
Qed.

Lemma generate_alert_spec {R} `{PyNum R}
    (format_2f format_money : R -> string) (str_of_int : Z -> string)
    (self : AlertGenerator R) (uuid_bits : N) (now : datetime) (risk : Risk R) :
  exists a,
    generate_alert format_2f format_money str_of_int self uuid_bits now risk
    = Some a /\
    _risk a = risk /\ alert_risk_id a = risk_id risk /\
    _determine_priority self risk = Some (priority a).
Proof.
  destruct (determine_priority_is_some self risk) as [p Hp].
  unfold generate_alert. rewrite Hp. eexists. split; [reflexivity|].
  repeat split.
Qed.

Lemma collect_alerts_risks {R} `{PyNum R}
    (format_2f format_money : R -> string) (str_of_int : Z -> string)
    (self : AlertGenerator R) (draw : nat -> N) (now : nat -> datetime)
    (i : nat) (risks : list (Risk R)) :
  let alerts :=
    collect_alerts format_2f format_money str_of_int self draw now i risks in
  _risk <$> alerts = risks /\
  Forall (fun a => _determine_priority self (_risk a) = Some (priority a) /\
                   alert_risk_id a = risk_id (_risk a)) alerts.
Proof.
  revert i. induction risks as [|risk rest IH]; intros i; cbn.
  - split; [reflexivity | constructor].
  - destruct (generate_alert_spec format_2f format_money str_of_int self
                (draw i) (now i) risk) as (a & -> & Hr & Hid & Hp).
    destruct (IH (S i)) as [IHr IHf]. split.
    + cbn. rewrite Hr. f_equal. exact IHr.
    + constructor; [|exact IHf]. rewrite Hr. split; assumption.
Qed.

Lemma String_ltb_asym (a b : string) :
  String.ltb a b = true -> String.ltb b a = false.
Proof.
  unfold String.ltb. rewrite (String.compare_antisym b a).
  destruct (String.compare a b); cbn; congruence.
Qed.

(** X14: [generate_alerts] returns one alert per risk of its input; the
    alerts are sorted by priority, P1 first, and each one carries the
    priority [_determine_priority] gives to its risk and that risk's id. *)
Theorem generate_alerts_sorted {R} `{PyNum R}
    (format_2f format_money : R -> string) (str_of_int : Z -> string)
    (self : AlertGenerator R) (draw : nat -> N) (now : nat -> datetime)
    (risks : list (Risk R)) :
  let alerts :=
    generate_alerts format_2f format_money str_of_int self draw now risks in
  _risk <$> alerts ≡ₚ risks /\
  length alerts = length risks /\
  Sorted (fun a b => (priority_rank (priority a) <= priority_rank (priority b))%Z)
         alerts /\
  Forall (fun a => _determine_priority self (_risk a) = Some (priority a) /\
                   alert_risk_id a = risk_id (_risk a)) alerts.
Proof.
  intros alerts. subst alerts. unfold generate_alerts.
  destruct (collect_alerts_risks format_2f format_money str_of_int self draw
              now 0 risks) as [Hr Hf].
  cbn zeta in Hr, Hf.
  set (collected := collect_alerts _ _ _ _ _ _ _ _) in *.
  pose proof (py_sort_by_perm String.ltb
                (fun a : Alert R => AlertPriority.value (priority a))
                collected) as Hperm.
  assert (Hrisks : _risk <$> py_sort_by String.ltb
                     (fun a : Alert R => AlertPriority.value (priority a))
                     collected ≡ₚ risks).
  { rewrite Hperm. rewrite Hr. reflexivity. }
  split; [exact Hrisks|]. split.
  - apply Permutation_length in Hrisks. rewrite length_fmap in Hrisks.
    exact Hrisks.
  - split.
    + eapply Sorted_weaken; [|apply py_sort_by_sorted, String_ltb_asym].
      unfold key_ordered. intros a b.
      destruct (priority a), (priority b); cbn; intros Hlt;
        first [lia | discriminate Hlt].
    + rewrite Hperm. exact Hf.
Qed.

Lemma channel_map_lookup (p : AlertPriority.t) :
  list_or (Some (default [AlertChannel.DASHBOARD] (_channel_map !! p)))
          [AlertChannel.DASHBOARD]
  = match p with
    | AlertPriority.P1 =>
        [AlertChannel.DASHBOARD; AlertChannel.EMAIL; AlertChannel.SMS]
    | AlertPriority.P2 | AlertPriority.P3 =>
        [AlertChannel.DASHBOARD; AlertChannel.EMAIL]
    | AlertPriority.P4 => [AlertChannel.DASHBOARD]
    end.
Proof. destruct p; reflexivity. Qed.

Lemma recipient_map_lookup (p : AlertPriority.t) :
  list_or (Some (default [] (_recipient_map !! p))) [] <> [].
Proof. destruct p; vm_compute; discriminate. Qed.

(** X15: every alert is shown on the dashboard and has at least one
    recipient; it is sent by e-mail unless its priority is P4, by SMS exactly
    when its priority is P1, and never to Slack. *)
Theorem alert_routing {R} `{PyNum R}
    (format_2f format_money : R -> string) (str_of_int : Z -> string)
    (self : AlertGenerator R) (uuid_bits : N) (now : datetime) (risk : Risk R)
    (a : Alert R) :
  generate_alert format_2f format_money str_of_int self uuid_bits now risk
  = Some a ->
  AlertChannel.DASHBOARD ∈ channels a /\
  (AlertChannel.EMAIL ∈ channels a <-> priority a <> AlertPriority.P4) /\
  (AlertChannel.SMS ∈ channels a <-> priority a = AlertPriority.P1) /\
  (AlertChannel.SLACK ∉ channels a) /\
  recipients a <> [].
Proof.
  unfold generate_alert. destruct (_determine_priority self risk) as [p|];
    [|discriminate]. intros Ha. injection Ha as <-.
  cbn [Alert_init channels recipients priority].
  rewrite channel_map_lookup.
  split; [destruct p; apply list_elem_of_here|].
  split; [|split; [|split; [|apply recipient_map_lookup]]].
  - destruct p; rewrite ?elem_of_cons, ?elem_of_nil; split; intros Hx;
      try discriminate; try congruence; auto;
      repeat match goal with
      | Hy : _ \/ _ |- _ => destruct Hy
      | Hy : False |- _ => destruct Hy
      end; discriminate.
  - destruct p; rewrite ?elem_of_cons, ?elem_of_nil; split; intros Hx;
      try discriminate; try congruence; auto;
      repeat match goal with
      | Hy : _ \/ _ |- _ => destruct Hy
      | Hy : False |- _ => destruct Hy
      end; discriminate.
  - destruct p; rewrite ?elem_of_cons, ?elem_of_nil; intros Hx;
      repeat match goal with
      | Hy : _ \/ _ |- _ => destruct Hy
      | Hy : False |- _ => destruct Hy
      end; discriminate.
Qed.

Lemma AlertPriority_value_inj (a b : AlertPriority.t) :
  AlertPriority.value a = AlertPriority.value b -> a = b.
Proof. destruct a, b; cbn; intros Hv; first [reflexivity | discriminate Hv]. Qed.

(** The counting loop: the count under a key grows by the number of alerts
    of that priority. *)
Lemma priority_counts_fold {R} `{PyNum R} (alerts : list (Alert R))
    (m : gmap string Z) (p : AlertPriority.t) :
  default 0%Z
    (fold_left
       (fun counts alert =>
          let k := AlertPriority.value (priority alert) in
          <[k := (default 0 (counts !! k) + 1)%Z]> counts)
       alerts m !! AlertPriority.value p)
  = (default 0 (m !! AlertPriority.value p) +
     Z.of_nat (length (List.filter (fun a => bool_decide (priority a = p))
                                   alerts)))%Z.
Proof.
  revert m. induction alerts as [|a alerts IH]; intros m;
    cbn [fold_left List.filter length].
  - lia.
  - rewrite IH. cbn zeta. rewrite lookup_insert.
    case_decide as Hk; case_bool_decide as Hp; cbn [default from_option id length].
    + rewrite Hk. lia.
    + apply AlertPriority_value_inj in Hk. congruence.
    + subst p. congruence.
    + lia.
Qed.

Lemma priority_counts_lookup {R} `{PyNum R} (alerts : list (Alert R))
    (p : AlertPriority.t) :
  default 0%Z (priority_counts alerts !! AlertPriority.value p)
  = Z.of_nat (length (List.filter (fun a => bool_decide (priority a = p))
                                  alerts)).
Proof.
  unfold priority_counts. rewrite priority_counts_fold, lookup_empty.
  cbn. lia.
Qed.

(** X16: in the summary of a list of alerts, the number of alerts requiring
    immediate action is the sum of the P1 and P2 counts, and the total is the
    sum of the counts of the four priorities. *)
Theorem alert_summary_counts {R} `{PyNum R} (alerts : list (Alert R)) :
  let s := get_alert_summary alerts in
  AlertSummary.requiring_immediate_action s
  = (AlertSummary.p1_count s + AlertSummary.p2_count s)%Z /\
  AlertSummary.total_alerts s
  = (default 0 (AlertSummary.by_priority s !! "P1") +
     default 0 (AlertSummary.by_priority s !! "P2") +
     default 0 (AlertSummary.by_priority s !! "P3") +
     default 0 (AlertSummary.by_priority s !! "P4"))%Z.
Proof.
  cbn.
  pose proof (priority_counts_lookup alerts AlertPriority.P1) as H1.
  pose proof (priority_counts_lookup alerts AlertPriority.P2) as H2.
  pose proof (priority_counts_lookup alerts AlertPriority.P3) as H3.
  pose proof (priority_counts_lookup alerts AlertPriority.P4) as H4.
  cbn [AlertPriority.value] in H1, H2, H3, H4. rewrite H1, H2, H3, H4.
  clear H1 H2 H3 H4.
  induction alerts as [|a alerts [IH1 IH2]]; cbn [List.filter length].
  - split; reflexivity.
  - destruct (priority a); cbn [bool_decide orb length] in *;
      repeat case_bool_decide; try congruence; cbn [orb length]; split; lia.
Qed.

Lemma alert_routing_witness :
  exists a,
    generate_alert (R:=Q) (fun _ => "") (fun _ => "") (fun _ => "")
      (AlertGenerator_init None None None) 7 0%Z sample_risk = Some a /\
    AlertChannel.DASHBOARD ∈ channels a /\
    (AlertChannel.EMAIL ∈ channels a <-> priority a <> AlertPriority.P4) /\
    (AlertChannel.SMS ∈ channels a <-> priority a = AlertPriority.P1) /\
    (AlertChannel.SLACK ∉ channels a) /\
    recipients a <> [].
Proof.
  eexists. split; [reflexivity|].
  apply (alert_routing (fun _ => "") (fun _ => "") (fun _ => "")
           (AlertGenerator_init None None None) 7 0%Z sample_risk).
  reflexivity.
Defined.

(** ** Risk assessments *)

Lemma RiskType_value_inj (a b : RiskType.t) :
  RiskType.value a = RiskType.value b -> a = b.
Proof. destruct a, b; cbn; intros Hv; first [reflexivity | discriminate Hv]. Qed.

Lemma count_up_lookup (k k' : string) (counts : gmap string Z) :
  default 0%Z (RiskAssessment.count_up k counts !! k')
  = (default 0 (counts !! k') + if bool_decide (k = k') then 1 else 0)%Z.
Proof.
  unfold RiskAssessment.count_up. rewrite lookup_insert.
  case_decide; case_bool_decide; try congruence; subst;
    cbn [default from_option id]; lia.
Qed.

Lemma summary_loop_counts {R} `{PyNum R} (rs : list (Risk R))
    (a : RiskAssessment.acc) (l : RiskLevel.t) (t : RiskType.t) :
  let a' := fold_left RiskAssessment.summary_step rs a in
  default 0%Z (RiskAssessment.level_counts a' !! RiskLevel.value l)
  = (default 0 (RiskAssessment.level_counts a !! RiskLevel.value l) +
     Z.of_nat (length (List.filter (fun r => bool_decide (risk_level r = l))
                                   rs)))%Z /\
  default 0%Z (RiskAssessment.type_counts a' !! RiskType.value t)
  = (default 0 (RiskAssessment.type_counts a !! RiskType.value t) +
     Z.of_nat (length (List.filter (fun r => bool_decide (risk_type r = t))
                                   rs)))%Z.
Proof.
  revert a. induction rs as [|r rs IH]; intros a;
    cbn [fold_left List.filter length].
  - split; lia.
  - destruct (IH (RiskAssessment.summary_step a r)) as [-> ->].
    cbn [RiskAssessment.summary_step RiskAssessment.level_counts
         RiskAssessment.type_counts].
    rewrite !count_up_lookup. split.
    + repeat case_bool_decide; cbn [length]; try lia.
      * exfalso. eauto using RiskLevel_value_inj.
      * exfalso. congruence.
    + repeat case_bool_decide; cbn [length]; try lia.
      * exfalso. eauto using RiskType_value_inj.
      * exfalso. congruence.
Qed.

(** X17: in the summary of an assessment, the count under a level (0 when
    the key is absent) is the number of risks of that level, and likewise for
    the types; the critical count is the count under "critical", and the four
    level counts add up to the total. *)
Theorem summary_counts {R} `{PyNum R} (a : RiskAssessment.t R)
    (l : RiskLevel.t) (t : RiskType.t) :
  let s := RiskAssessment.get_summary a in
  let by_level k := default 0%Z (Summary.risks_by_level s !! k) in
  by_level (RiskLevel.value l)
  = Z.of_nat (length (List.filter (fun r => bool_decide (risk_level r = l))
                                  (RiskAssessment.risks a))) /\
  default 0%Z (Summary.risks_by_type s !! RiskType.value t)
  = Z.of_nat (length (List.filter (fun r => bool_decide (risk_type r = t))
                                  (RiskAssessment.risks a))) /\
  Summary.critical_count s = by_level "critical" /\
  Summary.total_risks s
  = (by_level "critical" + by_level "high" + by_level "medium" +
     by_level "low")%Z.
Proof.
  intros s by_level.
  assert (Hl : forall l',
            by_level (RiskLevel.value l')
            = Z.of_nat (length (List.filter
                                  (fun r => bool_decide (risk_level r = l'))
                                  (RiskAssessment.risks a)))).
  { intros l'. subst by_level s.
    cbn [RiskAssessment.get_summary Summary.risks_by_level].
    unfold RiskAssessment.summary_loop.
    destruct (summary_loop_counts (RiskAssessment.risks a)
                {| RiskAssessment.level_counts := ∅;
                   RiskAssessment.type_counts := ∅;
                   RiskAssessment.total_impact := of_int 0;
                   RiskAssessment.total_delay := 0 |} l' t) as [-> _].
    cbn [RiskAssessment.level_counts]. rewrite lookup_empty. cbn. lia. }
  split; [apply Hl|]. split.
  { subst s. cbn [RiskAssessment.get_summary Summary.risks_by_type].
    unfold RiskAssessment.summary_loop.
    destruct (summary_loop_counts (RiskAssessment.risks a)
                {| RiskAssessment.level_counts := ∅;
                   RiskAssessment.type_counts := ∅;
                   RiskAssessment.total_impact := of_int 0;
                   RiskAssessment.total_delay := 0 |} l t) as [_ ->].
    cbn [RiskAssessment.type_counts]. rewrite lookup_empty. cbn. lia. }
  pose proof (Hl RiskLevel.CRITICAL) as Hc. pose proof (Hl RiskLevel.HIGH) as Hh.
  pose proof (Hl RiskLevel.MEDIUM) as Hm. pose proof (Hl RiskLevel.LOW) as Hw.
  cbn [RiskLevel.value] in Hc, Hh, Hm, Hw. rewrite Hc, Hh, Hm, Hw.
  subst s. cbn [RiskAssessment.get_summary Summary.critical_count
                Summary.total_risks].
  unfold RiskAssessment.critical_risks, RiskAssessment.total_risks.
  split; [reflexivity|].
  clear Hl Hc Hh Hm Hw by_level.
  generalize (RiskAssessment.risks a) as rs.
  induction rs as [|r rs IH]; cbn [List.filter length].
  - reflexivity.
  - destruct (risk_level r); repeat case_bool_decide; try congruence;
      cbn [length]; lia.
Qed.

Lemma summary_loop_delay {R} `{PyNum R} (rs : list (Risk R))
    (a : RiskAssessment.acc) :
  let d := RiskAssessment.total_delay
             (fold_left RiskAssessment.summary_step rs a) in
  (RiskAssessment.total_delay a <= d)%Z /\
  Forall (fun r => (estimated_delay_days r <= d)%Z) rs /\
  (d = RiskAssessment.total_delay a \/
   exists r, r ∈ rs /\ estimated_delay_days r = d).
Proof.
  revert a. induction rs as [|r rs IH]; intros a; cbn [fold_left].
  - split; [lia|]. split; [constructor | left; reflexivity].
  - destruct (IH (RiskAssessment.summary_step a r)) as (Hge & Hall & Hex).
    cbn [RiskAssessment.summary_step RiskAssessment.total_delay] in Hge, Hex.
    split; [lia|]. split.
    + constructor; [lia | exact Hall].
    + destruct Hex as [Heq | (x & Hin & Hx)].
      * destruct (Z.max_spec (RiskAssessment.total_delay a)
                    (estimated_delay_days r)) as [[_ Hm] | [_ Hm]].
        -- right. exists r. split; [apply list_elem_of_here | lia].
        -- left. lia.
      * right. exists x. split; [apply list_elem_of_further, Hin | exact Hx].
Qed.

(** X18: the maximum delay of a summary is never negative, bounds the
    estimated delay of every risk of the assessment, and is the delay of one
    of them unless it is 0. *)
Theorem summary_max_delay {R} `{PyNum R} (a : RiskAssessment.t R) :
  let m := Summary.max_delay_days (RiskAssessment.get_summary a) in
  (0 <= m)%Z /\
  Forall (fun r => (estimated_delay_days r <= m)%Z) (RiskAssessment.risks a) /\
  (m = 0%Z \/
   exists r, r ∈ RiskAssessment.risks a /\ estimated_delay_days r = m).
Proof.
  cbn. unfold RiskAssessment.summary_loop.
  apply (summary_loop_delay (RiskAssessment.risks a)
           {| RiskAssessment.level_counts := ∅;
              RiskAssessment.type_counts := ∅;
              RiskAssessment.total_impact := of_int 0;
              RiskAssessment.total_delay := 0 |}).
Qed.

(** ** Suppliers and their dictionaries *)

(** X19: for a supplier with a non-empty id, as the constructor builds them,
    [Supplier.from_dict (s.to_dict ())] is [s] itself, whatever uuid would be
    drawn. *)
Theorem supplier_dict_round_trip {R} `{PyNum R} (uuid_bits : N)
    (s : Supplier R) :
  supplier_wf s -> Supplier_from_dict uuid_bits (Supplier_to_dict s) = Some s.
Proof. apply Supplier_round_trip. Qed.

Lemma supplier_dict_round_trip_witness :
  Supplier_from_dict (R:=Q) 99 (Supplier_to_dict foundry) = Some foundry.
Proof. apply supplier_dict_round_trip. discriminate. Defined.

(** X20: [Supplier.from_dict] raises when the name or the country is missing
    and when the criticality is no member's value; from a dictionary with a
    name and a country alone it builds a supplier with a fresh id, MEDIUM
    criticality, tier 1, no category, a lead time of 14 days and no spend. *)
Theorem supplier_from_dict_edges {R} `{PyNum R} (uuid_bits : N)
    (data : gmap string (pyval R)) (nm ctry bad : string) :
  (data !! "name" = None \/ data !! "country" = None ->
   Supplier_from_dict uuid_bits data = None) /\
  (data !! "criticality" = Some (PStr bad) ->
   SupplierCriticality.of_value bad = None ->
   Supplier_from_dict uuid_bits data = None) /\
  Supplier_from_dict uuid_bits (minimal_supplier_dict nm ctry)
  = Some {| supplier_id := uuid4_str uuid_bits; name := nm; country := ctry;
            city := None; region := None; latitude := None; longitude := None;
            criticality := SupplierCriticality.MEDIUM;
            tier := SupplierTier.TIER_1; categories := [];
            lead_time_days := 14; annual_spend := of_int 0 |}.
Proof.
  split; [|split].
  - intros Hmiss. unfold Supplier_from_dict.
    destruct (as_opt_str (data !! "supplier_id")); [|reflexivity].
    cbn [mbind option_bind].
    destruct Hmiss as [Hn | Hc].
    + rewrite Hn. reflexivity.
    + destruct (as_str (data !! "name")); [|reflexivity].
      cbn [mbind option_bind]. rewrite Hc. reflexivity.
  - intros Hcrit Hbad. unfold Supplier_from_dict. rewrite Hcrit.
    cbn [default from_option id as_str mbind option_bind]. rewrite Hbad.
    repeat lazymatch goal with
    | |- mbind _ ?o = None =>
        destruct o; cbn [mbind option_bind]; [|reflexivity]
    end.
    reflexivity.
  - reflexivity.
Qed.

Lemma supplier_from_dict_edges_witness :
  Supplier_from_dict (R:=Q) 7
    (list_to_map [("name", PStr "Lima Foundry")])
  = None.
Proof.
  destruct (supplier_from_dict_edges (R:=Q) 7
              (list_to_map [("name", PStr "Lima Foundry")]) "" "" "")
    as (Hmissing & _).
  apply Hmissing. right. reflexivity.
Defined.

Lemma lower_upper_ascii (c : ascii) : lower_ascii (upper_ascii c) = lower_ascii c.
Proof. destruct c as [[] [] [] [] [] [] [] []]; reflexivity. Qed.

Lemma lower_upper (s : string) : lower (upper s) = lower s.
Proof.
  induction s as [|c s IH]; [reflexivity|].
  cbn. rewrite lower_upper_ascii, IH. reflexivity.
Qed.

(** Two spellings with the same lower-case form are both empty or both not,
    and a supplier is in the one place exactly when it is in the other. *)
Lemma same_lower_place {R} `{PyNum R} (s : Supplier R) (x y : option string) :
  lower <$> x = lower <$> y ->
  str_truthy x = str_truthy y /\
  is_in_country s x = is_in_country s y /\
  is_in_region s x = is_in_region s y /\
  is_in_city s x = is_in_city s y.
Proof.
  destruct x as [[|a x]|], y as [[|b y]|]; cbn [fmap option_fmap option_map];
    intros Hxy; try discriminate Hxy; try (repeat split; reflexivity).
  assert (Hl : lower (String a x) = lower (String b y)) by congruence.
  unfold is_in_country, is_in_region, is_in_city. rewrite Hl.
  repeat split; reflexivity.
Qed.

(** X21: geographic matching ignores case: two event locations whose
    country, region and city have the same lower-case forms match the same
    suppliers.  [Supplier.matches_location] and the analyzer's
    [_check_geographic_match] agree. *)
Theorem geographic_match_ignores_case {R} `{PyNum R} (s : Supplier R)
    (country1 country2 region1 region2 city1 city2 : option string) :
  lower <$> country1 = lower <$> country2 ->
  lower <$> region1 = lower <$> region2 ->
  lower <$> city1 = lower <$> city2 ->
  _check_geographic_match s country1 region1 city1
  = _check_geographic_match s country2 region2 city2 /\
  matches_location s country1 region1 city1
  = _check_geographic_match s country2 region2 city2.
Proof.
  intros Hc Hr Ht.
  destruct (same_lower_place s _ _ Hc) as (Hc1 & Hc2 & _ & _).
  destruct (same_lower_place s _ _ Hr) as (Hr1 & _ & Hr2 & _).
  destruct (same_lower_place s _ _ Ht) as (Ht1 & _ & _ & Ht2).
  unfold _check_geographic_match, matches_location.
  rewrite Hc1, Hc2, Hr1, Hr2, Ht1, Ht2. split; reflexivity.
Qed.

Lemma geographic_match_ignores_case_witness :
  _check_geographic_match (R:=Q) foundry (Some "PERU") None (Some "Lima")
  = _check_geographic_match (R:=Q) foundry (Some "peru") None (Some "LIMA") /\
  matches_location (R:=Q) foundry (Some "PERU") None (Some "Lima")
  = _check_geographic_match (R:=Q) foundry (Some "peru") None (Some "LIMA").
Proof. apply (geographic_match_ignores_case (R:=Q)); reflexivity. Defined.

(** ** Affected suppliers, continued *)

Lemma filter_sublist {A} (f : A -> bool) (l : list A) :
  sublist (List.filter f l) l.
Proof.
  induction l as [|x l IH]; cbn; [constructor|].
  destruct (f x); [apply sublist_skip | apply sublist_cons]; exact IH.
Qed.

Lemma filter_idem {A} (f : A -> bool) (l : list A) :
  List.filter f (List.filter f l) = List.filter f l.
Proof.
  induction l as [|x l IH]; cbn; [reflexivity|].
  destruct (f x) eqn:E; cbn; [rewrite E, IH|]; auto.
Qed.

Lemma filter_none {A} (f : A -> bool) (l : list A) :
  (forall x, f x = false) -> List.filter f l = [].
Proof.
  intros Hf. induction l as [|x l IH]; cbn; [reflexivity|].
  rewrite Hf. exact IH.
Qed.

(** X22: the affected suppliers are a sub-list of the catalog, in catalog
    order; looking for the suppliers affected among them returns them all;
    and an event that names no place and has no keyword affects nobody. *)
Theorem affected_suppliers_sublist {R} `{PyNum R}
    (suppliers : list (Supplier R)) (event : Event.t R) :
  let affected := find_affected_suppliers suppliers event in
  sublist affected suppliers /\
  find_affected_suppliers affected event = affected /\
  (event_without_place event -> default [] (Event.keywords event) = [] ->
   affected = []).
Proof.
  cbn zeta. unfold find_affected_suppliers. split; [apply filter_sublist|].
  split; [apply filter_idem|].
  intros (Hc & Hr & Ht) Hk. apply filter_none. intros s.
  unfold _check_geographic_match. rewrite Hc, Hr, Ht, Hk. reflexivity.
Qed.

Lemma affected_suppliers_sublist_witness :
  find_affected_suppliers (R:=Q) [scenario_supplier; foundry]
    (event_of_severity (Some "critical"))
  = [].
Proof.
  destruct (affected_suppliers_sublist (R:=Q) [scenario_supplier; foundry]
              (event_of_severity (Some "critical"))) as (_ & _ & Hnone).
  apply Hnone; [repeat split|]; reflexivity.
Defined.

Lemma str_contains_empty (s : string) : str_contains "" s = true.
Proof. destruct s; reflexivity. Qed.

(** X23: an empty keyword is contained in every category, so an event whose
    keyword list holds one affects every supplier of the catalog that has a
    category, wherever the event is. *)
Theorem blank_keyword_matches_all {R} `{PyNum R}
    (suppliers : list (Supplier R)) (event : Event.t R) (s : Supplier R) :
  s ∈ suppliers ->
  "" ∈ default [] (Event.keywords event) ->
  categories s <> [] ->
  s ∈ find_affected_suppliers suppliers event.
Proof.
  intros Hin Hblank Hcat. unfold find_affected_suppliers.
  apply list_elem_of_In, filter_In. split; [apply list_elem_of_In, Hin|].
  apply orb_true_iff. right. unfold _check_category_match.
  destruct (default [] (Event.keywords event)) as [|k ks] eqn:Hk.
  { apply elem_of_nil in Hblank. contradiction. }
  destruct (categories s) as [|c cs]; [congruence|].
  apply orb_true_iff. left. cbn [existsb]. apply orb_true_iff. left.
  apply orb_true_iff. right. apply existsb_exists. exists "". split.
  - apply list_elem_of_In. change "" with (lower "").
    apply list_elem_of_fmap_2, Hblank.
  - apply orb_true_iff. right. apply str_contains_empty.
Qed.

Lemma blank_keyword_matches_all_witness :
  foundry ∈ find_affected_suppliers (R:=Q) [scenario_supplier; foundry]
              blank_keyword_event.
Proof.
  apply blank_keyword_matches_all.
  - apply list_elem_of_further, list_elem_of_here.
  - apply list_elem_of_further, list_elem_of_here.
  - discriminate.
Defined.

(** X24: a supplier of the catalog whose country is the event's country, up
    to case, is affected whatever the keywords, the region and the city. *)
Theorem same_country_is_affected {R} `{PyNum R}
    (suppliers : list (Supplier R)) (event : Event.t R) (s : Supplier R)
    (c : string) :
  s ∈ suppliers ->
  event_country event = Some c -> c <> "" ->
  lower c = lower (country s) ->
  s ∈ find_affected_suppliers suppliers event.
Proof.
  intros Hin Hc Hne Hlow. unfold find_affected_suppliers.
  apply list_elem_of_In, filter_In. split; [apply list_elem_of_In, Hin|].
  apply orb_true_iff. left. unfold event_country in Hc. rewrite Hc.
  unfold _check_geographic_match.
  destruct (str_truthy _ && is_in_city s _); [reflexivity|].
  destruct (str_truthy _ && is_in_region s _); [reflexivity|].
  destruct c as [|a c]; [congruence|].
  cbn [str_truthy andb is_in_country]. rewrite Hlow, String.eqb_refl.
  reflexivity.
Qed.

Lemma same_country_is_affected_witness :
  foundry ∈ find_affected_suppliers (R:=Q) [scenario_supplier; foundry]
              peru_event.
Proof.
  apply (same_country_is_affected _ _ _ "PERU").
  - apply list_elem_of_further, list_elem_of_here.
  - reflexivity.
  - discriminate.
  - reflexivity.
Defined.

(** ** Impact on one supplier *)






Ltac recommendation_cases x supplier :=
  let E8 := fresh "E8" in
  let E5 := fresh "E5" in
  let Hc := fresh "Hc" in
  let Hl := fresh "Hl" in
  destruct (x >=? lit 0.8)%py eqn:E8;
  destruct (x >=? lit 0.5)%py eqn:E5;
  [apply Q_geb_iff in E8; apply Q_geb_iff in E5
  |apply Q_geb_iff in E8; apply Q_geb_false in E5
  |apply Q_geb_false in E8; apply Q_geb_iff in E5
  |apply Q_geb_false in E8; apply Q_geb_false in E5];
  cbn [lit PyNum_Q] in E5, E8;
  case_bool_decide as Hc;
  destruct (Z.ltb_spec 20 (lead_time_days supplier)) as [Hl|Hl];
  cbn [app].

Ltac eval_str_in :=
  try match goal with
      | |- context [str_in ?a ?l] =>
          let b := eval vm_compute in (str_in a l) in
          change (str_in a l) with b
      end.

Ltac distinct_strings :=
  repeat (apply NoDup_cons_2;
          [rewrite <- str_in_iff; vm_compute; discriminate|]);
  apply NoDup_nil_2.

(** X26: in the recommendations for a supplier, the escalation to the
    executive leadership is present exactly for a CRITICAL supplier, the air
    freight alternative exactly for a lead time above 20 days, the activation
    of a backup supplier exactly for an impact of 0.8 or more and the request
    for a status update exactly for an impact of 0.5 or more, so that the
    former never comes without the latter; no recommendation is repeated,
    and the list is empty exactly when the impact is below 0.5, the supplier
    is not CRITICAL and the lead time is at most 20 days. *)
Theorem recommendations_structure (supplier : Supplier Q) (impact : Q) :
  let recommendations := _generate_recommendations supplier impact in
  ("Escalate to executive leadership" ∈ recommendations <->
   criticality supplier = SupplierCriticality.CRITICAL) /\
  ("Consider air freight alternatives" ∈ recommendations <->
   (20 < lead_time_days supplier)%Z) /\
  ("Activate backup supplier immediately" ∈ recommendations <->
   0.8 <= impact) /\
  ("Contact supplier for status update" ∈ recommendations <->
   0.5 <= impact) /\
  NoDup recommendations /\
  (recommendations = [] <->
   impact < 0.5 /\ criticality supplier <> SupplierCriticality.CRITICAL /\
   (lead_time_days supplier <= 20)%Z).
Proof.
  cbn zeta. unfold _generate_recommendations. rewrite <- !str_in_iff.
  recommendation_cases impact supplier; try lra;
    (split; [|split; [|split; [|split; [|split]]]]);
    eval_str_in; try distinct_strings;
    try (split; intros;
         first [reflexivity | assumption | lra | lia | congruence
               | discriminate]).
  all: split;
    [ intros Heq; try discriminate Heq; repeat split;
      first [assumption | lra | lia]
    | intros (Hi & Hn & Hd); first [reflexivity | congruence] ].
Qed.

(** ** Queries on the catalog *)

Lemma find_unique {A} (f : A -> string) (l : list A) (x : A) :
  NoDup (f <$> l) -> x ∈ l ->
  List.find (fun y => String.eqb (f y) (f x)) l = Some x.
Proof.
  intros Hnd Hin. induction Hin as [x l|x y l Hin IH]; cbn [List.find].
  - rewrite String.eqb_refl. reflexivity.
  - rewrite fmap_cons in Hnd. apply NoDup_cons in Hnd as [Hnot Hnd].
    destruct (String.eqb_spec (f y) (f x)) as [Heq|_].
    + exfalso. apply Hnot. rewrite Heq. apply list_elem_of_fmap_2, Hin.
    + apply IH, Hnd.
Qed.

(** X27: [get_supplier_by_id] returns a supplier of the catalog that has
    the id; it returns None exactly when no supplier of the catalog has the
    id; and when the ids of the catalog are distinct, looking up the id of a
    supplier of the catalog returns that supplier. *)
Theorem supplier_lookup {R} `{PyNum R}
    (suppliers : list (Supplier R)) (id : string) :
  (forall s, get_supplier_by_id suppliers id = Some s ->
             s ∈ suppliers /\ supplier_id s = id) /\
  (get_supplier_by_id suppliers id = None <->
   forall s, s ∈ suppliers -> supplier_id s <> id) /\
  (NoDup (supplier_id <$> suppliers) ->
   forall s, s ∈ suppliers ->
             get_supplier_by_id suppliers (supplier_id s) = Some s).
Proof.
  unfold get_supplier_by_id. split; [|split].
  - intros s Hs. apply find_some in Hs as [Hin Heq].
    split; [apply list_elem_of_In, Hin | apply String.eqb_eq, Heq].
  - split.
    + intros Hnone s Hin Heq. apply list_elem_of_In in Hin.
      pose proof (find_none _ _ Hnone s Hin) as Hneq. cbn in Hneq.
      apply String.eqb_neq in Hneq. contradiction.
    + intros Hall.
      destruct (List.find _ suppliers) as [s|] eqn:Hs; [|reflexivity].
      apply find_some in Hs as [Hin Heq]. exfalso.
      apply (Hall s); [apply list_elem_of_In, Hin | apply String.eqb_eq, Heq].
  - intros Hnd s Hin. apply (find_unique supplier_id), Hin. exact Hnd.
Qed.

Lemma supplier_lookup_witness :
  get_supplier_by_id (R:=Q) [scenario_supplier; foundry]
    (supplier_id (R:=Q) foundry)
  = Some foundry.
Proof.
  destruct (supplier_lookup (R:=Q) [scenario_supplier; foundry]
              (supplier_id (R:=Q) foundry)) as (_ & _ & Hfound).
  apply Hfound.
  - rewrite !fmap_cons. distinct_strings.
  - apply list_elem_of_further, list_elem_of_here.
Defined.

Lemma filter_ext_bool {A} (f g : A -> bool) (l : list A) :
  (forall x, f x = g x) -> List.filter f l = List.filter g l.
Proof.
  intros Hfg. induction l as [|x l IH]; cbn; [reflexivity|].
  rewrite Hfg, IH. reflexivity.
Qed.

(** X28: the suppliers of a country, as [get_suppliers_by_country] returns
    them, are the suppliers affected by an event that names only this
    country; for the empty name both are empty. *)
Theorem country_query_agrees {R} `{PyNum R}
    (suppliers : list (Supplier R)) (c : string) :
  get_suppliers_by_country suppliers (Some c)
  = find_affected_suppliers suppliers (country_event c) /\
  get_suppliers_by_country suppliers (Some "") = [].
Proof.
  split.
  - unfold get_suppliers_by_country, find_affected_suppliers.
    apply filter_ext_bool. intros s. cbn [country_event Event.location
      Event.keywords default from_option id Location.country Location.region
      Location.city].
    unfold _check_geographic_match, _check_category_match.
    destruct c as [|a c]; [reflexivity|].
    cbn [str_truthy andb orb]. rewrite orb_false_r.
    destruct (is_in_country s _); reflexivity.
  - apply filter_none. intros s. reflexivity.
Qed.

(** ** The geographic distribution *)

Lemma country_distribution_fold {R} `{PyNum R}
    (suppliers : list (Supplier R)) (m : gmap string (CountryData.t R))
    (c : string) :
  let entry :=
    default {| CountryData.supplier_count := 0;
               CountryData.total_spend := of_int 0;
               CountryData.suppliers := [] |} (m !! c) in
  let selected := suppliers_of_country c suppliers in
  fold_left
    (fun distribution supplier =>
       let country := country supplier in
       let entry :=
         default {| CountryData.supplier_count := 0;
                    CountryData.total_spend := of_int 0;
                    CountryData.suppliers := [] |}
                 (distribution !! country) in
       <[country :=
           {| CountryData.supplier_count :=
                (CountryData.supplier_count entry + 1)%Z;
              CountryData.total_spend :=
                (CountryData.total_spend entry + annual_spend supplier)%py;
              CountryData.suppliers :=
                (CountryData.suppliers entry ++ [name supplier])%list |}]>
         distribution)
    suppliers m !! c
  = match selected with
    | [] => m !! c
    | _ :: _ =>
        Some {| CountryData.supplier_count :=
                  (CountryData.supplier_count entry
                   + Z.of_nat (length selected))%Z;
                CountryData.total_spend :=
                  fold_left add (annual_spend <$> selected)
                    (CountryData.total_spend entry);
                CountryData.suppliers :=
                  (CountryData.suppliers entry ++ (name <$> selected))%list |}
    end.
Proof.
  cbn zeta. revert m.
  induction suppliers as [|s suppliers IH]; intros m; [reflexivity|].
  cbn [fold_left]. rewrite IH. unfold suppliers_of_country.
  cbn [List.filter]. fold (suppliers_of_country c suppliers).
  destruct (String.eqb_spec (country s) c) as [Hc|Hc].
  - rewrite Hc, lookup_insert_eq. cbn [default from_option id
      CountryData.supplier_count CountryData.total_spend CountryData.suppliers].
    destruct (suppliers_of_country c suppliers) as [|s' selected];
      [reflexivity|].
    cbn [length fmap list_fmap fold_left]. f_equal. f_equal.
    + lia.
    + rewrite <- app_assoc. reflexivity.
  - rewrite lookup_insert_ne by exact Hc. reflexivity.
Qed.

(** X29: the entry of a country in the distribution counts the suppliers
    whose country is exactly this one, sums their annual spends and lists
    their names in catalog order; a country without supplier has no entry. *)
Theorem country_distribution_lookup {R} `{PyNum R}
    (suppliers : list (Supplier R)) (c : string) :
  _calculate_country_distribution suppliers !! c
  = match suppliers_of_country c suppliers with
    | [] => None
    | selected =>
        Some {| CountryData.supplier_count := Z.of_nat (length selected);
                CountryData.total_spend := py_sum (annual_spend <$> selected);
                CountryData.suppliers := name <$> selected |}
    end.
Proof.
  unfold _calculate_country_distribution.
  rewrite country_distribution_fold, lookup_empty.
  destruct (suppliers_of_country c suppliers); reflexivity.
Qed.

(** ** The geographic risk *)

Lemma py_sum_nonneg_acc (l : list Q) (x : Q) :
  0 <= x -> Forall (fun y => 0 <= y) l -> 0 <= fold_left add l x.
Proof.
  intros Hx Hl. revert x Hx.
  induction Hl as [|y l Hy _ IH]; intros x Hx; cbn [fold_left];
    [exact Hx|].
  apply IH. cbn. lra.
Qed.

Lemma geo_multiplier_range (severity : string) :
  0.8 <= default (lit 1.0) (severity_multipliers (R:=Q) !! severity) /\
  default (lit 1.0) (severity_multipliers (R:=Q) !! severity) <= 1.3.
Proof.
  unfold severity_multipliers.
  rewrite !list_to_map_cons, list_to_map_nil, !lookup_insert, lookup_empty.
  repeat case_decide; cbn; lra.
Qed.

Lemma Qdiv_nonneg (a b : Q) : 0 <= a -> 0 < b -> 0 <= a / b.
Proof.
  intros Ha Hb. apply Qle_shift_div_l; [exact Hb|]. lra.
Qed.

Lemma geo_risk_factor_range (conc sconc mult : Q) :
  0 <= conc -> 0 <= sconc -> 0.8 <= mult ->
  0 <= round_nd 3 (py_min (lit 1.0) ((conc * lit 0.4 + sconc * lit 0.6) * mult)%py) /\
  round_nd 3 (py_min (lit 1.0) ((conc * lit 0.4 + sconc * lit 0.6) * mult)%py) <= 1.
Proof.
  intros Hc Hs Hm. apply round3_range.
  - apply py_min_glb; cbn; [lra | nra].
  - eapply Qle_trans; [apply py_min_le_l | cbn; lra].
Qed.

Lemma geo_risk_factor_zero (conc sconc mult : Q) :
  conc == 0 -> sconc == 0 ->
  round_nd 3 (py_min (lit 1.0) ((conc * lit 0.4 + sconc * lit 0.6) * mult)%py) == 0.
Proof.
  intros Hc Hs.
  assert (Hz : ((conc * lit 0.4 + sconc * lit 0.6) * mult)%py == 0).
  { cbn. rewrite Hc, Hs. ring. }
  set (raw := ((conc * lit 0.4 + sconc * lit 0.6) * mult)%py) in *.
  clearbody raw.
  destruct (py_min_Q (lit 1.0) raw) as [Hlt _].
  rewrite Hlt by (cbn; lra).
  assert (Hfix : round_nd 3 raw == raw).
  { apply round3_fixed_iff. exists 0%Z. rewrite Hz. reflexivity. }
  rewrite Hfix. exact Hz.
Qed.

(** X30: for a correlator as the constructor builds it, whose suppliers
    have annual spends that are not negative, and an event with a non-empty
    country: the number of suppliers in the region is the number of
    suppliers whose country is exactly the event's country, and the risk
    factor lies between 0 and 1; when no supplier has exactly this country,
    a difference of case being enough, the risk factor is 0 and the
    concentration risk is "low". *)
Theorem geographic_risk_range (self : GeographicCorrelator (R:=Q))
    (event : Event.t Q) (c : string)
    (Hself : _country_distribution self
             = _calculate_country_distribution (gc_suppliers self))
    (Hspend : Forall (fun s => 0 <= annual_spend s) (gc_suppliers self))
    (Hc : event_country event = Some c)
    (Hne : c <> "") :
  let result := calculate_geographic_risk self event in
  let selected := suppliers_of_country c (gc_suppliers self) in
  result !! "suppliers_in_region" = Some (PInt (Z.of_nat (length selected))) /\
  (exists x, result !! "risk_factor" = Some (PFloat x) /\ 0 <= x /\ x <= 1 /\
             (selected = [] -> x == 0)) /\
  (selected = [] -> result !! "concentration_risk" = Some (PStr "low")).
Proof.
  cbn zeta. unfold calculate_geographic_risk. unfold event_country in Hc.
  rewrite Hc. destruct c as [|a c']; [congruence|]. 
  set (cn := String a c') in *.
  rewrite Hself. unfold _calculate_country_distribution.
  rewrite country_distribution_fold, lookup_empty.
  assert (Hsel : Forall (fun s => 0 <= annual_spend s)
                   (suppliers_of_country cn (gc_suppliers self))).
  { apply Forall_forall. intros s Hs. apply list_elem_of_In in Hs.
    apply filter_In in Hs as [Hs _]. apply list_elem_of_In in Hs.
    revert s Hs. apply Forall_forall, Hspend. }
  set (selected := suppliers_of_country cn (gc_suppliers self)) in *.
  set (entry := match selected with [] => None | _ :: _ => _ end).
  assert (Hcount : default 0%Z (CountryData.supplier_count <$> entry)
                   = Z.of_nat (length selected)).
  { subst entry. destruct selected; reflexivity. }
  assert (Hsp : 0 <= default (of_int 0) (CountryData.total_spend <$> entry) /\
                (selected = [] ->
                 default (of_int 0) (CountryData.total_spend <$> entry) == 0)).
  { subst entry. destruct selected as [|s l].
    - split; [apply Qle_refl | intros _; reflexivity].
    - split; [|discriminate].
      cbn [fmap option_fmap option_map default from_option id
           CountryData.total_spend].
      apply py_sum_nonneg_acc; [apply Qle_refl|].
      apply Forall_fmap. exact Hsel. }
  rewrite Hcount. clearbody entry.
  set (spend := default (of_int 0) (CountryData.total_spend <$> entry)) in *.
  clearbody spend. destruct Hsp as [Hsp0 Hspz].
  assert (Htotal : 0 <= py_sum (annual_spend <$> gc_suppliers self)).
  { apply py_sum_nonneg_acc; [apply Qle_refl|].
    apply Forall_fmap. exact Hspend. }
  set (total_spend := py_sum (annual_spend <$> gc_suppliers self)) in *.
  clearbody total_spend.
  assert (Hconc :
    0 <= (if (Z.of_nat (length (gc_suppliers self)) =? 0)%Z then of_int 0
          else of_int (Z.of_nat (length selected)) /
               of_int (Z.of_nat (length (gc_suppliers self))))%py /\
    (selected = [] ->
     (if (Z.of_nat (length (gc_suppliers self)) =? 0)%Z then of_int 0
      else of_int (Z.of_nat (length selected)) /
           of_int (Z.of_nat (length (gc_suppliers self))))%py == 0)).
  { destruct (Z.eqb_spec (Z.of_nat (length (gc_suppliers self))) 0)
      as [_|Hlen].
    - split; [apply Qle_refl | intros _; reflexivity].
    - cbn [of_int div PyNum_Q]. split.
      + apply Qdiv_nonneg.
        * change 0 with (inject_Z 0). rewrite <- Zle_Qle. lia.
        * change 0 with (inject_Z 0). rewrite <- Zlt_Qlt. lia.
      + intros ->. cbn [length Z.of_nat]. unfold Qdiv.
        apply Qmult_0_l. }
  set (conc := (if (Z.of_nat (length (gc_suppliers self)) =? 0)%Z
                then of_int 0 else _)%py) in *.
  clearbody conc. destruct Hconc as [Hconc0 Hconcz].
  assert (Hsconc :
    0 <= (if total_spend =? of_int 0 then of_int 0
          else spend / total_spend)%py /\
    (selected = [] ->
     (if total_spend =? of_int 0 then of_int 0
      else spend / total_spend)%py == 0)).
  { cbn [eqb of_int div PyNum_Q].
    destruct (Qeq_bool total_spend (inject_Z 0)) eqn:Ez.
    - split; [apply Qle_refl | intros _; reflexivity].
    - apply Qeq_bool_neq in Ez. change (inject_Z 0) with 0 in Ez. split.
      + apply Qdiv_nonneg; [exact Hsp0|].
        apply Qle_lteq in Htotal as [Hlt|Heq]; [exact Hlt|].
        exfalso. apply Ez. symmetry. exact Heq.
      + intros Hnil. rewrite (Hspz Hnil). unfold Qdiv. apply Qmult_0_l. }
  set (sconc := (if total_spend =? of_int 0 then of_int 0 else _)%py) in *.
  clearbody sconc. destruct Hsconc as [Hsconc0 Hsconcz].
  pose proof (geo_multiplier_range (default "medium" (Event.severity event)))
    as [Hm _].
  set (mult := default _ (severity_multipliers !! _)) in *. clearbody mult.
  split; [reflexivity|]. split.
  - eexists. split; [reflexivity|].
    destruct (geo_risk_factor_range conc sconc mult Hconc0 Hsconc0 Hm)
      as [Hlo Hhi].
    split; [exact Hlo|]. split; [exact Hhi|].
    intros Hnil. apply geo_risk_factor_zero; auto.
  - intros Hnil. specialize (Hconcz Hnil).
    change (list_to_map _ !! "concentration_risk")
      with (Some (PStr (R:=Q) (if (conc >=? lit 0.3)%py then "high"
                        else if (conc >=? lit 0.15)%py then "medium"
                        else "low"))).
    destruct (conc >=? lit 0.3)%py eqn:E3.
    { apply Q_geb_iff in E3. cbn in E3. lra. }
    destruct (conc >=? lit 0.15)%py eqn:E15.
    { apply Q_geb_iff in E15. cbn in E15. lra. }
    reflexivity.
Qed.

Lemma geographic_risk_range_witness :
  calculate_geographic_risk two_supplier_correlator peru_event
    !! "suppliers_in_region" = Some (PInt 0).
Proof.
  destruct (geographic_risk_range two_supplier_correlator peru_event "PERU")
    as [Hcount _].
  - reflexivity.
  - repeat constructor; vm_compute; discriminate.
  - reflexivity.
  - discriminate.
  - exact Hcount.
Defined.
